(** * Blog back end: document lifecycle rules and route handlers

    A shallow embedding of the Post and Category models (their pre-save
    hooks), of the comment, post and category routers, and of the parts of
    the JavaScript runtime they call.  Documents are records, a collection is
    the list of its documents in insertion order, a request's query string is
    a finite map from parameter names to strings, and a handler is a function
    from the store and the request to a response and the next store. *)

From Stdlib Require Import ZArith Ascii String DecimalString Sorted.
From stdpp Require Import gmap strings list.

Local Open Scope string_scope.

(** ** The JavaScript primitives the sources call

    A string is a sequence of code units; the units modelled are those below
    256, which is what [ascii] holds. *)
Module JS.

Definition code (c : ascii) : Z := Z.of_N (N_of_ascii c).

Definition inRange (lo hi : Z) (c : ascii) : bool :=
  ((lo <=? code c) && (code c <=? hi))%Z.

(** [\s] of a regular expression, and the white space [trim] and
    [parseInt] skip. *)
Definition isWhiteSpace (c : ascii) : bool :=
  inRange 9 13 c || (code c =? 32)%Z || (code c =? 160)%Z.

Definition isDigit (c : ascii) : bool := inRange 48 57 c.

Definition isUpper (c : ascii) : bool :=
  inRange 65 90 c || (inRange 192 222 c && negb (code c =? 215)%Z).

Definition lowerChar (c : ascii) : ascii :=
  if isUpper c then ascii_of_N (N_of_ascii c + 32) else c.

(** [s.toLowerCase()] *)
Fixpoint toLowerCase (s : string) : string :=
  match s with
  | EmptyString => EmptyString
  | String c r => String (lowerChar c) (toLowerCase r)
  end.

(** [s.substring(0, n)] *)
Definition prefix (n : nat) (s : string) : string := String.substring 0 n s.

(** [s.slice(-k)] *)
Definition sliceLast (k : nat) (s : string) : string :=
  String.substring (String.length s - k) k s.

Fixpoint trimStart (s : string) : string :=
  match s with
  | EmptyString => EmptyString
  | String c r => if isWhiteSpace c then trimStart r else s
  end.

Fixpoint trimEnd (s : string) : string :=
  match s with
  | EmptyString => EmptyString
  | String c r =>
      match trimEnd r with
      | EmptyString => if isWhiteSpace c then EmptyString else String c EmptyString
      | r' => String c r'
      end
  end.

(** [s.trim()] *)
Definition trim (s : string) : string := trimEnd (trimStart s).

(** Truthiness of a value that is a string, [undefined] or [null]. *)
Definition truthy (v : option string) : bool :=
  match v with
  | Some (String _ _) => true
  | _ => false
  end.

(** [v || d] on such a value. *)
Definition orElse (v : option string) (d : string) : string :=
  match v with
  | Some (String c r) => String c r
  | _ => d
  end.

(** [s.replace(/<[^>]*>/g, '')]: every [<] that has a [>] somewhere after
    it is removed together with the text up to the first such [>].  The
    scanner holds in [pending] the text read since an unclosed [<]; at the
    end of the input an unclosed [<] and what follows it are kept. *)
Fixpoint stripTagsFrom (pending : option string) (s : string) : string :=
  match s, pending with
  | EmptyString, None => EmptyString
  | EmptyString, Some p => p
  | String c r, None =>
      if (code c =? 60)%Z then stripTagsFrom (Some (String c EmptyString)) r
      else String c (stripTagsFrom None r)
  | String c r, Some p =>
      if (code c =? 62)%Z then stripTagsFrom None r
      else stripTagsFrom (Some (p +:+ String c EmptyString)) r
  end.

Definition stripTags (s : string) : string := stripTagsFrom None s.

(** [s.split(/\s+/).length]: one more than the number of maximal runs of
    white space. [inRun] tells whether the previous unit was white space. *)
Fixpoint splitCountFrom (inRun : bool) (s : string) : Z :=
  match s with
  | EmptyString => 1
  | String c r =>
      if isWhiteSpace c
      then ((if inRun then 0 else 1) + splitCountFrom true r)%Z
      else splitCountFrom false r
  end.

Definition splitCount (s : string) : Z := splitCountFrom false s.

(** [Math.ceil(a / b)] on integers, [b] not zero. *)
Definition ceilDiv (a b : Z) : Z := (- ((- a) / b))%Z.

(** [n.toString()] of an integer. *)
Definition toString (n : Z) : string := NilZero.string_of_int (Z.to_int n).

Definition digitValue (radix : Z) (c : ascii) : option Z :=
  let v :=
    if isDigit c then Some (code c - 48)%Z
    else if inRange 97 122 c then Some (code c - 87)%Z
    else if inRange 65 90 c then Some (code c - 55)%Z
    else None in
  match v with
  | Some d => if (d <? radix)%Z then Some d else None
  | None => None
  end.

(** The value of the longest prefix of digits, [acc] the value read so
    far ([None]: no digit yet). *)
Fixpoint readDigits (radix : Z) (acc : option Z) (s : string) : option Z :=
  match s with
  | EmptyString => acc
  | String c r =>
      match digitValue radix c with
      | Some d => readDigits radix (Some (radix * default 0%Z acc + d)%Z) r
      | None => acc
      end
  end.

Definition readSign (s : string) : Z * string :=
  match s with
  | String "-" r => ((-1)%Z, r)
  | String "+" r => (1%Z, r)
  | _ => (1%Z, s)
  end.

(** [Number.MAX_SAFE_INTEGER]: up to it the integers are numbers of the
    language and its arithmetic on them is exact. *)
Definition maxSafeInteger : Z := 2 ^ 53 - 1.

(** [parseInt(v)] of a string or [undefined]; [None] is [NaN].  The result
    is the integer the digits spell; the number of the language is the
    double nearest to it, which is that integer up to [maxSafeInteger]. *)
Definition parseInt (v : option string) : option Z :=
  match v with
  | None => None
  | Some s =>
      let '(sign, r) := readSign (trimStart s) in
      let '(radix, digits) :=
        match r with
        | String "0" (String "x" d) | String "0" (String "X" d) => (16%Z, d)
        | _ => (10%Z, r)
        end in
      (fun n => (sign * n)%Z) <$> readDigits radix None digits
  end.

(** [parseInt(v) || d]: [NaN] and [0] are falsy. *)
Definition parseIntOr (v : option string) (d : Z) : Z :=
  match parseInt v with
  | Some n => if (n =? 0)%Z then d else n
  | None => d
  end.

(** [s.split(sep)] for a separator of one unit. *)
Fixpoint split (sep : ascii) (s : string) : list string :=
  match s with
  | EmptyString => [EmptyString]
  | String c r =>
      if bool_decide (c = sep) then EmptyString :: split sep r
      else
        match split sep r with
        | x :: xs => String c x :: xs
        | [] => [String c EmptyString]
        end
  end.

Fixpoint allDigits (s : string) : bool :=
  match s with
  | EmptyString => true
  | String c r => isDigit c && allDigits r
  end.

End JS.

(** ** Shared types *)

(** An ObjectId in its 24 digit hexadecimal form; the empty string stands for
    a reference that is not set. *)
Definition ObjectId := string.

(** A date as milliseconds since the epoch. *)
Definition Date := Z.

(** The readings of the clock during one save: [Date.now()] in the slug
    block, [new Date()] in the publish block, and the time the timestamps
    option writes. *)
Record Clock := { atSlug : Z; atPublish : Date; atStamp : Date }.

(** A Mongoose document: the field values, whether it was never saved, and
    the paths assigned since it was loaded. *)
Record Document (T : Type) := Doc {
  fields : T;
  isNew : bool;
  modifiedPaths : gset string
}.
Arguments Doc {T} _ _ _.
Arguments fields {T} _.
Arguments isNew {T} _.
Arguments modifiedPaths {T} _.

(** [this.isModified(path)] *)
Definition isModified {T} (path : string) (d : Document T) : bool :=
  bool_decide (path ∈ modifiedPaths d).

(** [this.path = v] after the schema's setters: the value is stored, and the
    path is marked modified when the document is new or the value differs
    from the one it replaces. *)
Definition assign {T A} `{EqDecision A} (path : string) (get : T -> A)
    (set : A -> T -> T) (v : A) (d : Document T) : Document T :=
  {| fields := set v (fields d);
     isNew := isNew d;
     modifiedPaths :=
       if isNew d || negb (bool_decide (get (fields d) = v))
       then {[path]} ∪ modifiedPaths d
       else modifiedPaths d |}.

(** ** The Post model *)
Module Post.

Inductive Status := draft | published | archived.
Inductive ContentType := markdown | html | richtext.

Record FeaturedImage := { url : option string; alt : string; caption : string }.

Record Seo := {
  metaTitle : option string;
  metaDescription : option string;
  metaKeywords : list string;
  ogImage : option string;
  canonicalUrl : option string
}.

Record ExternalLink := {
  linkTitle : string;
  linkUrl : string;
  linkDescription : option string;
  isDefault : bool;
  openInNewTab : bool;
  order : Z
}.

Record AffiliateLink := { text : string; affiliateUrl : string; position : string }.

Record Analytics := { impressions : Z; clicks : Z; shares : Z; avgTimeOnPage : Z }.

Record t := Build {
  _id : ObjectId;
  title : string;
  slug : string;
  content : string;
  excerpt : option string;
  featuredImage : FeaturedImage;
  category : ObjectId;
  tags : list string;
  author : ObjectId;
  status : Status;
  publishedAt : option Date;
  scheduledFor : option Date;
  views : Z;
  likes : Z;
  readingTime : Z;
  seo : Seo;
  contentType : ContentType;
  relatedPosts : list ObjectId;
  commentsEnabled : bool;
  commentCount : Z;
  externalLinks : list ExternalLink;
  affiliateLinks : list AffiliateLink;
  adSenseEnabled : bool;
  analytics : Analytics;
  createdAt : Date;
  updatedAt : Date
}.

Definition set_title (v : string) (p : t) : t :=
  {| _id := _id p; title := v; slug := slug p; content := content p;
     excerpt := excerpt p; featuredImage := featuredImage p;
     category := category p; tags := tags p; author := author p;
     status := status p; publishedAt := publishedAt p;
     scheduledFor := scheduledFor p; views := views p; likes := likes p;
     readingTime := readingTime p; seo := seo p;
     contentType := contentType p; relatedPosts := relatedPosts p;
     commentsEnabled := commentsEnabled p; commentCount := commentCount p;
     externalLinks := externalLinks p; affiliateLinks := affiliateLinks p;
     adSenseEnabled := adSenseEnabled p; analytics := analytics p;
     createdAt := createdAt p; updatedAt := updatedAt p |}.
Definition set_slug (v : string) (p : t) : t :=
  {| _id := _id p; title := title p; slug := v; content := content p;
     excerpt := excerpt p; featuredImage := featuredImage p;
     category := category p; tags := tags p; author := author p;
     status := status p; publishedAt := publishedAt p;
     scheduledFor := scheduledFor p; views := views p; likes := likes p;
     readingTime := readingTime p; seo := seo p;
     contentType := contentType p; relatedPosts := relatedPosts p;
     commentsEnabled := commentsEnabled p; commentCount := commentCount p;
     externalLinks := externalLinks p; affiliateLinks := affiliateLinks p;
     adSenseEnabled := adSenseEnabled p; analytics := analytics p;
     createdAt := createdAt p; updatedAt := updatedAt p |}.
Definition set_content (v : string) (p : t) : t :=
  {| _id := _id p; title := title p; slug := slug p; content := v;
     excerpt := excerpt p; featuredImage := featuredImage p;
     category := category p; tags := tags p; author := author p;
     status := status p; publishedAt := publishedAt p;
     scheduledFor := scheduledFor p; views := views p; likes := likes p;
     readingTime := readingTime p; seo := seo p;
     contentType := contentType p; relatedPosts := relatedPosts p;
     commentsEnabled := commentsEnabled p; commentCount := commentCount p;
     externalLinks := externalLinks p; affiliateLinks := affiliateLinks p;
     adSenseEnabled := adSenseEnabled p; analytics := analytics p;
     createdAt := createdAt p; updatedAt := updatedAt p |}.
Definition set_excerpt (v : option string) (p : t) : t :=
  {| _id := _id p; title := title p; slug := slug p; content := content p;
     excerpt := v; featuredImage := featuredImage p;
     category := category p; tags := tags p; author := author p;
     status := status p; publishedAt := publishedAt p;
     scheduledFor := scheduledFor p; views := views p; likes := likes p;
     readingTime := readingTime p; seo := seo p;
     contentType := contentType p; relatedPosts := relatedPosts p;
     commentsEnabled := commentsEnabled p; commentCount := commentCount p;
     externalLinks := externalLinks p; affiliateLinks := affiliateLinks p;
     adSenseEnabled := adSenseEnabled p; analytics := analytics p;
     createdAt := createdAt p; updatedAt := updatedAt p |}.
Definition set_featuredImage (v : FeaturedImage) (p : t) : t :=
  {| _id := _id p; title := title p; slug := slug p; content := content p;
     excerpt := excerpt p; featuredImage := v; category := category p;
     tags := tags p; author := author p; status := status p;
     publishedAt := publishedAt p; scheduledFor := scheduledFor p;
     views := views p; likes := likes p; readingTime := readingTime p;
     seo := seo p; contentType := contentType p;
     relatedPosts := relatedPosts p; commentsEnabled := commentsEnabled p;
     commentCount := commentCount p; externalLinks := externalLinks p;
     affiliateLinks := affiliateLinks p;
     adSenseEnabled := adSenseEnabled p; analytics := analytics p;
     createdAt := createdAt p; updatedAt := updatedAt p |}.
Definition set_category (v : ObjectId) (p : t) : t :=
  {| _id := _id p; title := title p; slug := slug p; content := content p;
     excerpt := excerpt p; featuredImage := featuredImage p; category := v;
     tags := tags p; author := author p; status := status p;
     publishedAt := publishedAt p; scheduledFor := scheduledFor p;
     views := views p; likes := likes p; readingTime := readingTime p;
     seo := seo p; contentType := contentType p;
     relatedPosts := relatedPosts p; commentsEnabled := commentsEnabled p;
     commentCount := commentCount p; externalLinks := externalLinks p;
     affiliateLinks := affiliateLinks p;
     adSenseEnabled := adSenseEnabled p; analytics := analytics p;
     createdAt := createdAt p; updatedAt := updatedAt p |}.
Definition set_tags (v : list string) (p : t) : t :=
  {| _id := _id p; title := title p; slug := slug p; content := content p;
     excerpt := excerpt p; featuredImage := featuredImage p;
     category := category p; tags := v; author := author p;
     status := status p; publishedAt := publishedAt p;
     scheduledFor := scheduledFor p; views := views p; likes := likes p;
     readingTime := readingTime p; seo := seo p;
     contentType := contentType p; relatedPosts := relatedPosts p;
     commentsEnabled := commentsEnabled p; commentCount := commentCount p;
     externalLinks := externalLinks p; affiliateLinks := affiliateLinks p;
     adSenseEnabled := adSenseEnabled p; analytics := analytics p;
     createdAt := createdAt p; updatedAt := updatedAt p |}.
Definition set_author (v : ObjectId) (p : t) : t :=
  {| _id := _id p; title := title p; slug := slug p; content := content p;
     excerpt := excerpt p; featuredImage := featuredImage p;
     category := category p; tags := tags p; author := v;
     status := status p; publishedAt := publishedAt p;
     scheduledFor := scheduledFor p; views := views p; likes := likes p;
     readingTime := readingTime p; seo := seo p;
     contentType := contentType p; relatedPosts := relatedPosts p;
     commentsEnabled := commentsEnabled p; commentCount := commentCount p;
     externalLinks := externalLinks p; affiliateLinks := affiliateLinks p;
     adSenseEnabled := adSenseEnabled p; analytics := analytics p;
     createdAt := createdAt p; updatedAt := updatedAt p |}.
Definition set_status (v : Status) (p : t) : t :=
  {| _id := _id p; title := title p; slug := slug p; content := content p;
     excerpt := excerpt p; featuredImage := featuredImage p;
     category := category p; tags := tags p; author := author p;
     status := v; publishedAt := publishedAt p;
     scheduledFor := scheduledFor p; views := views p; likes := likes p;
     readingTime := readingTime p; seo := seo p;
     contentType := contentType p; relatedPosts := relatedPosts p;
     commentsEnabled := commentsEnabled p; commentCount := commentCount p;
     externalLinks := externalLinks p; affiliateLinks := affiliateLinks p;
     adSenseEnabled := adSenseEnabled p; analytics := analytics p;
     createdAt := createdAt p; updatedAt := updatedAt p |}.
Definition set_publishedAt (v : option Date) (p : t) : t :=
  {| _id := _id p; title := title p; slug := slug p; content := content p;
     excerpt := excerpt p; featuredImage := featuredImage p;
     category := category p; tags := tags p; author := author p;
     status := status p; publishedAt := v; scheduledFor := scheduledFor p;
     views := views p; likes := likes p; readingTime := readingTime p;
     seo := seo p; contentType := contentType p;
     relatedPosts := relatedPosts p; commentsEnabled := commentsEnabled p;
     commentCount := commentCount p; externalLinks := externalLinks p;
     affiliateLinks := affiliateLinks p;
     adSenseEnabled := adSenseEnabled p; analytics := analytics p;
     createdAt := createdAt p; updatedAt := updatedAt p |}.
Definition set_scheduledFor (v : option Date) (p : t) : t :=
  {| _id := _id p; title := title p; slug := slug p; content := content p;
     excerpt := excerpt p; featuredImage := featuredImage p;
     category := category p; tags := tags p; author := author p;
     status := status p; publishedAt := publishedAt p; scheduledFor := v;
     views := views p; likes := likes p; readingTime := readingTime p;
     seo := seo p; contentType := contentType p;
     relatedPosts := relatedPosts p; commentsEnabled := commentsEnabled p;
     commentCount := commentCount p; externalLinks := externalLinks p;
     affiliateLinks := affiliateLinks p;
     adSenseEnabled := adSenseEnabled p; analytics := analytics p;
     createdAt := createdAt p; updatedAt := updatedAt p |}.
Definition set_views (v : Z) (p : t) : t :=
  {| _id := _id p; title := title p; slug := slug p; content := content p;
     excerpt := excerpt p; featuredImage := featuredImage p;
     category := category p; tags := tags p; author := author p;
     status := status p; publishedAt := publishedAt p;
     scheduledFor := scheduledFor p; views := v; likes := likes p;
     readingTime := readingTime p; seo := seo p;
     contentType := contentType p; relatedPosts := relatedPosts p;
     commentsEnabled := commentsEnabled p; commentCount := commentCount p;
     externalLinks := externalLinks p; affiliateLinks := affiliateLinks p;
     adSenseEnabled := adSenseEnabled p; analytics := analytics p;
     createdAt := createdAt p; updatedAt := updatedAt p |}.
Definition set_likes (v : Z) (p : t) : t :=
  {| _id := _id p; title := title p; slug := slug p; content := content p;
     excerpt := excerpt p; featuredImage := featuredImage p;
     category := category p; tags := tags p; author := author p;
     status := status p; publishedAt := publishedAt p;
     scheduledFor := scheduledFor p; views := views p; likes := v;
     readingTime := readingTime p; seo := seo p;
     contentType := contentType p; relatedPosts := relatedPosts p;
     commentsEnabled := commentsEnabled p; commentCount := commentCount p;
     externalLinks := externalLinks p; affiliateLinks := affiliateLinks p;
     adSenseEnabled := adSenseEnabled p; analytics := analytics p;
     createdAt := createdAt p; updatedAt := updatedAt p |}.
Definition set_readingTime (v : Z) (p : t) : t :=
  {| _id := _id p; title := title p; slug := slug p; content := content p;
     excerpt := excerpt p; featuredImage := featuredImage p;
     category := category p; tags := tags p; author := author p;
     status := status p; publishedAt := publishedAt p;
     scheduledFor := scheduledFor p; views := views p; likes := likes p;
     readingTime := v; seo := seo p; contentType := contentType p;
     relatedPosts := relatedPosts p; commentsEnabled := commentsEnabled p;
     commentCount := commentCount p; externalLinks := externalLinks p;
     affiliateLinks := affiliateLinks p;
     adSenseEnabled := adSenseEnabled p; analytics := analytics p;
     createdAt := createdAt p; updatedAt := updatedAt p |}.
Definition set_seo (v : Seo) (p : t) : t :=
  {| _id := _id p; title := title p; slug := slug p; content := content p;
     excerpt := excerpt p; featuredImage := featuredImage p;
     category := category p; tags := tags p; author := author p;
     status := status p; publishedAt := publishedAt p;
     scheduledFor := scheduledFor p; views := views p; likes := likes p;
     readingTime := readingTime p; seo := v; contentType := contentType p;
     relatedPosts := relatedPosts p; commentsEnabled := commentsEnabled p;
     commentCount := commentCount p; externalLinks := externalLinks p;
     affiliateLinks := affiliateLinks p;
     adSenseEnabled := adSenseEnabled p; analytics := analytics p;
     createdAt := createdAt p; updatedAt := updatedAt p |}.
Definition set_contentType (v : ContentType) (p : t) : t :=
  {| _id := _id p; title := title p; slug := slug p; content := content p;
     excerpt := excerpt p; featuredImage := featuredImage p;
     category := category p; tags := tags p; author := author p;
     status := status p; publishedAt := publishedAt p;
     scheduledFor := scheduledFor p; views := views p; likes := likes p;
     readingTime := readingTime p; seo := seo p; contentType := v;
     relatedPosts := relatedPosts p; commentsEnabled := commentsEnabled p;
     commentCount := commentCount p; externalLinks := externalLinks p;
     affiliateLinks := affiliateLinks p;
     adSenseEnabled := adSenseEnabled p; analytics := analytics p;
     createdAt := createdAt p; updatedAt := updatedAt p |}.
Definition set_commentsEnabled (v : bool) (p : t) : t :=
  {| _id := _id p; title := title p; slug := slug p; content := content p;
     excerpt := excerpt p; featuredImage := featuredImage p;
     category := category p; tags := tags p; author := author p;
     status := status p; publishedAt := publishedAt p;
     scheduledFor := scheduledFor p; views := views p; likes := likes p;
     readingTime := readingTime p; seo := seo p;
     contentType := contentType p; relatedPosts := relatedPosts p;
     commentsEnabled := v; commentCount := commentCount p;
     externalLinks := externalLinks p; affiliateLinks := affiliateLinks p;
     adSenseEnabled := adSenseEnabled p; analytics := analytics p;
     createdAt := createdAt p; updatedAt := updatedAt p |}.
Definition set_affiliateLinks (v : list AffiliateLink) (p : t) : t :=
  {| _id := _id p; title := title p; slug := slug p; content := content p;
     excerpt := excerpt p; featuredImage := featuredImage p;
     category := category p; tags := tags p; author := author p;
     status := status p; publishedAt := publishedAt p;
     scheduledFor := scheduledFor p; views := views p; likes := likes p;
     readingTime := readingTime p; seo := seo p;
     contentType := contentType p; relatedPosts := relatedPosts p;
     commentsEnabled := commentsEnabled p; commentCount := commentCount p;
     externalLinks := externalLinks p; affiliateLinks := v;
     adSenseEnabled := adSenseEnabled p; analytics := analytics p;
     createdAt := createdAt p; updatedAt := updatedAt p |}.
Definition set_adSenseEnabled (v : bool) (p : t) : t :=
  {| _id := _id p; title := title p; slug := slug p; content := content p;
     excerpt := excerpt p; featuredImage := featuredImage p;
     category := category p; tags := tags p; author := author p;
     status := status p; publishedAt := publishedAt p;
     scheduledFor := scheduledFor p; views := views p; likes := likes p;
     readingTime := readingTime p; seo := seo p;
     contentType := contentType p; relatedPosts := relatedPosts p;
     commentsEnabled := commentsEnabled p; commentCount := commentCount p;
     externalLinks := externalLinks p; affiliateLinks := affiliateLinks p;
     adSenseEnabled := v; analytics := analytics p;
     createdAt := createdAt p; updatedAt := updatedAt p |}.
Definition set_createdAt (v : Date) (p : t) : t :=
  {| _id := _id p; title := title p; slug := slug p; content := content p;
     excerpt := excerpt p; featuredImage := featuredImage p;
     category := category p; tags := tags p; author := author p;
     status := status p; publishedAt := publishedAt p;
     scheduledFor := scheduledFor p; views := views p; likes := likes p;
     readingTime := readingTime p; seo := seo p;
     contentType := contentType p; relatedPosts := relatedPosts p;
     commentsEnabled := commentsEnabled p; commentCount := commentCount p;
     externalLinks := externalLinks p; affiliateLinks := affiliateLinks p;
     adSenseEnabled := adSenseEnabled p; analytics := analytics p;
     createdAt := v; updatedAt := updatedAt p |}.
Definition set_updatedAt (v : Date) (p : t) : t :=
  {| _id := _id p; title := title p; slug := slug p; content := content p;
     excerpt := excerpt p; featuredImage := featuredImage p;
     category := category p; tags := tags p; author := author p;
     status := status p; publishedAt := publishedAt p;
     scheduledFor := scheduledFor p; views := views p; likes := likes p;
     readingTime := readingTime p; seo := seo p;
     contentType := contentType p; relatedPosts := relatedPosts p;
     commentsEnabled := commentsEnabled p; commentCount := commentCount p;
     externalLinks := externalLinks p; affiliateLinks := affiliateLinks p;
     adSenseEnabled := adSenseEnabled p; analytics := analytics p;
     createdAt := createdAt p; updatedAt := v |}.

Definition set_metaTitle (v : option string) (s : Seo) : Seo :=
  {| metaTitle := v; metaDescription := metaDescription s;
     metaKeywords := metaKeywords s; ogImage := ogImage s;
     canonicalUrl := canonicalUrl s |}.

Definition set_metaDescription (v : option string) (s : Seo) : Seo :=
  {| metaTitle := metaTitle s; metaDescription := v;
     metaKeywords := metaKeywords s; ogImage := ogImage s;
     canonicalUrl := canonicalUrl s |}.

#[global] Instance Status_eq_dec : EqDecision Status.
Proof. solve_decision. Defined.
#[global] Instance ContentType_eq_dec : EqDecision ContentType.
Proof. solve_decision. Defined.
#[global] Instance FeaturedImage_eq_dec : EqDecision FeaturedImage.
Proof. solve_decision. Defined.
#[global] Instance Seo_eq_dec : EqDecision Seo.
Proof. solve_decision. Defined.
#[global] Instance AffiliateLink_eq_dec : EqDecision AffiliateLink.
Proof. solve_decision. Defined.

Definition doc := Document t.

(** The schema's limits. *)
Definition titleMax : nat := 200.
Definition excerptMax : nat := 500.
Definition metaTitleMax : nat := 60.
Definition metaDescriptionMax : nat := 160.

(** *** Assignments, with the setters the schema declares *)

(** [title]: [trim: true] *)
Definition assignTitle (v : string) : doc -> doc :=
  assign "title" title set_title (JS.trim v).

(** [slug]: [lowercase: true] *)
Definition assignSlug (v : string) : doc -> doc :=
  assign "slug" slug set_slug (JS.toLowerCase v).

Definition assignContent (v : string) : doc -> doc :=
  assign "content" content set_content v.

Definition assignExcerpt (v : option string) : doc -> doc :=
  assign "excerpt" excerpt set_excerpt v.

Definition assignCategory (v : ObjectId) : doc -> doc :=
  assign "category" category set_category v.

Definition assignAuthor (v : ObjectId) : doc -> doc :=
  assign "author" author set_author v.

(** [tags]: each element [trim: true, lowercase: true] *)
Definition assignTags (v : list string) : doc -> doc :=
  assign "tags" tags set_tags ((fun s => JS.toLowerCase (JS.trim s)) <$> v).

Definition assignStatus (v : Status) : doc -> doc :=
  assign "status" status set_status v.

Definition assignFeaturedImage (v : FeaturedImage) : doc -> doc :=
  assign "featuredImage" featuredImage set_featuredImage v.

Definition assignSeo (v : Seo) : doc -> doc :=
  assign "seo" seo set_seo v.

Definition assignMetaTitle (v : option string) : doc -> doc :=
  assign "seo.metaTitle" (fun p => metaTitle (seo p))
    (fun v p => set_seo (set_metaTitle v (seo p)) p) v.

Definition assignMetaDescription (v : option string) : doc -> doc :=
  assign "seo.metaDescription" (fun p => metaDescription (seo p))
    (fun v p => set_seo (set_metaDescription v (seo p)) p) v.

Definition assignContentType (v : ContentType) : doc -> doc :=
  assign "contentType" contentType set_contentType v.

Definition assignScheduledFor (v : option Date) : doc -> doc :=
  assign "scheduledFor" scheduledFor set_scheduledFor v.

Definition assignAffiliateLinks (v : list AffiliateLink) : doc -> doc :=
  assign "affiliateLinks" affiliateLinks set_affiliateLinks v.

Definition assignAdSenseEnabled (v : bool) : doc -> doc :=
  assign "adSenseEnabled" adSenseEnabled set_adSenseEnabled v.

Definition assignCommentsEnabled (v : bool) : doc -> doc :=
  assign "commentsEnabled" commentsEnabled set_commentsEnabled v.

Definition assignReadingTime (v : Z) : doc -> doc :=
  assign "readingTime" readingTime set_readingTime v.

Definition assignPublishedAt (v : option Date) : doc -> doc :=
  assign "publishedAt" publishedAt set_publishedAt v.

(** *** Validation

    Mongoose's validation is the first pre-save hook: it runs before
    [preSave] below and does not see what [preSave] assigns.  It runs on
    the required paths, on the modified ones and on every path the
    document was loaded with, so on a document with all its paths the
    validators of the whole schema run, whatever was modified; a validator
    of a length passes a path that is not set. *)
Definition within (max : nat) (v : option string) : bool :=
  bool_decide (String.length (default "" v) <= max)%nat.

Definition validate (d : doc) : bool :=
  let p := fields d in
  negb (bool_decide (title p = ""))
  && bool_decide (String.length (title p) <= titleMax)%nat
  && negb (bool_decide (content p = ""))
  && negb (bool_decide (category p = ""))
  && negb (bool_decide (author p = ""))
  && within excerptMax (excerpt p)
  && within metaTitleMax (metaTitle (seo p))
  && within metaDescriptionMax (metaDescription (seo p))
  && forallb
       (fun l => negb (bool_decide (linkTitle l = ""))
                 && negb (bool_decide (linkUrl l = "")))
       (externalLinks p).

(** The timestamps option: [createdAt] on the first save, [updatedAt] on
    every save that writes. *)
Definition stamp (clk : Clock) (d : doc) : doc :=
  let p := fields d in
  if isNew d then Doc (set_createdAt (atStamp clk) (set_updatedAt (atStamp clk) p))
                    true (modifiedPaths d)
  else if bool_decide (modifiedPaths d = ∅) then d
  else Doc (set_updatedAt (atStamp clk) p) false (modifiedPaths d).

(** A document with the schema's defaults and nothing assigned. *)
Definition blank (id : ObjectId) : t :=
  {| _id := id; title := ""; slug := ""; content := ""; excerpt := None;
     featuredImage := {| url := None; alt := ""; caption := "" |};
     category := ""; tags := []; author := ""; status := draft;
     publishedAt := None; scheduledFor := None; views := 0; likes := 0;
     readingTime := 0;
     seo := {| metaTitle := None; metaDescription := None; metaKeywords := [];
               ogImage := None; canonicalUrl := None |};
     contentType := markdown; relatedPosts := []; commentsEnabled := true;
     commentCount := 0; externalLinks := []; affiliateLinks := [];
     adSenseEnabled := true;
     analytics := {| impressions := 0; clicks := 0; shares := 0;
                     avgTimeOnPage := 0 |};
     createdAt := 0%Z; updatedAt := 0%Z |}.

Definition statusOfString (s : string) : option Status :=
  if String.eqb s "draft" then Some draft
  else if String.eqb s "published" then Some published
  else if String.eqb s "archived" then Some archived
  else None.

Definition contentTypeOfString (s : string) : option ContentType :=
  if String.eqb s "markdown" then Some markdown
  else if String.eqb s "html" then Some html
  else if String.eqb s "richtext" then Some richtext
  else None.

(** *** The pre-save hook *)
Section PreSave.

(** The [slugify] package, called with [lower: true, strict: true] and
    the [remove] pattern of the source. *)
Variable slugify : string -> string.

Definition wordsPerMinute : Z := 200.

(** The slug block. *)
Definition slugBlock (clk : Clock) (d : doc) : doc :=
  if isModified "title" d || isNew d then
    let d1 := assignSlug (slugify (title (fields d))) d in
    if isNew d1 then
      let timestamp := JS.sliceLast 4 (JS.toString (atSlug clk)) in
      assignSlug (slug (fields d1) +:+ "-" +:+ timestamp) d1
    else d1
  else d.

(** The excerpt block. *)
Definition excerptBlock (d : doc) : doc :=
  if isModified "content" d && negb (JS.truthy (excerpt (fields d))) then
    let plainText := JS.stripTags (content (fields d)) in
    assignExcerpt
      (Some (JS.prefix 200 plainText +:+
             (if (200 <? String.length plainText)%nat then "..." else "")))
      d
  else d.

(** The reading time block. *)
Definition readingTimeBlock (d : doc) : doc :=
  if isModified "content" d then
    let wordCount := JS.splitCount (content (fields d)) in
    assignReadingTime (JS.ceilDiv wordCount wordsPerMinute) d
  else d.

(** The publish date block; a [Date] object is always truthy. *)
Definition publishBlock (clk : Clock) (d : doc) : doc :=
  if isModified "status" d
     && bool_decide (status (fields d) = published)
     && bool_decide (publishedAt (fields d) = None)
  then assignPublishedAt (Some (atPublish clk)) d
  else d.

(** The two SEO blocks. *)
Definition metaTitleBlock (d : doc) : doc :=
  if negb (JS.truthy (metaTitle (seo (fields d)))) then
    assignMetaTitle (Some (JS.prefix 60 (title (fields d)))) d
  else d.

Definition metaDescriptionBlock (d : doc) : doc :=
  if negb (JS.truthy (metaDescription (seo (fields d)))) then
    assignMetaDescription
      (Some (JS.orElse (excerpt (fields d))
               (JS.prefix 160 (content (fields d)))))
      d
  else d.

(** [postSchema.pre('save', ...)] *)
Definition preSave (clk : Clock) (d : doc) : doc :=
  metaDescriptionBlock
    (metaTitleBlock
       (publishBlock clk
          (readingTimeBlock
             (excerptBlock
                (slugBlock clk d))))).

End PreSave.

End Post.

(** ** The Category model *)
Module Category.

Record Seo := {
  metaTitle : option string;
  metaDescription : option string;
  metaKeywords : list string
}.

Record t := Build {
  _id : ObjectId;
  name : string;
  slug : string;
  description : option string;
  color : string;
  icon : string;
  image : option string;
  parentCategory : option ObjectId;
  isActive : bool;
  sortOrder : Z;
  seo : Seo;
  postCount : Z;
  totalViews : Z;
  createdAt : Date;
  updatedAt : Date
}.

Definition set_name (v : string) (p : t) : t :=
  {| _id := _id p; name := v; slug := slug p; description := description p;
     color := color p; icon := icon p; image := image p;
     parentCategory := parentCategory p; isActive := isActive p;
     sortOrder := sortOrder p; seo := seo p; postCount := postCount p;
     totalViews := totalViews p; createdAt := createdAt p;
     updatedAt := updatedAt p |}.
Definition set_slug (v : string) (p : t) : t :=
  {| _id := _id p; name := name p; slug := v; description := description p;
     color := color p; icon := icon p; image := image p;
     parentCategory := parentCategory p; isActive := isActive p;
     sortOrder := sortOrder p; seo := seo p; postCount := postCount p;
     totalViews := totalViews p; createdAt := createdAt p;
     updatedAt := updatedAt p |}.
Definition set_description (v : option string) (p : t) : t :=
  {| _id := _id p; name := name p; slug := slug p; description := v;
     color := color p; icon := icon p; image := image p;
     parentCategory := parentCategory p; isActive := isActive p;
     sortOrder := sortOrder p; seo := seo p; postCount := postCount p;
     totalViews := totalViews p; createdAt := createdAt p;
     updatedAt := updatedAt p |}.
Definition set_color (v : string) (p : t) : t :=
  {| _id := _id p; name := name p; slug := slug p;
     description := description p; color := v; icon := icon p;
     image := image p; parentCategory := parentCategory p;
     isActive := isActive p; sortOrder := sortOrder p; seo := seo p;
     postCount := postCount p; totalViews := totalViews p;
     createdAt := createdAt p; updatedAt := updatedAt p |}.
Definition set_icon (v : string) (p : t) : t :=
  {| _id := _id p; name := name p; slug := slug p;
     description := description p; color := color p; icon := v;
     image := image p; parentCategory := parentCategory p;
     isActive := isActive p; sortOrder := sortOrder p; seo := seo p;
     postCount := postCount p; totalViews := totalViews p;
     createdAt := createdAt p; updatedAt := updatedAt p |}.
Definition set_parentCategory (v : option ObjectId) (p : t) : t :=
  {| _id := _id p; name := name p; slug := slug p;
     description := description p; color := color p; icon := icon p;
     image := image p; parentCategory := v; isActive := isActive p;
     sortOrder := sortOrder p; seo := seo p; postCount := postCount p;
     totalViews := totalViews p; createdAt := createdAt p;
     updatedAt := updatedAt p |}.
Definition set_isActive (v : bool) (p : t) : t :=
  {| _id := _id p; name := name p; slug := slug p;
     description := description p; color := color p; icon := icon p;
     image := image p; parentCategory := parentCategory p; isActive := v;
     sortOrder := sortOrder p; seo := seo p; postCount := postCount p;
     totalViews := totalViews p; createdAt := createdAt p;
     updatedAt := updatedAt p |}.
Definition set_sortOrder (v : Z) (p : t) : t :=
  {| _id := _id p; name := name p; slug := slug p;
     description := description p; color := color p; icon := icon p;
     image := image p; parentCategory := parentCategory p;
     isActive := isActive p; sortOrder := v; seo := seo p;
     postCount := postCount p; totalViews := totalViews p;
     createdAt := createdAt p; updatedAt := updatedAt p |}.
Definition set_seo (v : Seo) (p : t) : t :=
  {| _id := _id p; name := name p; slug := slug p;
     description := description p; color := color p; icon := icon p;
     image := image p; parentCategory := parentCategory p;
     isActive := isActive p; sortOrder := sortOrder p; seo := v;
     postCount := postCount p; totalViews := totalViews p;
     createdAt := createdAt p; updatedAt := updatedAt p |}.
Definition set_postCount (v : Z) (p : t) : t :=
  {| _id := _id p; name := name p; slug := slug p;
     description := description p; color := color p; icon := icon p;
     image := image p; parentCategory := parentCategory p;
     isActive := isActive p; sortOrder := sortOrder p; seo := seo p;
     postCount := v; totalViews := totalViews p; createdAt := createdAt p;
     updatedAt := updatedAt p |}.
Definition set_totalViews (v : Z) (p : t) : t :=
  {| _id := _id p; name := name p; slug := slug p;
     description := description p; color := color p; icon := icon p;
     image := image p; parentCategory := parentCategory p;
     isActive := isActive p; sortOrder := sortOrder p; seo := seo p;
     postCount := postCount p; totalViews := v; createdAt := createdAt p;
     updatedAt := updatedAt p |}.
Definition set_createdAt (v : Date) (p : t) : t :=
  {| _id := _id p; name := name p; slug := slug p;
     description := description p; color := color p; icon := icon p;
     image := image p; parentCategory := parentCategory p;
     isActive := isActive p; sortOrder := sortOrder p; seo := seo p;
     postCount := postCount p; totalViews := totalViews p; createdAt := v;
     updatedAt := updatedAt p |}.
Definition set_updatedAt (v : Date) (p : t) : t :=
  {| _id := _id p; name := name p; slug := slug p;
     description := description p; color := color p; icon := icon p;
     image := image p; parentCategory := parentCategory p;
     isActive := isActive p; sortOrder := sortOrder p; seo := seo p;
     postCount := postCount p; totalViews := totalViews p;
     createdAt := createdAt p; updatedAt := v |}.

Definition set_metaTitle (v : option string) (s : Seo) : Seo :=
  {| metaTitle := v; metaDescription := metaDescription s;
     metaKeywords := metaKeywords s |}.

Definition set_metaDescription (v : option string) (s : Seo) : Seo :=
  {| metaTitle := metaTitle s; metaDescription := v;
     metaKeywords := metaKeywords s |}.

Definition doc := Document t.

Definition nameMax : nat := 50.
Definition descriptionMax : nat := 500.

(** [slug]: [lowercase: true] *)
Definition assignSlug (v : string) : doc -> doc :=
  assign "slug" slug set_slug (JS.toLowerCase v).

Definition assignMetaTitle (v : option string) : doc -> doc :=
  assign "seo.metaTitle" (fun c => metaTitle (seo c))
    (fun v c => set_seo (set_metaTitle v (seo c)) c) v.

Definition assignMetaDescription (v : option string) : doc -> doc :=
  assign "seo.metaDescription" (fun c => metaDescription (seo c))
    (fun v c => set_seo (set_metaDescription v (seo c)) c) v.

Section PreSave.

Variable slugify : string -> string.

Definition slugBlock (d : doc) : doc :=
  if isModified "name" d || isNew d
  then assignSlug (slugify (name (fields d))) d
  else d.

Definition metaTitleBlock (d : doc) : doc :=
  if negb (JS.truthy (metaTitle (seo (fields d))))
  then assignMetaTitle (Some (name (fields d))) d
  else d.

Definition metaDescriptionBlock (d : doc) : doc :=
  if negb (JS.truthy (metaDescription (seo (fields d))))
     && JS.truthy (description (fields d))
  then assignMetaDescription
         (Some (JS.prefix 160 (default "" (description (fields d))))) d
  else d.

(** [categorySchema.pre('save', ...)] *)
Definition preSave (d : doc) : doc :=
  metaDescriptionBlock (metaTitleBlock (slugBlock d)).

End PreSave.

End Category.

(** ** The Comment model *)
Module Comment.

(** Modelled from the spec: the Comment schema (models/Comment) is not
    among the sources.  Its fields are those of the data model: postId
    (reference), author, email, content, parentId (optional), isApproved
    (default false), timestamps. *)
Record t := Build {
  _id : ObjectId;
  postId : ObjectId;
  author : string;
  email : string;
  content : string;
  parentId : option ObjectId;
  isApproved : bool;
  createdAt : Date;
  updatedAt : Date
}.

Definition set_isApproved (v : bool) (c : t) : t :=
  {| _id := _id c; postId := postId c; author := author c; email := email c;
     content := content c; parentId := parentId c; isApproved := v;
     createdAt := createdAt c; updatedAt := updatedAt c |}.

Definition set_updatedAt (v : Date) (c : t) : t :=
  {| _id := _id c; postId := postId c; author := author c; email := email c;
     content := content c; parentId := parentId c;
     isApproved := isApproved c; createdAt := createdAt c; updatedAt := v |}.

End Comment.

(** ** The document store and the handlers' control flow *)

Record Store := {
  posts : list Post.t;
  categories : list Category.t;
  comments : list Comment.t
}.

Definition set_posts (v : list Post.t) (s : Store) : Store :=
  {| posts := v; categories := categories s; comments := comments s |}.

Definition set_categories (v : list Category.t) (s : Store) : Store :=
  {| posts := posts s; categories := v; comments := comments s |}.

Definition set_comments (v : list Comment.t) (s : Store) : Store :=
  {| posts := posts s; categories := categories s; comments := v |}.

Record Pagination := {
  currentPage : Z;
  totalPages : Z;
  totalPosts : Z;
  hasNextPage : bool;
  hasPrevPage : bool;
  limit : Z
}.

(** The [data] member of the response envelope, one shape per route. *)
Inductive Data :=
  | NoData
  | PostList (posts : list Post.t) (pagination : Pagination)
  | CategoryPostList (category : Category.t) (posts : list Post.t)
      (pagination : Pagination)
  | OnePost (post : Post.t)
  | Likes (likes : Z)
  | CommentList (comments : list Comment.t)
  | OneComment (comment : Comment.t).

Record Response := {
  statusCode : Z;
  success : bool;
  message : option string;
  data : Data;
  errors : list string
}.

Definition ok (msg : option string) (d : Data) : Response :=
  {| statusCode := 200; success := true; message := msg; data := d; errors := [] |}.

Definition created (msg : string) (d : Data) : Response :=
  {| statusCode := 201; success := true; message := Some msg; data := d;
     errors := [] |}.

Definition failure (code : Z) (msg : string) : Response :=
  {| statusCode := code; success := false; message := Some msg; data := NoData;
     errors := [] |}.

Definition validationFailed (errs : list string) : Response :=
  {| statusCode := 400; success := false; message := Some "Validation failed";
     data := NoData; errors := errs |}.

(** The decision of the [auth, adminAuth] middleware chain on a request.
    Modelled from the spec: middleware/auth is not among the sources; the
    routes consume its pass/fail decision and, on a pass, the caller's
    identity.  On a fail the middleware has answered and the handler does not
    run. *)
Inductive AdminCheck :=
  | Pass (user : ObjectId)
  | Reject (answer : Response).

(** A handler body runs against the store and either goes on with a value,
    has sent its response ([return res.status(..).json(..)]), or has thrown
    into the [catch] of the handler. *)
Inductive Outcome (A : Type) :=
  | Value (a : A)
  | Sent (r : Response)
  | Thrown.
Arguments Value {A} _.
Arguments Sent {A} _.
Arguments Thrown {A}.

Definition Handler (A : Type) : Type := Store -> Outcome A * Store.

#[global] Instance Handler_ret : MRet Handler :=
  fun A a s => (Value a, s).

#[global] Instance Handler_bind : MBind Handler :=
  fun A B k m s =>
    match m s with
    | (Value a, s') => k a s'
    | (Sent r, s') => (Sent r, s')
    | (Thrown, s') => (Thrown, s')
    end.

#[global] Instance Handler_fmap : FMap Handler :=
  fun A B f m s =>
    match m s with
    | (Value a, s') => (Value (f a), s')
    | (Sent r, s') => (Sent r, s')
    | (Thrown, s') => (Thrown, s')
    end.

Definition send {A} (r : Response) : Handler A := fun s => (Sent r, s).
Definition throw {A} : Handler A := fun s => (Thrown, s).
Definition query {A} (f : Store -> A) : Handler A := fun s => (Value (f s), s).
Definition modify (f : Store -> Store) : Handler unit := fun s => (Value tt, f s).

(** [if (c) return res...json(r);] *)
Definition sendWhen (c : bool) (r : Response) : Handler unit :=
  if c then send r else mret tt.

Definition orThrow {A} (v : option A) : Handler A :=
  match v with
  | Some a => mret a
  | None => throw
  end.

(** [try { body } catch (error) { res.status(500).json(..) }] *)
Definition tryCatch (body : Handler Response) (onError : string) (s : Store)
    : Response * Store :=
  match body s with
  | (Value r, s') => (r, s')
  | (Sent r, s') => (r, s')
  | (Thrown, s') => (failure 500 onError, s')
  end.

(** A route behind [auth, adminAuth]. *)
Definition behindAdmin (check : AdminCheck)
    (handler : ObjectId -> Store -> Response * Store) (s : Store)
    : Response * Store :=
  match check with
  | Pass user => handler user s
  | Reject answer => (answer, s)
  end.

(** *** Casting and the queries of the store *)

Definition isHex (c : ascii) : bool :=
  JS.isDigit c || JS.inRange 97 102 c || JS.inRange 65 70 c.

Fixpoint allHex (s : string) : bool :=
  match s with
  | EmptyString => true
  | String c r => isHex c && allHex r
  end.

(** A string casts to an ObjectId when it is 24 hexadecimal digits. *)
Definition isMongoId (s : string) : bool :=
  bool_decide (String.length s = 24%nat) && allHex s.

(** The cast of a string to an ObjectId; a failed cast is a CastError. *)
Definition castObjectId (s : string) : option ObjectId :=
  if isMongoId s then Some (JS.toLowerCase s) else None.

Definition count {A} (f : A -> bool) (l : list A) : Z :=
  Z.of_nat (length (List.filter f l)).

(** Removes the first document the predicate selects. *)
Fixpoint deleteFirst {A} (f : A -> bool) (l : list A) : list A :=
  match l with
  | [] => []
  | x :: r => if f x then r else x :: deleteFirst f r
  end.

(** Replaces the first document the predicate selects. *)
Fixpoint updateFirst {A} (f : A -> bool) (g : A -> A) (l : list A) : list A :=
  match l with
  | [] => []
  | x :: r => if f x then g x :: r else x :: updateFirst f g r
  end.

(** Stable insertion sort, [before a b] telling that [a] may stay ahead of
    [b]. *)
Fixpoint insertSorted {A} (before : A -> A -> bool) (x : A) (l : list A) : list A :=
  match l with
  | [] => [x]
  | y :: r => if before x y then x :: l else y :: insertSorted before x r
  end.

Definition sortBy {A} (before : A -> A -> bool) (l : list A) : list A :=
  foldr (insertSorted before) [] l.

(** [.skip(n).limit(k)] of a cursor: the server refuses a negative skip, the
    driver turns a negative limit into its absolute value, and a limit of
    zero is no limit. *)
Definition page {A} (skip lim : Z) (l : list A) : option (list A) :=
  if (skip <? 0)%Z then None
  else
    let rest := drop (Z.to_nat skip) l in
    Some (if (lim =? 0)%Z then rest else take (Z.to_nat (Z.abs lim)) rest).

(** ** The comments router *)
Module Comments.
Section Routes.

(** Modelled from the spec: the validators of the Comment schema are not
    among the sources; [accepts] is the verdict of the schema's
    validation on a new comment. *)
Variable accepts : Comment.t -> bool.

Definition ofPost (pid : ObjectId) (c : Comment.t) : bool :=
  bool_decide (Comment.postId c = pid) && Comment.isApproved c.

(** [sort({ createdAt: -1 })] *)
Definition newestFirst (a b : Comment.t) : bool :=
  (Comment.createdAt b <=? Comment.createdAt a)%Z.

Definition hasId (id : ObjectId) (c : Comment.t) : bool :=
  bool_decide (Comment._id c = id).

(** [GET /api/comments/:postId] *)
Definition index (postId : string) : Store -> Response * Store :=
  tryCatch
    (pid ← orThrow (castObjectId postId);
     found ← query (fun s => sortBy newestFirst (List.filter (ofPost pid) (comments s)));
     mret (ok None (CommentList found)))
    "Server error".

(** [newComment.save()]: validation, then the insert with the id and the
    timestamps the driver and the schema supply. *)
Definition save (c : Comment.t) : Handler Comment.t :=
  if accepts c
  then _ ← modify (fun s => set_comments (comments s ++ [c]) s); mret c
  else throw.

(** [POST /api/comments]; [newId] is the id generated for the document,
    [now] the time of the save. *)
Definition create (newId : ObjectId) (now : Date) (body : gmap string string)
    : Store -> Response * Store :=
  tryCatch
    (_ ← sendWhen
           (negb (JS.truthy (body !! "postId"))
            || negb (JS.truthy (body !! "author"))
            || negb (JS.truthy (body !! "email"))
            || negb (JS.truthy (body !! "content")))
           (failure 400 "Please provide all required fields");
     pid ← orThrow (castObjectId (default "" (body !! "postId")));
     parent ←
       (if JS.truthy (body !! "parentId")
        then Some <$> orThrow (castObjectId (default "" (body !! "parentId")))
        else mret None);
     savedComment ←
       save {| Comment._id := newId;
               Comment.postId := pid;
               Comment.author := default "" (body !! "author");
               Comment.email := default "" (body !! "email");
               Comment.content := default "" (body !! "content");
               Comment.parentId := parent;
               Comment.isApproved := false;
               Comment.createdAt := now;
               Comment.updatedAt := now |};
     mret (created "Comment submitted for approval" (OneComment savedComment)))
    "Server error".

(** [Comment.findByIdAndUpdate(id, { isApproved: true }, { new: true })] *)
Definition findByIdAndApprove (now : Date) (id : ObjectId)
    : Handler (option Comment.t) :=
  _ ← modify (fun s =>
         set_comments
           (updateFirst (hasId id)
              (fun c => Comment.set_updatedAt now (Comment.set_isApproved true c))
              (comments s)) s);
  query (fun s => List.find (hasId id) (comments s)).

(** [PUT /api/comments/:id/approve] *)
Definition approve (now : Date) (id : string) : Store -> Response * Store :=
  tryCatch
    (oid ← orThrow (castObjectId id);
     comment ← findByIdAndApprove now oid;
     match comment with
     | None => send (failure 404 "Comment not found")
     | Some c => mret (ok None (OneComment c))
     end)
    "Server error".

(** [Comment.findByIdAndDelete(id)] *)
Definition findByIdAndDelete (id : ObjectId) : Handler (option Comment.t) :=
  found ← query (fun s => List.find (hasId id) (comments s));
  _ ← modify (fun s => set_comments (deleteFirst (hasId id) (comments s)) s);
  mret found.

(** [DELETE /api/comments/:id] *)
Definition remove (id : string) : Store -> Response * Store :=
  tryCatch
    (oid ← orThrow (castObjectId id);
     comment ← findByIdAndDelete oid;
     match comment with
     | None => send (failure 404 "Comment not found")
     | Some _ => mret (ok (Some "Comment deleted") NoData)
     end)
    "Server error".

End Routes.
End Comments.

(** ** express-validator *)
Module Validator.

(** The integer a string spells, when it is an optional sign followed by
    one digit or more (the pattern of validator.js for integers when
    [allow_leading_zeroes] is not set to false, and no chain sets it). *)
Definition intLiteral (s : string) : option Z :=
  let '(sign, r) := JS.readSign s in
  match r with
  | EmptyString => None
  | String _ _ =>
      if JS.allDigits r
      then (fun n => (sign * n)%Z) <$> JS.readDigits 10 None r
      else None
  end.

(** [isInt({ min, max })] *)
Definition isInt (min : Z) (max : option Z) (s : string) : bool :=
  match intLiteral s with
  | Some n => (min <=? n)%Z && from_option (fun m => (n <=? m)%Z) true max
  | None => false
  end.

(** [isHexadecimal]: hexadecimal digits, one or more, after an optional
    prefix [0x] or [0h] in either case. *)
Definition hexDigits (s : string) : bool :=
  match s with
  | EmptyString => false
  | String _ _ => allHex s
  end.

Definition isHexadecimal (s : string) : bool :=
  hexDigits s
  || match s with
     | String c (String c2 r) =>
         bool_decide (c = "0"%char)
         && (bool_decide (c2 = "x"%char) || bool_decide (c2 = "X"%char)
             || bool_decide (c2 = "h"%char) || bool_decide (c2 = "H"%char))
         && hexDigits r
     | _ => false
     end.

(** [isMongoId]: hexadecimal and of length 24.  It accepts strings the cast
    to an ObjectId refuses, those with a prefix. *)
Definition isMongoId (s : string) : bool :=
  isHexadecimal s && bool_decide (String.length s = 24%nat).

(** [isIn(values)] *)
Definition isIn (values : list string) (s : string) : bool :=
  bool_decide (s ∈ values).

(** [isLength({ max })] *)
Definition isLength (max : nat) (s : string) : bool :=
  bool_decide (String.length s <= max)%nat.

(** One chain [query(name).optional().<check>.withMessage(msg)]: no error
    when the parameter is undefined or passes the check. *)
Definition optional {V} (check : V -> bool) (msg : string) (v : option V)
    : list string :=
  match v with
  | None => []
  | Some x => if check x then [] else [msg]
  end.

End Validator.

(** ** The posts router *)
Module Posts.
Import Post.

(** A member of a JSON body, in the shapes the paths of the schema are
    declared with.  A member of another shape than the one its path takes
    is treated as rejected: by the validator of the route where there is
    one, by the cast of the assignment otherwise. *)
Inductive Value :=
  | VString (s : string)
  | VStrings (l : list string)
  | VBool (b : bool)
  | VDate (d : option Date)
  | VImage (i : FeaturedImage)
  | VSeo (s : Seo)
  | VLinks (l : list AffiliateLink).

Definition text (v : Value) : option string :=
  match v with VString s => Some s | _ => None end.

(** The filter handed to [find] and [countDocuments]. *)
Record Filter := {
  byStatus : option Status;
  byCategory : option string;
  tagsIn : option (list string);
  search : option (string -> bool);
  publishedSince : option Date
}.

Definition hasId (id : ObjectId) (p : Post.t) : bool :=
  bool_decide (_id p = id).

(** [Post.findById(id)] on an id already cast. *)
Definition findById (id : ObjectId) (s : Store) : option Post.t :=
  List.find (hasId id) (posts s).

(** [.select('-content')]: the empty string stands for the content that was
    not selected. *)
Definition withoutContent (p : Post.t) : Post.t := set_content "" p.

(** *** Sort orders; [null] sorts below every date *)
Definition dateLe (a b : option Date) : bool :=
  match a, b with
  | None, _ => true
  | Some _, None => false
  | Some x, Some y => (x <=? y)%Z
  end.

Inductive SortQuery :=
  | PublishedAsc | PublishedDesc | ViewsLikesDesc
  | CreatedAsc | CreatedDesc | TitleAsc | ViewsDesc.

Definition before (o : SortQuery) (a b : Post.t) : bool :=
  match o with
  | PublishedAsc => dateLe (publishedAt a) (publishedAt b)
  | PublishedDesc => dateLe (publishedAt b) (publishedAt a)
  | ViewsLikesDesc =>
      (views b <? views a)%Z
      || ((views a =? views b)%Z && (likes b <=? likes a)%Z)
  | CreatedAsc => (createdAt a <=? createdAt b)%Z
  | CreatedDesc => (createdAt b <=? createdAt a)%Z
  | TitleAsc => String.leb (title a) (title b)
  | ViewsDesc => (views b <=? views a)%Z
  end.

Definition weekMs : Z := 7 * 24 * 60 * 60 * 1000.

Definition publicSorts : list string := ["latest"; "oldest"; "popular"; "trending"].
Definition adminSorts : list string := ["latest"; "oldest"; "title"; "views"].
Definition statuses : list string := ["draft"; "published"; "archived"].

(** The validation chains of [GET /api/posts]; [isString] holds of every
    parameter that is a string. *)
Definition listErrors (q : gmap string string) : list string :=
  Validator.optional (Validator.isInt 1 None)
    "Page must be a positive integer" (q !! "page")
  ++ Validator.optional (Validator.isInt 1 (Some 50%Z))
       "Limit must be between 1 and 50" (q !! "limit")
  ++ Validator.optional Validator.isMongoId "Invalid category ID" (q !! "category")
  ++ Validator.optional (fun _ : string => true) "Tags must be a string"
       (q !! "tags")
  ++ Validator.optional (fun _ : string => true) "Search must be a string"
       (q !! "search")
  ++ Validator.optional (Validator.isIn publicSorts)
       "Sort must be one of: latest, oldest, popular, trending" (q !! "sort").

(** The validation chains of [GET /api/posts/admin]. *)
Definition adminListErrors (q : gmap string string) : list string :=
  Validator.optional (Validator.isInt 1 None)
    "Page must be a positive integer" (q !! "page")
  ++ Validator.optional (Validator.isInt 1 (Some 50%Z))
       "Limit must be between 1 and 50" (q !! "limit")
  ++ Validator.optional (Validator.isIn statuses)
       "Status must be one of: draft, published, archived" (q !! "status")
  ++ Validator.optional (Validator.isIn adminSorts)
       "Sort must be one of: latest, oldest, title, views" (q !! "sort").

(** [if (!errors.isEmpty()) return res.status(400).json(..)] *)
Definition checkValidation (errs : list string) : Handler unit :=
  match errs with
  | [] => mret tt
  | _ => send (validationFailed errs)
  end.

Definition pagination (pageNo lim total : Z) : Pagination :=
  let totalPages := JS.ceilDiv total lim in
  {| currentPage := pageNo;
     totalPages := totalPages;
     totalPosts := total;
     hasNextPage := (pageNo <? totalPages)%Z;
     hasPrevPage := (1 <? pageNo)%Z;
     limit := lim |}.

(** *** The queries of the list routes *)
Definition matches (f : Filter) (p : Post.t) : bool :=
  from_option (fun st => bool_decide (status p = st)) true (byStatus f)
  && from_option (fun c => bool_decide (category p = JS.toLowerCase c)) true
       (byCategory f)
  && from_option (fun ts => existsb (fun t => bool_decide (t ∈ ts)) (tags p))
       true (tagsIn f)
  && from_option
       (fun test =>
          test (title p) || test (content p)
          || from_option test false (excerpt p)
          || existsb test (tags p))
       true (search f)
  && from_option
       (fun since => from_option (fun d => (since <=? d)%Z) false (publishedAt p))
       true (publishedSince f).

Definition find (f : Filter) (s : Store) : list Post.t :=
  List.filter (matches f) (posts s).

Definition countDocuments (f : Filter) (s : Store) : Z :=
  count (matches f) (posts s).

(** The query [Post.find(q)...select('-content').sort(o).skip(n).limit(k)];
    the populated author and category are left as their ids.  Sending what
    it finds is [json] below. *)
Definition findPage (f : Filter) (o : SortQuery) (skip lim : Z)
    : Handler (list Post.t) :=
  found ← query (fun s => page skip lim (sortBy (before o) (find f s)));
  orThrow (fmap (M := list) withoutContent <$> found).

Definition nonEmpty (v : option string) : option string :=
  if JS.truthy v then v else None.

(** [res.json(..)] of documents read with [.select('-content')].  The
    schema serialises with its virtuals, and [estimatedReadingTime] reads
    [this.content.split] when [readingTime] is not positive: on a document
    without its content the getter throws. *)
Definition serialisable (p : Post.t) : bool := (0 <? readingTime p)%Z.

Definition json (found : list Post.t) : Handler (list Post.t) :=
  if forallb serialisable found then mret found else throw.


Section Routes.

(** The [slugify] package with the options of the Post model. *)
Variable slugify : string -> string.

(** A case-insensitive regular expression ([new RegExp(source, 'i')] in
    the handler, [$regex] with [$options: 'i'] in the store): the test
    it compiles to, or [None] when the source is not a pattern and the
    constructor throws. *)
Variable regExp : string -> option (string -> bool).

(** The filter [GET /api/posts] builds; [test] is the compiled search
    pattern, [now] the reading of [Date.now()] of the trending case. *)
Definition publicFilter (now : Z) (q : gmap string string)
    (test : option (string -> bool)) : Filter :=
  {| byStatus := Some published;
     byCategory := nonEmpty (q !! "category");
     tagsIn :=
       (fun tags => (fun tag => JS.toLowerCase (JS.trim tag)) <$> JS.split "," tags)
         <$> nonEmpty (q !! "tags");
     search := test;
     publishedSince :=
       if String.eqb (default "latest" (q !! "sort")) "trending"
       then Some (now - weekMs)%Z
       else None |}.

(** The filter [GET /api/posts/admin] builds. *)
Definition adminFilter (q : gmap string string) : Filter :=
  {| byStatus := nonEmpty (q !! "status") ≫= statusOfString;
     byCategory := None; tagsIn := None; search := None;
     publishedSince := None |}.

(** The search test of that filter: the compiled pattern of a [search]
    parameter that is not empty. *)
Definition searchTest (q : gmap string string) : option (string -> bool) :=
  nonEmpty (q !! "search") ≫= regExp.

(** [GET /api/posts] *)
Definition index (now : Z) (q : gmap string string) : Store -> Response * Store :=
  tryCatch
    (_ ← checkValidation (listErrors q);
     let pageNo := JS.parseIntOr (q !! "page") 1 in
     let lim := JS.parseIntOr (q !! "limit") 10 in
     let skip := ((pageNo - 1) * lim)%Z in
     let sort := default "latest" (q !! "sort") in
     test ← (match nonEmpty (q !! "search") with
             | Some src => Some <$> orThrow (regExp src)
             | None => mret None
             end);
     let filter := publicFilter now q test in
     let sortQuery :=
       if String.eqb sort "oldest" then PublishedAsc
       else if String.eqb sort "popular" then ViewsLikesDesc
       else if String.eqb sort "trending" then ViewsLikesDesc
       else PublishedDesc in
     _ ← (match nonEmpty (q !! "category") with
          | Some c => _ ← orThrow (castObjectId c); mret tt
          | None => mret tt
          end);
     found ← findPage filter sortQuery skip lim;
     total ← query (countDocuments filter);
     sent ← json found;
     mret (ok None (PostList sent (pagination pageNo lim total))))
    "Server error while fetching posts".

(** [GET /api/posts/admin], behind [auth, adminAuth]. *)
Definition adminIndex (check : AdminCheck) (q : gmap string string)
    : Store -> Response * Store :=
  behindAdmin check (fun _ =>
    tryCatch
      (_ ← checkValidation (adminListErrors q);
       let pageNo := JS.parseIntOr (q !! "page") 1 in
       let lim := JS.parseIntOr (q !! "limit") 10 in
       let skip := ((pageNo - 1) * lim)%Z in
       let sort := default "latest" (q !! "sort") in
       let filter := adminFilter q in
       let sortQuery :=
         if String.eqb sort "oldest" then CreatedAsc
         else if String.eqb sort "title" then TitleAsc
         else if String.eqb sort "views" then ViewsDesc
         else CreatedDesc in
       found ← findPage filter sortQuery skip lim;
       total ← query (countDocuments filter);
       sent ← json found;
       mret (ok None (PostList sent (pagination pageNo lim total))))
      "Server error while fetching posts").

(** *** Saving a post *)

Definition slugTaken (p : Post.t) (s : Store) : bool :=
  existsb (fun q => bool_decide (slug q = slug p) && negb (hasId (_id p) q))
    (posts s).

(** [post.save()]: validation, the timestamps, the pre-save hook, then
    the write, which the unique index on [slug] can refuse.  The handler
    runs against one store, so writing the document whole is writing its
    modified paths.  [written] is the document the write stores. *)
Definition written (clk : Clock) (d : Post.doc) : Post.t :=
  fields (preSave slugify clk (stamp clk d)).

Definition save (clk : Clock) (d : Post.doc) : Handler Post.doc :=
  if negb (validate d) then throw
  else
    let p := written clk d in
    taken ← query (slugTaken p);
    if taken : bool then throw
    else
      _ ← modify (fun s =>
             set_posts
               (if isNew d then posts s ++ [p]
                else updateFirst (hasId (_id p)) (fun _ => p) (posts s)) s);
      mret (Doc p false ∅).

(** *** [PUT /api/posts/:id] *)

Definition updateFields : list string :=
  ["title"; "content"; "excerpt"; "category"; "tags"; "status";
   "featuredImage"; "seo"; "contentType"; "scheduledFor";
   "affiliateLinks"; "adSenseEnabled"; "commentsEnabled"].

(** [post[field] = value]; [None] is a cast error, which the document
    keeps until the save and which fails it. *)
Definition setField (field : string) (v : Value) (d : Post.doc)
    : option Post.doc :=
  if String.eqb field "title" then
    match v with VString s => Some (assignTitle s d) | _ => None end
  else if String.eqb field "content" then
    match v with VString s => Some (assignContent s d) | _ => None end
  else if String.eqb field "excerpt" then
    match v with VString s => Some (assignExcerpt (Some s) d) | _ => None end
  else if String.eqb field "category" then
    match v with
    | VString s => (fun c => assignCategory c d) <$> castObjectId s
    | _ => None
    end
  else if String.eqb field "tags" then
    match v with VStrings l => Some (assignTags l d) | _ => None end
  else if String.eqb field "status" then
    match v with
    | VString s => (fun st => assignStatus st d) <$> statusOfString s
    | _ => None
    end
  else if String.eqb field "featuredImage" then
    match v with VImage i => Some (assignFeaturedImage i d) | _ => None end
  else if String.eqb field "seo" then
    match v with VSeo s => Some (assignSeo s d) | _ => None end
  else if String.eqb field "contentType" then
    match v with
    | VString s => (fun c => assignContentType c d) <$> contentTypeOfString s
    | _ => None
    end
  else if String.eqb field "scheduledFor" then
    match v with VDate t => Some (assignScheduledFor t d) | _ => None end
  else if String.eqb field "affiliateLinks" then
    match v with VLinks l => Some (assignAffiliateLinks l d) | _ => None end
  else if String.eqb field "adSenseEnabled" then
    match v with VBool b => Some (assignAdSenseEnabled b d) | _ => None end
  else if String.eqb field "commentsEnabled" then
    match v with VBool b => Some (assignCommentsEnabled b d) | _ => None end
  else Some d.

(** [updateFields.forEach(field => { if (req.body[field] !== undefined)
    post[field] = req.body[field]; })] *)
Definition applyFields (body : gmap string Value) (d : Post.doc)
    : option Post.doc :=
  foldl
    (fun acc field =>
       match body !! field with
       | Some v => acc ≫= setField field v
       | None => acc
       end)
    (Some d) updateFields.

Definition isArray (v : Value) : bool :=
  match v with VStrings _ => true | _ => false end.

Definition onText (check : string -> bool) (v : Value) : bool :=
  from_option check false (text v).

(** The validation chains of [PUT /api/posts/:id]; the chain on [title]
    trims it before measuring. *)
Definition updateErrors (body : gmap string Value) : list string :=
  Validator.optional (onText (fun s => Validator.isLength titleMax (JS.trim s)))
    "Title cannot exceed 200 characters" (body !! "title")
  ++ Validator.optional (onText Validator.isMongoId)
       "Valid category ID is required" (body !! "category")
  ++ Validator.optional isArray "Tags must be an array" (body !! "tags")
  ++ Validator.optional (onText (Validator.isIn statuses))
       "Status must be one of: draft, published, archived" (body !! "status")
  ++ Validator.optional (onText (Validator.isLength excerptMax))
       "Excerpt cannot exceed 500 characters" (body !! "excerpt").

Definition categoryExists (id : ObjectId) (s : Store) : bool :=
  existsb (fun c => bool_decide (Category._id c = id)) (categories s).

(** The truthy [req.body.category], as a string. *)
Definition bodyCategory (body : gmap string Value) : option string :=
  nonEmpty (body !! "category" ≫= text).

Definition put (check : AdminCheck) (clk : Clock) (id : string)
    (body : gmap string Value) : Store -> Response * Store :=
  behindAdmin check (fun _ =>
    tryCatch
      (_ ← checkValidation (updateErrors body);
       oid ← orThrow (castObjectId id);
       found ← query (findById oid);
       match found with
       | None => send (failure 404 "Post not found")
       | Some p =>
           _ ← (match bodyCategory body with
                | Some c =>
                    cid ← orThrow (castObjectId c);
                    known ← query (categoryExists cid);
                    sendWhen (negb known) (failure 400 "Invalid category")
                | None => mret tt
                end);
           d ← orThrow (applyFields body (Doc p false ∅));
           saved ← save clk d;
           mret (ok (Some "Post updated successfully") (OnePost (fields saved)))
       end)
      "Server error while updating post").


(** *** [POST /api/posts] *)

Definition notEmpty (v : option Value) : bool :=
  match v with
  | Some (VString (String _ _)) => true
  | _ => false
  end.

Definition require (passes : bool) (msg : string) : list string :=
  if passes then [] else [msg].

(** The validation chains of [POST /api/posts].  On [title], [withMessage]
    names the last validator of the chain, [isLength]: a failure of
    [notEmpty] carries the message of the library, and the length is
    measured on what [trim] left of the title, nothing when there is none. *)
Definition createErrors (body : gmap string Value) : list string :=
  require (notEmpty (body !! "title")) "Invalid value"
  ++ require
       (from_option (fun s => Validator.isLength titleMax (JS.trim s)) true
          (body !! "title" ≫= text))
       "Title is required and cannot exceed 200 characters"
  ++ require (notEmpty (body !! "content")) "Content is required"
  ++ require (from_option (onText Validator.isMongoId) false (body !! "category"))
       "Valid category ID is required"
  ++ Validator.optional isArray "Tags must be an array" (body !! "tags")
  ++ Validator.optional (onText (Validator.isIn statuses))
       "Status must be one of: draft, published, archived" (body !! "status")
  ++ Validator.optional (onText (Validator.isLength excerptMax))
       "Excerpt cannot exceed 500 characters" (body !! "excerpt").

Definition given (field : string) (v : option Value) : list (string * Value) :=
  match v with
  | Some x => [(field, x)]
  | None => []
  end.

(** [v || dflt] for a member that is a string when present. *)
Definition truthyOr (v : option Value) (dflt : string) : Value :=
  match v with
  | Some (VString EmptyString) | None => VString dflt
  | Some x => x
  end.

(** The members of the object literal handed to [new Post(..)], but for
    [author]; a member that is [undefined] is not assigned. *)
Definition constructorArgs (newId : ObjectId) (body : gmap string Value)
    : list (string * Value) :=
  given "title" (body !! "title")
  ++ given "content" (body !! "content")
  ++ given "excerpt" (body !! "excerpt")
  ++ given "category" (body !! "category")
  ++ [("tags", default (VStrings []) (body !! "tags"));
      ("status", truthyOr (body !! "status") "draft");
      ("featuredImage",
       default (VImage (featuredImage (blank newId))) (body !! "featuredImage"));
      ("seo", default (VSeo (seo (blank newId))) (body !! "seo"));
      ("contentType", truthyOr (body !! "contentType") "markdown")]
  ++ given "scheduledFor" (body !! "scheduledFor")
  ++ [("affiliateLinks", default (VLinks []) (body !! "affiliateLinks"));
      ("adSenseEnabled", default (VBool true) (body !! "adSenseEnabled"));
      ("commentsEnabled", default (VBool true) (body !! "commentsEnabled"))].

(** [new Post({ .. })]; [None] when a member does not cast. *)
Definition construct (newId author : ObjectId) (body : gmap string Value)
    : option Post.doc :=
  foldl (fun acc '(field, v) => acc ≫= setField field v)
    (Some (assignAuthor author (Doc (blank newId) true ∅)))
    (constructorArgs newId body).

(** [POST /api/posts], behind [auth, adminAuth]; [newId] is the id
    generated for the document. *)
Definition create (check : AdminCheck) (clk : Clock) (newId : ObjectId)
    (body : gmap string Value) : Store -> Response * Store :=
  behindAdmin check (fun user =>
    tryCatch
      (_ ← checkValidation (createErrors body);
       cid ← orThrow (castObjectId (default "" (body !! "category" ≫= text)));
       known ← query (categoryExists cid);
       _ ← sendWhen (negb known) (failure 400 "Invalid category");
       d ← orThrow (construct newId user body);
       saved ← save clk d;
       mret (created "Post created successfully" (OnePost (fields saved))))
      "Server error while creating post").

(** *** [POST /api/posts/:id/like] *)

(** [post.incrementLikes()]: [updateOne({ $inc: { likes: 1 } })] on the
    stored document with the id of [post]; the timestamps option adds
    [$set: { updatedAt }] to the update, [now] the time it writes. *)
Definition incrementLikes (now : Date) (post : Post.t) : Handler unit :=
  modify (fun s =>
    set_posts
      (updateFirst (hasId (_id post))
         (fun q => set_updatedAt now (set_likes (likes q + 1)%Z q))
         (posts s)) s).

(** The handler up to its first [await]: the lookup of the post. *)
Definition likeLookup (id : string) : Handler Post.t :=
  oid ← orThrow (castObjectId id);
  found ← query (findById oid);
  match found with
  | None => send (failure 404 "Post not found")
  | Some p => mret p
  end.

(** The handler after the lookup, on the document it fetched. *)
Definition likeFetched (now : Date) (post : Post.t) : Handler Response :=
  _ ← incrementLikes now post;
  mret (ok (Some "Post liked successfully") (Likes (likes post + 1)%Z)).

Definition like (now : Date) (id : string) : Store -> Response * Store :=
  tryCatch (post ← likeLookup id; likeFetched now post)
    "Server error while liking post".

(** *** Sequences of requests that write posts *)

Inductive Request :=
  | Create (check : AdminCheck) (clk : Clock) (newId : ObjectId)
      (body : gmap string Value)
  | Put (check : AdminCheck) (clk : Clock) (id : string)
      (body : gmap string Value)
  | Like (now : Date) (id : string).

Definition handle (r : Request) : Store -> Response * Store :=
  match r with
  | Create check clk newId body => create check clk newId body
  | Put check clk id body => put check clk id body
  | Like now id => like now id
  end.

(** The store after the requests were served one after the other. *)
Definition serve (requests : list Request) (s : Store) : Store :=
  foldl (fun s r => snd (handle r s)) s requests.

(** The publish date of the post with the given id, when the post exists
    and has one. *)
Definition publishedOf (id : ObjectId) (s : Store) : option Date :=
  findById id s ≫= publishedAt.

End Routes.
End Posts.

(** ** The categories router *)
Module Categories.

Definition hasId (id : ObjectId) (c : Category.t) : bool :=
  bool_decide (Category._id c = id).

(** [Category.findById(id)] on an id already cast. *)
Definition findById (id : ObjectId) (s : Store) : option Category.t :=
  List.find (hasId id) (categories s).

(** [Category.findOne({ slug, isActive: true })]; the filter goes through
    the setter of the path. *)
Definition findActiveBySlug (slug : string) (s : Store) : option Category.t :=
  List.find
    (fun c => bool_decide (Category.slug c = JS.toLowerCase slug)
              && Category.isActive c)
    (categories s).

(** [{ category: category._id, status: 'published' }] *)
Definition categoryFilter (category : Category.t) : Posts.Filter :=
  {| Posts.byStatus := Some Post.published;
     Posts.byCategory := Some (Category._id category);
     Posts.tagsIn := None; Posts.search := None;
     Posts.publishedSince := None |}.

(** [GET /api/categories/:slug/posts] *)
Definition postsOf (slug : string) (q : gmap string string)
    : Store -> Response * Store :=
  tryCatch
    (let pageNo := JS.parseIntOr (q !! "page") 1 in
     let lim := JS.parseIntOr (q !! "limit") 10 in
     let skip := ((pageNo - 1) * lim)%Z in
     found ← query (findActiveBySlug slug);
     match found with
     | None => send (failure 404 "Category not found")
     | Some category =>
         let filter := categoryFilter category in
         list ← Posts.findPage filter Posts.PublishedDesc skip lim;
         total ← query (Posts.countDocuments filter);
         sent ← Posts.json list;
         mret (ok None
                 (CategoryPostList category sent
                    (Posts.pagination pageNo lim total)))
     end)
    "Server error while fetching category posts".

(** [Post.countDocuments({ category: category._id })] *)
Definition postCount (id : ObjectId) (s : Store) : Z :=
  count (fun p => bool_decide (Post.category p = id)) (posts s).

(** [Category.countDocuments({ parentCategory: category._id })] *)
Definition subcategoryCount (id : ObjectId) (s : Store) : Z :=
  count (fun c => bool_decide (Category.parentCategory c = Some id))
    (categories s).

(** [DELETE /api/categories/:id], behind [auth, adminAuth]. *)
Definition remove (check : AdminCheck) (id : string) : Store -> Response * Store :=
  behindAdmin check (fun _ =>
    tryCatch
      (oid ← orThrow (castObjectId id);
       found ← query (findById oid);
       match found with
       | None => send (failure 404 "Category not found")
       | Some category =>
           postCount ← query (postCount (Category._id category));
           _ ← sendWhen (0 <? postCount)%Z
                 (failure 400
                    ("Cannot delete category. It has " +:+ JS.toString postCount
                     +:+ " posts. Please move or delete the posts first."));
           subcategoryCount ← query (subcategoryCount (Category._id category));
           _ ← sendWhen (0 <? subcategoryCount)%Z
                 (failure 400
                    ("Cannot delete category. It has "
                     +:+ JS.toString subcategoryCount
                     +:+ " subcategories. Please move or delete the subcategories first."));
           _ ← modify (fun s => set_categories (deleteFirst (hasId oid) (categories s)) s);
           mret (ok (Some "Category deleted successfully") NoData)
       end)
      "Server error while deleting category").

End Categories.

(** ** The slugify package on ASCII text

    The models take [slugify] as a parameter; this is the package's
    algorithm for the options the models pass ([lower], [strict] and the
    [remove] pattern), on text whose characters are ASCII, for running the
    hooks on concrete documents. *)
Module Slugify.

(** The ASCII entries of the package's character map, and the replacement
    character, which counts as a space. *)
Definition charMap (c : ascii) : string :=
  if bool_decide (c = "$"%char) then "dollar"
  else if bool_decide (c = "%"%char) then "percent"
  else if bool_decide (c = "&"%char) then "and"
  else if bool_decide (c = "<"%char) then "less"
  else if bool_decide (c = ">"%char) then "greater"
  else if bool_decide (c = "|"%char) then "or"
  else if bool_decide (c = "-"%char) then " "
  else String c EmptyString.

Fixpoint keep (f : ascii -> bool) (s : string) : string :=
  match s with
  | EmptyString => EmptyString
  | String c r => if f c then String c (keep f r) else keep f r
  end.

(** The [remove] pattern of the models: asterisk, plus, tilde, full stop,
    the two parentheses, the two quotes, exclamation mark, colon and at
    sign, by their codes. *)
Definition removed (c : ascii) : bool :=
  bool_decide (JS.code c ∈ [42; 43; 126; 46; 40; 41; 39; 34; 33; 58; 64]%Z).

Definition alphanumeric (c : ascii) : bool :=
  JS.isDigit c || JS.inRange 65 90 c || JS.inRange 97 122 c.

Fixpoint mapped (s : string) : string :=
  match s with
  | EmptyString => EmptyString
  | String c r => keep (fun x => negb (removed x)) (charMap c) +:+ mapped r
  end.

(** Every run of white space becomes one hyphen. *)
Fixpoint hyphenate (inRun : bool) (s : string) : string :=
  match s with
  | EmptyString => EmptyString
  | String c r =>
      if JS.isWhiteSpace c
      then (if inRun then hyphenate true r else String "-" (hyphenate true r))
      else String c (hyphenate false r)
  end.

Definition slugify (s : string) : string :=
  JS.toLowerCase
    (hyphenate false
       (JS.trim
          (keep (fun c => alphanumeric c || JS.isWhiteSpace c) (mapped s)))).

End Slugify.

(** ** The rest of the Post model and of the posts router *)
Module PostsRest.
Import Post.

(** A route whose answer on success is [{ success: true, data: { .. } }]
    with a payload of a shape of its own: the payload of that answer (status
    200), or the answer that was sent in its place. *)
Definition tryCatchData {A} (body : Handler A) (onError : string) (s : Store)
    : (Response + A) * Store :=
  match body s with
  | (Value v, s') => (inr v, s')
  | (Sent r, s') => (inl r, s')
  | (Thrown, s') => (inl (failure 500 onError), s')
  end.

(** [postSchema.virtual('url')] *)
Definition url (p : Post.t) : string := "/blog/" +:+ slug p.

(** [postSchema.virtual('estimatedReadingTime')] *)
Definition estimatedReadingTime (p : Post.t) : Z :=
  if (0 <? readingTime p)%Z then readingTime p
  else JS.ceilDiv (JS.splitCount (content p)) 200.

(** The filter of [postSchema.statics.findTrending]. *)
Definition trendingFilter (now : Z) : Posts.Filter :=
  {| Posts.byStatus := Some published; Posts.byCategory := None;
     Posts.tagsIn := None; Posts.search := None;
     Posts.publishedSince := Some (now - Posts.weekMs)%Z |}.

(** [Post.findTrending(limit)]: published in the last seven days, most viewed
    first, then most liked; the populated author and category are left as
    their ids. *)
Definition findTrending (now lim : Z) : Handler (list Post.t) :=
  found ← query (fun s =>
             page 0 lim
               (sortBy (Posts.before Posts.ViewsLikesDesc)
                  (Posts.find (trendingFilter now) s)));
  orThrow found.

(** [GET /api/posts/trending]; the posts of the answer, see [tryCatchData]. *)
Definition trending (now : Z) (q : gmap string string)
    : Store -> (Response + list Post.t) * Store :=
  tryCatchData
    (let lim := JS.parseIntOr (q !! "limit") 5 in
     findTrending now lim)
    "Server error while fetching trending posts".

(** [$group: { _id: '$tags', count: { $sum: 1 } }] over the unwound tags, the
    groups in the order their tags first occur. *)
Fixpoint bump (tag : string) (groups : list (string * Z)) : list (string * Z) :=
  match groups with
  | [] => [(tag, 1%Z)]
  | (t, n) :: rest =>
      if String.eqb t tag then (t, (n + 1)%Z) :: rest
      else (t, n) :: bump tag rest
  end.

Definition tally (tags : list string) : list (string * Z) :=
  foldl (fun groups tag => bump tag groups) [] tags.

(** [$match: { status: 'published' }] then [$unwind: '$tags'] *)
Definition publishedTags (s : Store) : list string :=
  concat (tags <$> List.filter (fun p => bool_decide (status p = published)) (posts s)).

(** The pipeline of [GET /api/posts/tags]: match, unwind, group, sort by
    count descending, limit 50. *)
Definition tagCounts (s : Store) : list (string * Z) :=
  take 50 (sortBy (fun a b => (snd b <=? snd a)%Z) (tally (publishedTags s))).

(** [GET /api/posts/tags]; the tags of the answer, with their counts. *)
Definition tags : Store -> (Response + list (string * Z)) * Store :=
  tryCatchData (query tagCounts) "Server error while fetching tags".

(** [post.incrementViews()]: [updateOne({ $inc: { views: 1 } })]; the
    timestamps option adds [$set: { updatedAt }] to the update, [now] the
    time it writes. *)
Definition incrementViews (now : Date) (post : Post.t) : Handler unit :=
  modify (fun s =>
    set_posts
      (updateFirst (Posts.hasId (_id post))
         (fun q => set_updatedAt now (set_views (views q + 1)%Z q))
         (posts s)) s).

(** [Post.findOne({ slug, status: 'published' })]; the filter goes through
    the setter of the path. *)
Definition findPublishedBySlug (slug : string) (s : Store) : option Post.t :=
  List.find
    (fun p => bool_decide (Post.slug p = JS.toLowerCase slug)
              && bool_decide (status p = published))
    (posts s).

Section Show.

(** Modelled from the spec: the User model is not among the sources.
    [knownUser] tells whether an id is that of a stored user: [populate]
    puts the user in [post.author] when it is, and [null] when it is not. *)
Variable knownUser : ObjectId -> bool.

(** [GET /api/posts/:slug], behind [optionalAuth]; [viewer] is the identity
    of the caller when the request carries one, [now] the time of the
    update that counts the view. *)
Definition show (now : Date) (viewer : option ObjectId) (slug : string)
    : Store -> Response * Store :=
  tryCatch
    (found ← query (findPublishedBySlug slug);
     match found with
     | None => send (failure 404 "Post not found")
     | Some post =>
         counts ←
           (match viewer with
            | None => mret true
            | Some user =>
                if knownUser (author post)
                then mret (negb (bool_decide (user = author post)))
                else throw
            end);
         _ ← (if counts : bool then incrementViews now post else mret tt);
         mret (ok None (OnePost post))
     end)
    "Server error while fetching post".

End Show.

(** [Post.findByIdAndDelete(id)] *)
Definition findByIdAndDelete (id : ObjectId) : Handler unit :=
  modify (fun s => set_posts (deleteFirst (Posts.hasId id) (posts s)) s).

(** [DELETE /api/posts/:id], behind [auth, adminAuth]. *)
Definition remove (check : AdminCheck) (id : string) : Store -> Response * Store :=
  behindAdmin check (fun _ =>
    tryCatch
      (oid ← orThrow (castObjectId id);
       found ← query (Posts.findById oid);
       match found with
       | None => send (failure 404 "Post not found")
       | Some _ =>
           _ ← findByIdAndDelete oid;
           mret (ok (Some "Post deleted successfully") NoData)
       end)
      "Server error while deleting post").

End PostsRest.

(** ** The rest of the Category model and the reading routes of its router *)
Module CategoriesRest.
Import Category.

(** [categorySchema.virtual('url')] *)
Definition url (c : Category.t) : string := "/category/" +:+ slug c.

(** [.sort({ sortOrder: 1, name: 1 })] *)
Definition byOrder (a b : Category.t) : bool :=
  (sortOrder a <? sortOrder b)%Z
  || ((sortOrder a =? sortOrder b)%Z && String.leb (name a) (name b)).

(** [Category.findActive()]; the populated virtual [subcategories] is not
    part of the documents. *)
Definition findActive (s : Store) : list Category.t :=
  sortBy byOrder (List.filter isActive (categories s)).

(** [Category.findWithPostCount()]: [$match], [$lookup] of the posts of the
    category, [$addFields] of their number over the stored [postCount],
    [$project] of the posts away, [$sort]. *)
Definition findWithPostCount (s : Store) : list Category.t :=
  sortBy byOrder
    ((fun c => set_postCount (Categories.postCount (_id c) s) c)
       <$> List.filter isActive (categories s)).

(** [GET /api/categories] *)
Definition index : Store -> (Response + list Category.t) * Store :=
  PostsRest.tryCatchData (query findActive) "Server error while fetching categories".

(** [GET /api/categories/with-counts] *)
Definition withCounts : Store -> (Response + list Category.t) * Store :=
  PostsRest.tryCatchData (query findWithPostCount)
    "Server error while fetching categories".

(** [GET /api/categories/admin], behind [auth, adminAuth]. *)
Definition adminIndex (check : AdminCheck) (s : Store)
    : (Response + list Category.t) * Store :=
  match check with
  | Pass _ =>
      PostsRest.tryCatchData (query (fun s => sortBy byOrder (categories s)))
        "Server error while fetching categories" s
  | Reject answer => (inl answer, s)
  end.

(** [GET /api/categories/:slug] *)
Definition show (slug : string) : Store -> (Response + Category.t) * Store :=
  PostsRest.tryCatchData
    (found ← query (Categories.findActiveBySlug slug);
     match found with
     | None => send (failure 404 "Category not found")
     | Some category => mret category
     end)
    "Server error while fetching category".

End CategoriesRest.

(** ** Restatements the properties compare the code with *)
Module Spec.

(** The derived excerpt in the words of the lifecycle rules: the content
    with its markup tags stripped, truncated to 200 characters, with an
    ellipsis appended if the truncation dropped something. *)
Definition derivedExcerpt (content : string) : string :=
  let plainText := JS.stripTags content in
  if (200 <? String.length plainText)%nat
  then JS.prefix 200 plainText +:+ "..."
  else plainText.

(** The number of pages for [total] items at [lim] per page: the least
    [n] with [total <= n * lim], for a positive [lim]. *)
Definition isCeiling (total lim n : Z) : Prop :=
  (lim * (n - 1) < total <= lim * n)%Z.

(** A pagination object computed from the total count [total] of the
    matching documents and the limit: the number of pages is the ceiling
    of their quotient, and the two flags compare the page with 1 and with
    the number of pages. *)
Definition paginates (pg : Pagination) (total : Z) : Prop :=
  totalPosts pg = total
  /\ limit pg ≠ 0%Z
  /\ totalPages pg = JS.ceilDiv total (limit pg)
  /\ ((0 < limit pg)%Z -> isCeiling total (limit pg) (totalPages pg))
  /\ hasNextPage pg = bool_decide (currentPage pg < totalPages pg)%Z
  /\ hasPrevPage pg = bool_decide (1 < currentPage pg)%Z.

End Spec.

(** ** Proof support *)

(** Unfolds the control flow of a handler down to the store. *)
Ltac run_handler :=
  unfold tryCatch, behindAdmin, sendWhen, orThrow, Posts.checkValidation,
    mbind, Handler_bind, fmap, Handler_fmap, mret, Handler_ret,
    send, throw, query, modify in *.

(** A projection of a post that none of the paths a request can assign
    writes. *)
Definition untouched {A} (proj : Post.t -> A) : Prop :=
  (forall v p, proj (Post.set_title v p) = proj p)
  /\ (forall v p, proj (Post.set_content v p) = proj p)
  /\ (forall v p, proj (Post.set_excerpt v p) = proj p)
  /\ (forall v p, proj (Post.set_category v p) = proj p)
  /\ (forall v p, proj (Post.set_tags v p) = proj p)
  /\ (forall v p, proj (Post.set_status v p) = proj p)
  /\ (forall v p, proj (Post.set_featuredImage v p) = proj p)
  /\ (forall v p, proj (Post.set_seo v p) = proj p)
  /\ (forall v p, proj (Post.set_contentType v p) = proj p)
  /\ (forall v p, proj (Post.set_scheduledFor v p) = proj p)
  /\ (forall v p, proj (Post.set_affiliateLinks v p) = proj p)
  /\ (forall v p, proj (Post.set_adSenseEnabled v p) = proj p)
  /\ (forall v p, proj (Post.set_commentsEnabled v p) = proj p).

(** ** Sample documents and requests *)
Module Sample.
Import Post.

Fixpoint replicate (n : nat) (c : ascii) : string :=
  match n with
  | O => EmptyString
  | S m => String c (replicate m c)
  end.

Definition admin : ObjectId := "5f0000000000000000000001".
Definition techId : ObjectId := "5f00000000000000000000a1".
Definition newsId : ObjectId := "5f00000000000000000000a2".
Definition helloId : ObjectId := "5f00000000000000000000b1".
Definition longId : ObjectId := "5f00000000000000000000b2".
Definition commentId : ObjectId := "5f00000000000000000000c1".

Definition clock : Clock :=
  {| atSlug := 1730000001234%Z; atPublish := 1730000001235%Z;
     atStamp := 1730000001233%Z |}.

Definition later : Clock :=
  {| atSlug := 1730000095678%Z; atPublish := 1730000095679%Z;
     atStamp := 1730000095677%Z |}.

Definition tech : Category.t :=
  {| Category._id := techId; Category.name := "Tech"; Category.slug := "tech";
     Category.description := Some "Gadgets and software";
     Category.color := "#3B82F6"; Category.icon := "folder";
     Category.image := None; Category.parentCategory := None;
     Category.isActive := true; Category.sortOrder := 0;
     Category.seo :=
       {| Category.metaTitle := Some "Tech";
          Category.metaDescription := Some "Gadgets and software";
          Category.metaKeywords := [] |};
     Category.postCount := 0; Category.totalViews := 0;
     Category.createdAt := 1729000000000%Z;
     Category.updatedAt := 1729000000000%Z |}.

(** A category without posts, whose parent is [tech]. *)
Definition news : Category.t :=
  {| Category._id := newsId; Category.name := "News"; Category.slug := "news";
     Category.description := None;
     Category.color := "#3B82F6"; Category.icon := "folder";
     Category.image := None; Category.parentCategory := Some techId;
     Category.isActive := true; Category.sortOrder := 1;
     Category.seo :=
       {| Category.metaTitle := Some "News"; Category.metaDescription := None;
          Category.metaKeywords := [] |};
     Category.postCount := 0; Category.totalViews := 0;
     Category.createdAt := 1729000000001%Z;
     Category.updatedAt := 1729000000001%Z |}.

Definition empty : Store :=
  {| posts := []; categories := [tech; news]; comments := [] |}.

Definition helloBody : gmap string Posts.Value :=
  <["title" := Posts.VString "Hello, World!"]>
    (<["content" := Posts.VString "<p>Some <b>text</b> here</p>"]>
       (<["category" := Posts.VString techId]>
          (<["status" := Posts.VString "published"]> ∅))).

(** A post whose plain text is 200 characters long. *)
Definition longBody : gmap string Posts.Value :=
  <["title" := Posts.VString "Long read"]>
    (<["content" := Posts.VString (replicate 200 "a")]>
       (<["category" := Posts.VString techId]> ∅)).

(** The store after an administrator created the published post. *)
Definition blog : Store :=
  snd (Posts.create Slugify.slugify (Pass admin) clock helloId helloBody empty).

(** Status toggles, a like, and an update that carries a publish date. *)
Definition toggles : list Posts.Request :=
  [Posts.Put (Pass admin) later helloId (<["status" := Posts.VString "draft"]> ∅);
   Posts.Put (Pass admin) later helloId (<["status" := Posts.VString "published"]> ∅);
   Posts.Like 1730000050000%Z helloId;
   Posts.Put (Pass admin) later helloId
     (<["publishedAt" := Posts.VDate (Some 5%Z)]>
        (<["title" := Posts.VString "Hello again"]> ∅));
   Posts.Put (Pass admin) later helloId (<["status" := Posts.VString "archived"]> ∅)].

(** The store after a second published post was created. *)
Definition busy : Store :=
  snd (Posts.create Slugify.slugify (Pass admin) later longId
         (<["status" := Posts.VString "published"]> longBody) blog).

Definition unauthorized : Response :=
  {| statusCode := 401; success := false;
     message := Some "No token, authorization denied"; data := NoData;
     errors := [] |}.

Definition commentBody : gmap string string :=
  <["postId" := helloId]>
    (<["author" := "Ada"]>
       (<["email" := "ada@example.org"]> (<["content" := "First!"]> ∅))).

(** The store after a visitor commented on the post. *)
Definition commented : Store :=
  snd (Comments.create (fun _ => true) commentId 1730000100000%Z commentBody blog).

(** A new document whose title, status and content were assigned. *)
Definition draftDoc : Post.doc :=
  assignStatus published
    (assignContent "<p>Some <b>text</b> here</p>"
       (assignTitle "Hello, World!" (Doc (blank helloId) true ∅))).

(** A new category with a description and no SEO fields. *)
Definition gadgets : Category.doc :=
  Doc {| Category._id := "5f00000000000000000000a3"; Category.name := "Smart Gadgets";
         Category.slug := "";
         Category.description := Some (replicate 170 "g");
         Category.color := "#3B82F6"; Category.icon := "folder";
         Category.image := None; Category.parentCategory := None;
         Category.isActive := true; Category.sortOrder := 2;
         Category.seo :=
           {| Category.metaTitle := None; Category.metaDescription := None;
              Category.metaKeywords := [] |};
         Category.postCount := 0; Category.totalViews := 0;
         Category.createdAt := 0%Z; Category.updatedAt := 0%Z |}
      true {["name"]}.

End Sample.

(** * Properties *)

(** ** Assignments *)
Section Assign.
Context {T A : Type} `{EqDecision A}.
Implicit Types (d : Document T) (get : T -> A) (set : A -> T -> T).

Lemma fields_assign path get set v d :
  fields (assign path get set v d) = set v (fields d).
Proof. reflexivity. Qed.

Lemma isNew_assign path get set v d :
  isNew (assign path get set v d) = isNew d.
Proof. reflexivity. Qed.

Lemma isModified_assign_ne path other get set v d :
  path ≠ other ->
  isModified path (assign other get set v d) = isModified path d.
Proof.
  intros Hne. unfold isModified, assign. simpl.
  destruct (isNew d || negb (bool_decide (get (fields d) = v))); [|done].
  apply bool_decide_ext. rewrite elem_of_union, elem_of_singleton. tauto.
Qed.
End Assign.

(** ** String lemmas *)
Module StringFacts.
Import JS.

Lemma length_app (a b : string) :
  String.length (a +:+ b) = (String.length a + String.length b)%nat.
Proof. induction a as [|c a IH]; simpl; [done | by rewrite IH]. Qed.

Lemma length_prefix n (s : string) :
  String.length (prefix n s) = Nat.min n (String.length s).
Proof.
  unfold prefix. revert s.
  induction n as [|n IH]; intros [|c s]; simpl; try done.
  by rewrite IH.
Qed.

Lemma prefix_short n (s : string) :
  (String.length s <= n)%nat -> prefix n s = s.
Proof.
  unfold prefix. revert s.
  induction n as [|n IH]; intros [|c s]; simpl; intros Hlen; try done; try lia.
  rewrite IH; [done | lia].
Qed.

Lemma app_empty_r (s : string) : s +:+ "" = s.
Proof.
  induction s as [|c s IH]; [done |].
  change (String c (s +:+ "") = String c s). by rewrite IH.
Qed.

(** The expression of the excerpt block is the derived excerpt. *)
Lemma derivedExcerpt_code (content : string) :
  prefix 200 (stripTags content)
  +:+ (if (200 <? String.length (stripTags content))%nat then "..." else "")
  = Spec.derivedExcerpt content.
Proof.
  unfold Spec.derivedExcerpt.
  destruct (200 <? String.length (stripTags content))%nat eqn:Hlen; [done |].
  apply Nat.ltb_ge in Hlen. by rewrite app_empty_r, prefix_short.
Qed.

Lemma toLowerCase_app (a b : string) :
  toLowerCase (a +:+ b) = toLowerCase a +:+ toLowerCase b.
Proof. induction a as [|c a IH]; simpl; [done | by rewrite IH]. Qed.

Lemma lowerChar_idem c : lowerChar (lowerChar c) = lowerChar c.
Proof.
  destruct c as [[] [] [] [] [] [] [] []]; vm_compute; reflexivity.
Qed.

Lemma toLowerCase_idem (s : string) : toLowerCase (toLowerCase s) = toLowerCase s.
Proof.
  induction s as [|c s IH]; simpl; [done |].
  by rewrite lowerChar_idem, IH.
Qed.

Lemma toLowerCase_substring n m (s : string) :
  toLowerCase (String.substring n m s) = String.substring n m (toLowerCase s).
Proof.
  revert n m.
  induction s as [|c s IH]; intros [|n] [|m]; simpl; try done;
    by rewrite IH.
Qed.

Lemma toLowerCase_length (s : string) :
  String.length (toLowerCase s) = String.length s.
Proof. induction s as [|c s IH]; simpl; [done | by rewrite IH]. Qed.

(** The decimal digits and the sign have no upper case. *)
Lemma toLowerCase_uint (d : Decimal.uint) :
  toLowerCase (NilEmpty.string_of_uint d) = NilEmpty.string_of_uint d.
Proof. induction d; simpl; try done; by rewrite IHd. Qed.

Lemma toLowerCase_toString (n : Z) : toLowerCase (toString n) = toString n.
Proof.
  unfold toString, NilZero.string_of_int, NilZero.string_of_uint.
  destruct (Z.to_int n) as [d|d]; destruct d; simpl; try done;
    by rewrite toLowerCase_uint.
Qed.

Lemma toLowerCase_sliceLast k (s : string) :
  toLowerCase s = s -> toLowerCase (sliceLast k s) = sliceLast k s.
Proof.
  intros Hs. unfold sliceLast. by rewrite toLowerCase_substring, Hs.
Qed.

End StringFacts.

(** ** The pre-save hook of the Post model *)
Module PostFacts.
Import Post.

Section Hook.
Variable slugify : string -> string.
Implicit Types (d : Post.doc) (clk : Clock).

(** Each block is the identity or one assignment: it keeps [isNew], the
    marks of the other paths, and every projection its setter keeps. *)
Ltac block := intros; repeat case_match; try done; simpl in *; auto.

Lemma isNew_slugBlock clk d : isNew (slugBlock slugify clk d) = isNew d.
Proof. unfold slugBlock. block. Qed.

Lemma isModified_slugBlock path clk d :
  path ≠ "slug" ->
  isModified path (slugBlock slugify clk d) = isModified path d.
Proof.
  intros Hne. unfold slugBlock, assignSlug.
  repeat case_match; try done; by rewrite !isModified_assign_ne.
Qed.

Lemma frame_slugBlock {A} (proj : Post.t -> A) clk d :
  (forall v p, proj (set_slug v p) = proj p) ->
  proj (fields (slugBlock slugify clk d)) = proj (fields d).
Proof.
  intros Hproj. unfold slugBlock, assignSlug.
  repeat case_match; try done; by rewrite !fields_assign, !Hproj.
Qed.

Lemma isNew_excerptBlock d : isNew (excerptBlock d) = isNew d.
Proof. unfold excerptBlock. block. Qed.

Lemma isModified_excerptBlock path d :
  path ≠ "excerpt" -> isModified path (excerptBlock d) = isModified path d.
Proof.
  intros Hne. unfold excerptBlock, assignExcerpt.
  case_match; [by rewrite isModified_assign_ne | done].
Qed.

Lemma frame_excerptBlock {A} (proj : Post.t -> A) d :
  (forall v p, proj (set_excerpt v p) = proj p) ->
  proj (fields (excerptBlock d)) = proj (fields d).
Proof.
  intros Hproj. unfold excerptBlock, assignExcerpt.
  case_match; [by rewrite fields_assign, Hproj | done].
Qed.

Lemma isNew_readingTimeBlock d : isNew (readingTimeBlock d) = isNew d.
Proof. unfold readingTimeBlock. block. Qed.

Lemma isModified_readingTimeBlock path d :
  path ≠ "readingTime" ->
  isModified path (readingTimeBlock d) = isModified path d.
Proof.
  intros Hne. unfold readingTimeBlock, assignReadingTime.
  case_match; [by rewrite isModified_assign_ne | done].
Qed.

Lemma frame_readingTimeBlock {A} (proj : Post.t -> A) d :
  (forall v p, proj (set_readingTime v p) = proj p) ->
  proj (fields (readingTimeBlock d)) = proj (fields d).
Proof.
  intros Hproj. unfold readingTimeBlock, assignReadingTime.
  case_match; [by rewrite fields_assign, Hproj | done].
Qed.

Lemma frame_publishBlock {A} (proj : Post.t -> A) clk d :
  (forall v p, proj (set_publishedAt v p) = proj p) ->
  proj (fields (publishBlock clk d)) = proj (fields d).
Proof.
  intros Hproj. unfold publishBlock, assignPublishedAt.
  case_match; [by rewrite fields_assign, Hproj | done].
Qed.

Lemma frame_metaTitleBlock {A} (proj : Post.t -> A) d :
  (forall v p, proj (set_seo v p) = proj p) ->
  proj (fields (metaTitleBlock d)) = proj (fields d).
Proof.
  intros Hproj. unfold metaTitleBlock, assignMetaTitle.
  case_match; [by rewrite fields_assign, Hproj | done].
Qed.

Lemma frame_metaDescriptionBlock {A} (proj : Post.t -> A) d :
  (forall v p, proj (set_seo v p) = proj p) ->
  proj (fields (metaDescriptionBlock d)) = proj (fields d).
Proof.
  intros Hproj. unfold metaDescriptionBlock, assignMetaDescription.
  case_match; [by rewrite fields_assign, Hproj | done].
Qed.

(** What the hook leaves alone whatever the document. *)
Lemma preSave_id clk d : _id (fields (preSave slugify clk d)) = _id (fields d).
Proof.
  unfold preSave.
  rewrite frame_metaDescriptionBlock, frame_metaTitleBlock, frame_publishBlock,
    frame_readingTimeBlock, frame_excerptBlock, frame_slugBlock; done.
Qed.

(** The publish block in one equation. *)
Lemma preSave_publishedAt clk d :
  publishedAt (fields (preSave slugify clk d)) =
    if isModified "status" d
       && bool_decide (status (fields d) = published)
       && bool_decide (publishedAt (fields d) = None)
    then Some (atPublish clk)
    else publishedAt (fields d).
Proof.
  unfold preSave.
  rewrite frame_metaDescriptionBlock, frame_metaTitleBlock by done.
  unfold publishBlock at 1.
  rewrite isModified_readingTimeBlock, isModified_excerptBlock,
    isModified_slugBlock by done.
  rewrite !(frame_readingTimeBlock status), !(frame_excerptBlock status),
    !(frame_slugBlock status) by done.
  rewrite !(frame_readingTimeBlock publishedAt), !(frame_excerptBlock publishedAt),
    !(frame_slugBlock publishedAt) by done.
  case_match; [done |].
  by rewrite frame_readingTimeBlock, frame_excerptBlock, frame_slugBlock.
Qed.

Lemma preSave_keeps_publishedAt clk d t :
  publishedAt (fields d) = Some t ->
  publishedAt (fields (preSave slugify clk d)) = Some t.
Proof.
  intros Ht. rewrite preSave_publishedAt, Ht.
  rewrite (bool_decide_eq_false_2 (Some t = None)) by done.
  by rewrite andb_false_r.
Qed.

(** The slug block in one equation; the setter of the path lower-cases
    what is assigned. *)
Lemma preSave_slug clk d :
  slug (fields (preSave slugify clk d)) =
    if isNew d then
      JS.toLowerCase
        (JS.toLowerCase (slugify (title (fields d))) +:+ "-"
         +:+ JS.sliceLast 4 (JS.toString (atSlug clk)))
    else if isModified "title" d then JS.toLowerCase (slugify (title (fields d)))
    else slug (fields d).
Proof.
  unfold preSave.
  rewrite frame_metaDescriptionBlock, frame_metaTitleBlock, frame_publishBlock,
    frame_readingTimeBlock, frame_excerptBlock by done.
  unfold slugBlock, assignSlug.
  destruct (isNew d) eqn:Hnew, (isModified "title" d) eqn:Hmod; simpl;
    rewrite ?Hnew; done.
Qed.

(** The excerpt block in one equation. *)
Lemma preSave_excerpt clk d :
  excerpt (fields (preSave slugify clk d)) =
    if isModified "content" d && negb (JS.truthy (excerpt (fields d)))
    then Some (Spec.derivedExcerpt (content (fields d)))
    else excerpt (fields d).
Proof.
  unfold preSave.
  rewrite frame_metaDescriptionBlock, frame_metaTitleBlock, frame_publishBlock,
    frame_readingTimeBlock by done.
  unfold excerptBlock, assignExcerpt.
  rewrite isModified_slugBlock by done.
  rewrite (frame_slugBlock excerpt), (frame_slugBlock content) by done.
  case_match; [by rewrite fields_assign, StringFacts.derivedExcerpt_code |].
  by rewrite frame_slugBlock.
Qed.

(** The SEO blocks. *)
Lemma metaTitleBlock_metaTitle d :
  metaTitle (seo (fields (metaTitleBlock d))) =
    if JS.truthy (metaTitle (seo (fields d)))
    then metaTitle (seo (fields d))
    else Some (JS.prefix 60 (title (fields d))).
Proof.
  unfold metaTitleBlock.
  destruct (JS.truthy (metaTitle (seo (fields d)))); reflexivity.
Qed.

Lemma metaTitleBlock_metaDescription d :
  metaDescription (seo (fields (metaTitleBlock d))) =
    metaDescription (seo (fields d)).
Proof.
  unfold metaTitleBlock.
  destruct (JS.truthy (metaTitle (seo (fields d)))); reflexivity.
Qed.

Lemma metaDescriptionBlock_metaTitle d :
  metaTitle (seo (fields (metaDescriptionBlock d))) = metaTitle (seo (fields d)).
Proof.
  unfold metaDescriptionBlock.
  destruct (JS.truthy (metaDescription (seo (fields d)))); reflexivity.
Qed.

Lemma metaDescriptionBlock_metaDescription d :
  metaDescription (seo (fields (metaDescriptionBlock d))) =
    if JS.truthy (metaDescription (seo (fields d)))
    then metaDescription (seo (fields d))
    else Some (JS.orElse (excerpt (fields d)) (JS.prefix 160 (content (fields d)))).
Proof.
  unfold metaDescriptionBlock.
  destruct (JS.truthy (metaDescription (seo (fields d)))); reflexivity.
Qed.

(** The document the SEO blocks receive differs from the one saved in
    its slug, excerpt, reading time and publish date only. *)
Lemma beforeSeo_frame {A} (proj : Post.t -> A) clk d :
  (forall v p, proj (set_slug v p) = proj p) ->
  (forall v p, proj (set_excerpt v p) = proj p) ->
  (forall v p, proj (set_readingTime v p) = proj p) ->
  (forall v p, proj (set_publishedAt v p) = proj p) ->
  proj (fields (publishBlock clk (readingTimeBlock (excerptBlock
                  (slugBlock slugify clk d))))) = proj (fields d).
Proof.
  intros Hs He Hr Hp.
  by rewrite frame_publishBlock, frame_readingTimeBlock, frame_excerptBlock,
    frame_slugBlock.
Qed.

Lemma preSave_metaTitle clk d :
  metaTitle (seo (fields (preSave slugify clk d))) =
    if JS.truthy (metaTitle (seo (fields d)))
    then metaTitle (seo (fields d))
    else Some (JS.prefix 60 (title (fields d))).
Proof.
  unfold preSave.
  pose proof (beforeSeo_frame seo clk d) as Hseo.
  pose proof (beforeSeo_frame title clk d) as Htitle.
  set (d4 := publishBlock clk (readingTimeBlock (excerptBlock
               (slugBlock slugify clk d)))) in *.
  clearbody d4.
  rewrite metaDescriptionBlock_metaTitle, metaTitleBlock_metaTitle.
  by rewrite Hseo, Htitle.
Qed.

Lemma preSave_metaDescription clk d :
  metaDescription (seo (fields (preSave slugify clk d))) =
    if JS.truthy (metaDescription (seo (fields d)))
    then metaDescription (seo (fields d))
    else Some (JS.orElse (excerpt (fields (preSave slugify clk d)))
                 (JS.prefix 160 (content (fields d)))).
Proof.
  unfold preSave.
  pose proof (beforeSeo_frame seo clk d) as Hseo.
  pose proof (beforeSeo_frame content clk d) as Hcontent.
  set (d4 := publishBlock clk (readingTimeBlock (excerptBlock
               (slugBlock slugify clk d)))) in *.
  clearbody d4.
  assert (Hexc : excerpt (fields (metaDescriptionBlock (metaTitleBlock d4))) =
                 excerpt (fields (metaTitleBlock d4)))
    by (by apply frame_metaDescriptionBlock).
  assert (Hcon : content (fields (metaTitleBlock d4)) = content (fields d4))
    by (by apply frame_metaTitleBlock).
  rewrite metaDescriptionBlock_metaDescription, metaTitleBlock_metaDescription.
  by rewrite Hexc, Hcon, Hseo, Hcontent.
Qed.

(** The timestamps leave the marks and the other fields alone. *)
Lemma isNew_stamp clk d : isNew (stamp clk d) = isNew d.
Proof. unfold stamp. repeat case_match; done. Qed.

Lemma isModified_stamp path clk d :
  isModified path (stamp clk d) = isModified path d.
Proof. unfold stamp, isModified. repeat case_match; done. Qed.

Lemma frame_stamp {A} (proj : Post.t -> A) clk d :
  (forall v p, proj (set_createdAt v p) = proj p) ->
  (forall v p, proj (set_updatedAt v p) = proj p) ->
  proj (fields (stamp clk d)) = proj (fields d).
Proof.
  intros Hc Hu. unfold stamp.
  repeat case_match; simpl; rewrite ?Hc, ?Hu; done.
Qed.

End Hook.
End PostFacts.

(** ** The posts router *)
Module PostsFacts.
Import Post Posts PostFacts.

(** The steps of a handler are reasoned about folded. *)
#[global] Arguments Posts.written : simpl never.
#[global] Arguments Post.validate : simpl never.
#[global] Arguments Posts.slugTaken : simpl never.
#[global] Arguments Posts.applyFields : simpl never.
#[global] Arguments Posts.construct : simpl never.
#[global] Arguments Posts.updateErrors : simpl never.
#[global] Arguments Posts.createErrors : simpl never.
#[global] Arguments Posts.listErrors : simpl never.
#[global] Arguments Posts.adminListErrors : simpl never.
#[global] Arguments Posts.bodyCategory : simpl never.
#[global] Arguments Posts.categoryExists : simpl never.
#[global] Arguments Posts.findById : simpl never.
#[global] Arguments Posts.publicFilter : simpl never.
#[global] Arguments Posts.adminFilter : simpl never.
#[global] Arguments Posts.countDocuments : simpl never.
#[global] Arguments Posts.pagination : simpl never.
#[global] Arguments Categories.findById : simpl never.
#[global] Arguments Categories.findActiveBySlug : simpl never.
#[global] Arguments Categories.postCount : simpl never.
#[global] Arguments Categories.subcategoryCount : simpl never.
#[global] Arguments Categories.categoryFilter : simpl never.
#[global] Arguments castObjectId : simpl never.
#[global] Arguments JS.toString : simpl never.
#[global] Arguments JS.parseIntOr : simpl never.
#[global] Arguments JS.truthy : simpl never.
#[global] Arguments page : simpl never.
#[global] Arguments sortBy : simpl never.

Lemma untouched_id : untouched _id.
Proof. repeat split. Qed.

Lemma untouched_publishedAt : untouched publishedAt.
Proof. repeat split. Qed.


Lemma setField_frame {A} (proj : Post.t -> A) field v d d' :
  untouched proj ->
  setField field v d = Some d' ->
  proj (fields d') = proj (fields d) /\ isNew d' = isNew d.
Proof.
  intros (Ht & Hc & He & Hcat & Htag & Hst & Hfi & Hseo & Hct & Hsf & Haf & Had & Hce).
  unfold setField.
  repeat case_match; intros Hset; simplify_option_eq;
    unfold assignTitle, assignContent, assignExcerpt, assignCategory, assignTags,
      assignStatus, assignFeaturedImage, assignSeo, assignContentType,
      assignScheduledFor, assignAffiliateLinks, assignAdSenseEnabled,
      assignCommentsEnabled;
    rewrite ?fields_assign, ?isNew_assign; auto.
Qed.

Lemma foldl_setField_frame {A} (proj : Post.t -> A)
    (step : string -> option Value) (fs : list string) d d' :
  untouched proj ->
  foldl (fun acc field =>
           match step field with
           | Some v => acc ≫= setField field v
           | None => acc
           end) (Some d) fs = Some d' ->
  proj (fields d') = proj (fields d) /\ isNew d' = isNew d.
Proof.
  intros Hproj.
  set (F := fun (acc : option Post.doc) (field : string) =>
              match step field with
              | Some v => acc ≫= setField field v
              | None => acc
              end).
  revert d'.
  induction fs as [|f fs IH] using rev_ind; intros d'.
  - cbn. by intros [= ->].
  - rewrite foldl_app. cbn. unfold F at 1.
    destruct (step f) as [v|]; [|apply IH].
    destruct (foldl F (Some d) fs) as [d1|] eqn:Hd1; [|done].
    cbn. intros Hset.
    destruct (setField_frame proj f v d1 d' Hproj Hset) as [-> ->].
    by apply IH.
Qed.

Lemma applyFields_frame {A} (proj : Post.t -> A) body d d' :
  untouched proj ->
  applyFields body d = Some d' ->
  proj (fields d') = proj (fields d) /\ isNew d' = isNew d.
Proof.
  intros Hproj. unfold applyFields.
  apply (foldl_setField_frame proj (fun field => body !! field)); done.
Qed.

Section Routes.
Variable slugify : string -> string.
Implicit Types (d : Post.doc) (clk : Clock) (s : Store).

Lemma written_id clk d : _id (written slugify clk d) = _id (fields d).
Proof. unfold written. by rewrite preSave_id, frame_stamp. Qed.

Lemma written_publishedAt clk d :
  publishedAt (written slugify clk d) =
    if isModified "status" d
       && bool_decide (status (fields d) = published)
       && bool_decide (publishedAt (fields d) = None)
    then Some (atPublish clk)
    else publishedAt (fields d).
Proof.
  unfold written.
  by rewrite preSave_publishedAt, isModified_stamp, !frame_stamp.
Qed.

Lemma written_keeps_publishedAt clk d t :
  publishedAt (fields d) = Some t ->
  publishedAt (written slugify clk d) = Some t.
Proof.
  intros Ht. rewrite written_publishedAt, Ht.
  rewrite (bool_decide_eq_false_2 (Some t = None)) by done.
  by rewrite andb_false_r.
Qed.

(** What a save does to the store. *)
Lemma save_store clk d s :
  snd (save slugify clk d s) = s
  \/ snd (save slugify clk d s) =
       set_posts
         (if isNew d then posts s ++ [written slugify clk d]
          else updateFirst (hasId (_id (fields d)))
                 (fun _ => written slugify clk d) (posts s)) s.
Proof.
  unfold save. run_handler.
  destruct (validate d); cbn; [|by left].
  destruct (slugTaken _ s); cbn; [by left |].
  right. by rewrite written_id.
Qed.

(** What [PUT /api/posts/:id] does to the store. *)
Lemma put_store check clk id body s :
  snd (put slugify check clk id body s) = s
  \/ exists oid p d,
       findById oid s = Some p
       /\ applyFields body (Doc p false ∅) = Some d
       /\ snd (put slugify check clk id body s) =
            set_posts
              (updateFirst (hasId (_id p)) (fun _ => written slugify clk d)
                 (posts s)) s.
Proof.
  unfold put. run_handler.
  destruct check as [user|answer]; [|by left].
  destruct (updateErrors body); cbn; [|by left].
  destruct (castObjectId id) as [oid|]; cbn; [|by left].
  destruct (findById oid s) as [p|] eqn:Hfind; cbn; [|by left].
  destruct (bodyCategory body) as [c|]; cbn.
  - destruct (castObjectId c) as [cid|]; cbn; [|by left].
    destruct (categoryExists cid s); cbn; [|by left].
    destruct (applyFields body (Doc p false ∅)) as [d|] eqn:Hd; cbn; [|by left].
    destruct (applyFields_frame _id body _ d untouched_id Hd) as [Hid Hnew].
    destruct (save_store clk d s) as [Hs|Hs];
      destruct (save slugify clk d s) as [[d1|r|] s1]; cbn in *; subst;
      try (by left); right; exists oid, p, d;
      rewrite Hnew, Hid; cbn; done.
  - destruct (applyFields body (Doc p false ∅)) as [d|] eqn:Hd; cbn; [|by left].
    destruct (applyFields_frame _id body _ d untouched_id Hd) as [Hid Hnew].
    destruct (save_store clk d s) as [Hs|Hs];
      destruct (save slugify clk d s) as [[d1|r|] s1]; cbn in *; subst;
      try (by left); right; exists oid, p, d;
      rewrite Hnew, Hid; cbn; done.
Qed.

Lemma construct_isNew newId author body d :
  construct newId author body = Some d -> isNew d = true.
Proof.
  unfold construct.
  set (F := fun (acc : option Post.doc) (arg : string * Value) =>
              let '(field, v) := arg in acc ≫= setField field v).
  set (d0 := assignAuthor author (Doc (blank newId) true ∅)).
  assert (Hstart : isNew d0 = true) by done.
  clearbody d0.
  generalize (constructorArgs newId body) as args. intros args. revert d.
  induction args as [|[f v] args IH] using rev_ind; intros d.
  - cbn. by intros [= <-].
  - rewrite foldl_app. cbn.
    destruct (foldl F (Some d0) args) as [d1|] eqn:Hd1; [|done].
    cbn. intros Hset.
    destruct (setField_frame _id f v d1 d untouched_id Hset) as [_ ->].
    by apply IH.
Qed.

(** What [POST /api/posts] does to the store. *)
Lemma create_store check clk newId body s :
  snd (create slugify check clk newId body s) = s
  \/ exists d,
       snd (create slugify check clk newId body s) =
         set_posts (posts s ++ [written slugify clk d]) s.
Proof.
  unfold create. run_handler.
  destruct check as [user|answer]; [|by left].
  destruct (createErrors body); cbn; [|by left].
  destruct (castObjectId _) as [cid|]; cbn; [|by left].
  destruct (categoryExists cid s); cbn; [|by left].
  destruct (construct newId user body) as [d|] eqn:Hd; cbn; [|by left].
  pose proof (construct_isNew _ _ _ _ Hd) as Hnew.
  destruct (save_store clk d s) as [Hs|Hs];
    destruct (save slugify clk d s) as [[d1|r|] s1]; cbn in *; subst;
    try (by left); right; exists d; by rewrite Hnew.
Qed.

(** What [POST /api/posts/:id/like] does to the store. *)
Lemma like_store now id s :
  snd (like now id s) = s
  \/ exists oid p,
       findById oid s = Some p
       /\ snd (like now id s) =
            set_posts
              (updateFirst (hasId (_id p))
                 (fun q => set_updatedAt now (set_likes (likes q + 1)%Z q))
                 (posts s)) s.
Proof.
  unfold like, likeLookup, likeFetched, incrementLikes. run_handler.
  destruct (castObjectId id) as [oid|]; cbn; [|by left].
  destruct (findById oid s) as [p|] eqn:Hfind; cbn; [|by left].
  right. by exists oid, p.
Qed.

(** *** Lookups after a write *)

Lemma findById_id id s p : findById id s = Some p -> _id p = id.
Proof.
  unfold findById, hasId. intros Hfind.
  apply find_some in Hfind as [_ Hid]. by apply bool_decide_eq_true in Hid.
Qed.

Lemma find_updateFirst (i id : ObjectId) (g : Post.t -> Post.t) (l : list Post.t) p :
  List.find (hasId i) l = Some p ->
  _id (g p) = i ->
  List.find (hasId id) (updateFirst (hasId i) g l) =
    if bool_decide (id = i) then Some (g p) else List.find (hasId id) l.
Proof.
  intros Hfind Hg. induction l as [|x l IH]; [done |].
  cbn in Hfind |- *. destruct (hasId i x) eqn:Hx.
  - injection Hfind as ->. cbn. unfold hasId in *.
    apply bool_decide_eq_true in Hx. rewrite Hg.
    destruct (decide (id = i)) as [->|Hne].
    + by rewrite !bool_decide_eq_true_2.
    + rewrite (bool_decide_eq_false_2 (i = id)) by congruence.
      rewrite (bool_decide_eq_false_2 (id = i)) by done.
      by rewrite (bool_decide_eq_false_2 (_id p = id)) by congruence.
  - cbn. rewrite (IH Hfind). unfold hasId in *.
    apply bool_decide_eq_false in Hx.
    destruct (decide (id = i)) as [->|Hne].
    + rewrite (bool_decide_eq_false_2 (_id x = i)) by done.
      by rewrite !bool_decide_eq_true_2.
    + by rewrite (bool_decide_eq_false_2 (id = i)).
Qed.

Lemma find_append (id : ObjectId) (l : list Post.t) x p :
  List.find (hasId id) l = Some p -> List.find (hasId id) (l ++ [x]) = Some p.
Proof.
  induction l as [|y l IH]; [done |]. cbn.
  destruct (hasId id y); [done | apply IH].
Qed.

(** *** The publish date survives every request *)

Lemma publishedOf_updated id s p g t :
  findById (_id p) s = Some p ->
  _id (g p) = _id p ->
  (publishedAt p = Some t -> publishedAt (g p) = Some t) ->
  publishedOf id s = Some t ->
  publishedOf id (set_posts (updateFirst (hasId (_id p)) g (posts s)) s) = Some t.
Proof.
  unfold publishedOf, findById. cbn. intros Hfind Hid Hg.
  rewrite (find_updateFirst _ _ _ _ p) by done.
  case_bool_decide as Heq; [|done].
  subst id. rewrite Hfind. cbn. exact Hg.
Qed.

Lemma handle_keeps_publishedAt r s id t :
  publishedOf id s = Some t ->
  publishedOf id (snd (handle slugify r s)) = Some t.
Proof.
  intros Ht. destruct r as [check clk newId body|check clk pid body|now pid]; cbn.
  - destruct (create_store check clk newId body s) as [->|[d ->]]; [done |].
    unfold publishedOf, findById in *. cbn.
    destruct (List.find (hasId id) (posts s)) as [p|] eqn:Hfind; [|done].
    by rewrite (find_append _ _ _ p).
  - destruct (put_store check clk pid body s) as [->|(oid & p & d & Hfind & Hd & ->)];
      [done |].
    pose proof (findById_id _ _ _ Hfind) as Hoid. subst oid.
    destruct (applyFields_frame _id body _ d untouched_id Hd) as [Hid _].
    destruct (applyFields_frame publishedAt body _ d untouched_publishedAt Hd)
      as [Hpub _].
    cbn in Hid, Hpub.
    apply publishedOf_updated; try done.
    + by rewrite written_id.
    + intros Hp. apply written_keeps_publishedAt. by rewrite Hpub.
  - destruct (like_store now pid s) as [->|(oid & p & Hfind & ->)]; [done |].
    pose proof (findById_id _ _ _ Hfind) as Hoid. subst oid.
    by apply publishedOf_updated.
Qed.

Lemma serve_keeps_publishedAt requests s id t :
  publishedOf id s = Some t ->
  publishedOf id (serve slugify requests s) = Some t.
Proof.
  revert s. induction requests as [|r requests IH]; intros s Ht; [done |].
  cbn. apply IH. by apply handle_keeps_publishedAt.
Qed.

End Routes.
End PostsFacts.

(** ** Lists as collections *)
Module ListFacts.

Lemma insertSorted_perm {A} (before : A -> A -> bool) x (l : list A) :
  insertSorted before x l ≡ₚ x :: l.
Proof.
  induction l as [|y l IH]; cbn; [done |].
  destruct (before x y); [done |].
  rewrite IH. apply perm_swap.
Qed.

Lemma sortBy_perm {A} (before : A -> A -> bool) (l : list A) :
  sortBy before l ≡ₚ l.
Proof.
  unfold sortBy. induction l as [|x l IH]; cbn; [done |].
  by rewrite insertSorted_perm, IH.
Qed.

Lemma find_updateFirst_hit {A} (f : A -> bool) (g : A -> A) (l : list A) x :
  List.find f l = Some x ->
  f (g x) = true ->
  List.find f (updateFirst f g l) = Some (g x).
Proof.
  intros Hfind Hg. induction l as [|y l IH]; [done |].
  cbn in *. destruct (f y) eqn:Hy.
  - injection Hfind as ->. cbn. by rewrite Hg.
  - cbn. rewrite Hy. by apply IH.
Qed.

Lemma updateFirst_miss {A} (f : A -> bool) (g : A -> A) (l : list A) :
  List.find f l = None -> updateFirst f g l = l.
Proof.
  induction l as [|y l IH]; [done |]. cbn.
  destruct (f y); [done |]. intros Hfind. by rewrite IH.
Qed.

Lemma count_nonneg {A} (f : A -> bool) (l : list A) : (0 <= count f l)%Z.
Proof. unfold count. lia. Qed.

End ListFacts.

(** ** The comments router *)
Module CommentsFacts.
Import Comments.

Lemma hasId_approved now id c :
  hasId id c = true ->
  hasId id (Comment.set_updatedAt now (Comment.set_isApproved true c)) = true.
Proof. done. Qed.

(** The approval answers any caller and approves the comment. *)
Lemma approve_found now id oid s c :
  castObjectId id = Some oid ->
  List.find (hasId oid) (comments s) = Some c ->
  approve now id s =
    (ok None (OneComment (Comment.set_updatedAt now (Comment.set_isApproved true c))),
     set_comments
       (updateFirst (hasId oid)
          (fun c => Comment.set_updatedAt now (Comment.set_isApproved true c))
          (comments s)) s).
Proof.
  intros Hcast Hfind. unfold approve, findByIdAndApprove. run_handler.
  rewrite Hcast. cbn.
  rewrite (ListFacts.find_updateFirst_hit _ _ _ c Hfind); [done |].
  apply find_some in Hfind as [_ Hid]. by apply hasId_approved.
Qed.

(** The removal answers any caller and deletes the comment. *)
Lemma comment_remove_found id oid s c :
  castObjectId id = Some oid ->
  List.find (hasId oid) (comments s) = Some c ->
  remove id s =
    (ok (Some "Comment deleted") NoData,
     set_comments (deleteFirst (hasId oid) (comments s)) s).
Proof.
  intros Hcast Hfind. unfold remove, findByIdAndDelete. run_handler.
  by rewrite Hcast; cbn; rewrite Hfind.
Qed.

(** The public list: the approved comments of the post, newest first. *)
Lemma index_valid postId pid s :
  castObjectId postId = Some pid ->
  index postId s =
    (ok None (CommentList (sortBy newestFirst (List.filter (ofPost pid) (comments s)))),
     s).
Proof. intros Hcast. unfold index. run_handler. by rewrite Hcast. Qed.

Lemma index_invalid postId s :
  castObjectId postId = None -> index postId s = (failure 500 "Server error", s).
Proof. intros Hcast. unfold index. run_handler. by rewrite Hcast. Qed.

Section Create.
Variable accepts : Comment.t -> bool.

(** A creation leaves the store alone or appends one comment that is
    not approved, which it answers with status 201. *)
Lemma comment_create_store newId now body s :
  (snd (create accepts newId now body s) = s
   /\ statusCode (fst (create accepts newId now body s)) ≠ 201%Z)
  \/ exists c,
       Comment.isApproved c = false
       /\ Comment._id c = newId
       /\ accepts c = true
       /\ create accepts newId now body s =
            (created "Comment submitted for approval" (OneComment c),
             set_comments (comments s ++ [c]) s).
Proof.
  unfold create, save. run_handler.
  destruct (negb (JS.truthy (body !! "postId")) || _ || _ || _); cbn;
    [by left |].
  destruct (castObjectId (default "" (body !! "postId"))) as [pid|]; cbn;
    [|by left].
  destruct (JS.truthy (body !! "parentId")); cbn.
  - destruct (castObjectId (default "" (body !! "parentId"))) as [par|]; cbn;
      [|by left].
    destruct (accepts _) eqn:Hacc; cbn; [|by left].
    right. eexists. by repeat split.
  - destruct (accepts _) eqn:Hacc; cbn; [|by left].
    right. eexists. by repeat split.
Qed.

End Create.
End CommentsFacts.

(** ** The categories router *)
Module CategoriesFacts.
Import Categories.

Lemma category_findById_id id s c : findById id s = Some c -> Category._id c = id.
Proof.
  unfold findById, hasId. intros Hfind.
  apply find_some in Hfind as [_ Hid]. by apply bool_decide_eq_true in Hid.
Qed.

(** A caller the middleware turns away gets its answer; nothing runs. *)
Lemma remove_rejected answer id s : remove (Reject answer) id s = (answer, s).
Proof. done. Qed.

(** The three outcomes of a removal by an administrator. *)
Lemma category_remove_found user id oid s c :
  castObjectId id = Some oid ->
  findById oid s = Some c ->
  remove (Pass user) id s =
    if (0 <? postCount oid s)%Z then
      (failure 400
         ("Cannot delete category. It has " +:+ JS.toString (postCount oid s)
          +:+ " posts. Please move or delete the posts first."), s)
    else if (0 <? subcategoryCount oid s)%Z then
      (failure 400
         ("Cannot delete category. It has "
          +:+ JS.toString (subcategoryCount oid s)
          +:+ " subcategories. Please move or delete the subcategories first."), s)
    else
      (ok (Some "Category deleted successfully") NoData,
       set_categories (deleteFirst (hasId oid) (categories s)) s).
Proof.
  intros Hcast Hfind. unfold remove. run_handler.
  rewrite Hcast. cbn. rewrite Hfind. cbn.
  rewrite (category_findById_id _ _ _ Hfind).
  destruct (0 <? postCount oid s)%Z; cbn; [done |].
  destruct (0 <? subcategoryCount oid s)%Z; cbn; done.
Qed.

End CategoriesFacts.

(** ** Pagination *)
Module PaginationFacts.

Lemma ceilDiv_ceiling (total lim : Z) :
  (0 < lim)%Z -> Spec.isCeiling total lim (JS.ceilDiv total lim).
Proof.
  intros Hlim. unfold Spec.isCeiling, JS.ceilDiv.
  pose proof (Z.div_mod (- total) lim ltac:(lia)) as Hdiv.
  pose proof (Z.mod_pos_bound (- total) lim Hlim) as Hmod.
  nia.
Qed.

Lemma parseIntOr_nonzero v (dflt : Z) : dflt ≠ 0%Z -> JS.parseIntOr v dflt ≠ 0%Z.
Proof.
  intros Hd. unfold JS.parseIntOr.
  destruct (JS.parseInt v) as [n|]; [|done].
  destruct (n =? 0)%Z eqn:Hn; [done |]. by apply Z.eqb_neq.
Qed.

Section Lists.
Variable regExp : string -> option (string -> bool).

Lemma index_pagination now q s l pg :
  data (fst (Posts.index regExp now q s)) = PostList l pg ->
  pg = Posts.pagination (JS.parseIntOr (q !! "page") 1)
         (JS.parseIntOr (q !! "limit") 10)
         (Posts.countDocuments (Posts.publicFilter now q (Posts.searchTest regExp q)) s).
Proof.
  unfold Posts.index, Posts.findPage, Posts.searchTest, Posts.json. run_handler.
  destruct (Posts.listErrors q); cbn; [|done].
  destruct (Posts.nonEmpty (q !! "search")) as [src|]; cbn;
    [destruct (regExp src) as [test|]; cbn; [|done] |];
    (destruct (Posts.nonEmpty (q !! "category")) as [c|]; cbn;
       [destruct (castObjectId c); cbn; [|done] |]);
    (destruct (page _ _ _) as [found|]; cbn; [|done]);
    (destruct (forallb _ _); cbn; [|done]); by intros [= _ <-].
Qed.

Lemma adminIndex_pagination user q s l pg :
  data (fst (Posts.adminIndex (Pass user) q s)) = PostList l pg ->
  pg = Posts.pagination (JS.parseIntOr (q !! "page") 1)
         (JS.parseIntOr (q !! "limit") 10)
         (Posts.countDocuments (Posts.adminFilter q) s).
Proof.
  unfold Posts.adminIndex, Posts.findPage, Posts.json. run_handler.
  destruct (Posts.adminListErrors q); cbn; [|done].
  destruct (page _ _ _) as [found|]; cbn; [|done].
  destruct (forallb _ _); cbn; [|done]. by intros [= _ <-].
Qed.

Lemma postsOf_pagination slug q s c l pg :
  data (fst (Categories.postsOf slug q s)) = CategoryPostList c l pg ->
  pg = Posts.pagination (JS.parseIntOr (q !! "page") 1)
         (JS.parseIntOr (q !! "limit") 10)
         (Posts.countDocuments (Categories.categoryFilter c) s).
Proof.
  unfold Categories.postsOf, Posts.findPage, Posts.json. run_handler.
  destruct (Categories.findActiveBySlug slug s) as [c'|]; cbn; [|done].
  destruct (page _ _ _) as [found|]; cbn; [|done].
  destruct (forallb _ _); cbn; [|done]. by intros [= <- _ <-].
Qed.

(** A request the validation chains object to is answered with their
    messages, whatever the store holds, and the store is not touched. *)
Lemma index_rejects now q s :
  Posts.listErrors q ≠ [] ->
  Posts.index regExp now q s = (validationFailed (Posts.listErrors q), s).
Proof.
  intros Herr. unfold Posts.index. run_handler.
  destruct (Posts.listErrors q); [done | done].
Qed.

Lemma listErrors_limit q v :
  q !! "limit" = Some v ->
  Validator.isInt 1 (Some 50%Z) v = false ->
  Posts.listErrors q ≠ [].
Proof.
  intros Hq Hv. unfold Posts.listErrors. rewrite Hq. cbn. rewrite Hv.
  destruct (Validator.optional _ _ (q !! "page")); cbn; done.
Qed.

Lemma listErrors_page q v :
  q !! "page" = Some v ->
  Validator.isInt 1 None v = false ->
  Posts.listErrors q ≠ [].
Proof. intros Hq Hv. unfold Posts.listErrors. rewrite Hq. cbn. by rewrite Hv. Qed.

Lemma listErrors_sort q v :
  q !! "sort" = Some v ->
  v ∉ Posts.publicSorts ->
  Posts.listErrors q ≠ [].
Proof.
  intros Hq Hv. unfold Posts.listErrors. rewrite Hq. cbn.
  unfold Validator.isIn. rewrite bool_decide_eq_false_2 by done.
  intros Happ. repeat (apply app_eq_nil in Happ as [_ Happ]). done.
Qed.

(** The category route has no validation chain: it never answers 400. *)
Lemma postsOf_status slug q s :
  statusCode (fst (Categories.postsOf slug q s)) ∈ [200%Z; 404%Z; 500%Z].
Proof.
  unfold Categories.postsOf, Posts.findPage, Posts.json. run_handler.
  destruct (Categories.findActiveBySlug slug s) as [c|]; cbn;
    [|set_solver].
  destruct (page _ _ _) as [found|]; cbn; [|set_solver].
  destruct (forallb _ _); cbn; set_solver.
Qed.

End Lists.
End PaginationFacts.

Module MoreFacts.

Lemma ltb_bool_decide (a b : Z) : (a <? b)%Z = bool_decide (a < b)%Z.
Proof.
  destruct (a <? b)%Z eqn:Hab.
  - apply Z.ltb_lt in Hab. by rewrite bool_decide_eq_true_2.
  - apply Z.ltb_ge in Hab. rewrite bool_decide_eq_false_2; [done | lia].
Qed.

Lemma pagination_paginates (pageNo lim total : Z) :
  lim ≠ 0%Z -> Spec.paginates (Posts.pagination pageNo lim total) total.
Proof.
  intros Hlim. unfold Spec.paginates, Posts.pagination. cbn.
  split; [done |]. split; [done |]. split; [done |].
  split; [intros Hpos; by apply PaginationFacts.ceilDiv_ceiling |].
  split; apply ltb_bool_decide.
Qed.

End MoreFacts.

(** ** More on the pre-save hooks *)
Module HookFacts.
Import Post.

Lemma splitCountFrom_positive (inRun : bool) (s : string) :
  (1 <= JS.splitCountFrom inRun s)%Z.
Proof.
  revert inRun. induction s as [|c s IH]; intros inRun; cbn; [lia |].
  destruct (JS.isWhiteSpace c).
  - pose proof (IH true). destruct inRun; lia.
  - apply IH.
Qed.

Lemma ceilDiv_positive (n lim : Z) :
  (0 < lim)%Z -> (1 <= n)%Z -> (1 <= JS.ceilDiv n lim)%Z.
Proof.
  intros Hlim Hn.
  pose proof (PaginationFacts.ceilDiv_ceiling n lim Hlim) as [_ Hup].
  nia.
Qed.

Section Hook.
Variable slugify : string -> string.
Implicit Types (d : Post.doc) (clk : Clock).

(** A projection the hook and the timestamps do not write. *)
Lemma written_frame {A} (proj : Post.t -> A) clk d :
  (forall v p, proj (set_slug v p) = proj p) ->
  (forall v p, proj (set_excerpt v p) = proj p) ->
  (forall v p, proj (set_readingTime v p) = proj p) ->
  (forall v p, proj (set_publishedAt v p) = proj p) ->
  (forall v p, proj (set_seo v p) = proj p) ->
  (forall v p, proj (set_createdAt v p) = proj p) ->
  (forall v p, proj (set_updatedAt v p) = proj p) ->
  proj (Posts.written slugify clk d) = proj (fields d).
Proof.
  intros Hs He Hr Hp Hseo Hc Hu. unfold Posts.written, preSave.
  by rewrite PostFacts.frame_metaDescriptionBlock, PostFacts.frame_metaTitleBlock,
    PostFacts.frame_publishBlock, PostFacts.frame_readingTimeBlock,
    PostFacts.frame_excerptBlock, PostFacts.frame_slugBlock, PostFacts.frame_stamp.
Qed.

Lemma readingTimeBlock_readingTime d :
  readingTime (fields (readingTimeBlock d)) =
    if isModified "content" d
    then JS.ceilDiv (JS.splitCount (content (fields d))) wordsPerMinute
    else readingTime (fields d).
Proof. unfold readingTimeBlock. destruct (isModified "content" d); reflexivity. Qed.

Lemma written_readingTime clk d :
  readingTime (Posts.written slugify clk d) =
    if isModified "content" d
    then JS.ceilDiv (JS.splitCount (content (fields d))) 200
    else readingTime (fields d).
Proof.
  unfold Posts.written, preSave.
  rewrite PostFacts.frame_metaDescriptionBlock, PostFacts.frame_metaTitleBlock,
    PostFacts.frame_publishBlock by done.
  assert (Hmod : isModified "content"
                   (excerptBlock (slugBlock slugify clk (stamp clk d)))
                 = isModified "content" d).
  { by rewrite PostFacts.isModified_excerptBlock, PostFacts.isModified_slugBlock,
      PostFacts.isModified_stamp. }
  assert (Hcontent : content (fields (excerptBlock (slugBlock slugify clk (stamp clk d))))
                     = content (fields d)).
  { by rewrite PostFacts.frame_excerptBlock, PostFacts.frame_slugBlock,
      PostFacts.frame_stamp. }
  assert (Hold : readingTime (fields (excerptBlock (slugBlock slugify clk (stamp clk d))))
                 = readingTime (fields d)).
  { by rewrite PostFacts.frame_excerptBlock, PostFacts.frame_slugBlock,
      PostFacts.frame_stamp. }
  set (d2 := excerptBlock (slugBlock slugify clk (stamp clk d))) in *.
  clearbody d2.
  by rewrite readingTimeBlock_readingTime, Hmod, Hcontent, Hold.
Qed.

Lemma written_metaTitle clk d :
  metaTitle (seo (Posts.written slugify clk d)) =
    if JS.truthy (metaTitle (seo (fields d)))
    then metaTitle (seo (fields d))
    else Some (JS.prefix 60 (title (fields d))).
Proof.
  unfold Posts.written.
  by rewrite PostFacts.preSave_metaTitle, !(PostFacts.frame_stamp seo),
    !(PostFacts.frame_stamp title).
Qed.

Lemma written_metaDescription clk d :
  metaDescription (seo (Posts.written slugify clk d)) =
    if JS.truthy (metaDescription (seo (fields d)))
    then metaDescription (seo (fields d))
    else Some (JS.orElse (excerpt (Posts.written slugify clk d))
                 (JS.prefix 160 (content (fields d)))).
Proof.
  unfold Posts.written.
  by rewrite PostFacts.preSave_metaDescription, !(PostFacts.frame_stamp seo),
    !(PostFacts.frame_stamp content).
Qed.

End Hook.
End HookFacts.

(** ** The pre-save hook of the Category model *)
Module CategoryFacts.
Import Category.

Section Hook.
Variable slugify : string -> string.
Implicit Types (d : Category.doc).

Lemma category_slugBlock_slug d :
  slug (fields (slugBlock slugify d)) =
    if isModified "name" d || isNew d
    then JS.toLowerCase (slugify (name (fields d)))
    else slug (fields d).
Proof. unfold slugBlock. destruct (isModified "name" d || isNew d); reflexivity. Qed.

Lemma category_slugBlock_frame {A} (proj : Category.t -> A) d :
  (forall v c, proj (set_slug v c) = proj c) ->
  proj (fields (slugBlock slugify d)) = proj (fields d).
Proof.
  intros Hproj. unfold slugBlock, assignSlug.
  destruct (isModified "name" d || isNew d); [|done].
  by rewrite fields_assign, Hproj.
Qed.

Lemma category_metaTitleBlock_frame {A} (proj : Category.t -> A) d :
  (forall v c, proj (set_seo v c) = proj c) ->
  proj (fields (metaTitleBlock d)) = proj (fields d).
Proof.
  intros Hproj. unfold metaTitleBlock, assignMetaTitle.
  destruct (negb (JS.truthy (metaTitle (seo (fields d))))); [|done].
  by rewrite fields_assign, Hproj.
Qed.

Lemma category_metaDescriptionBlock_frame {A} (proj : Category.t -> A) d :
  (forall v c, proj (set_seo v c) = proj c) ->
  proj (fields (metaDescriptionBlock d)) = proj (fields d).
Proof.
  intros Hproj. unfold metaDescriptionBlock, assignMetaDescription.
  destruct (_ && _); [|done].
  by rewrite fields_assign, Hproj.
Qed.

Lemma category_metaTitleBlock_metaTitle d :
  metaTitle (seo (fields (metaTitleBlock d))) =
    if JS.truthy (metaTitle (seo (fields d)))
    then metaTitle (seo (fields d))
    else Some (name (fields d)).
Proof.
  unfold metaTitleBlock.
  destruct (JS.truthy (metaTitle (seo (fields d)))); reflexivity.
Qed.

Lemma category_metaTitleBlock_metaDescription d :
  metaDescription (seo (fields (metaTitleBlock d))) = metaDescription (seo (fields d)).
Proof.
  unfold metaTitleBlock.
  destruct (JS.truthy (metaTitle (seo (fields d)))); reflexivity.
Qed.

Lemma category_metaDescriptionBlock_metaTitle d :
  metaTitle (seo (fields (metaDescriptionBlock d))) = metaTitle (seo (fields d)).
Proof.
  unfold metaDescriptionBlock. destruct (_ && _); reflexivity.
Qed.

Lemma category_metaDescriptionBlock_metaDescription d :
  metaDescription (seo (fields (metaDescriptionBlock d))) =
    if JS.truthy (metaDescription (seo (fields d)))
    then metaDescription (seo (fields d))
    else if JS.truthy (description (fields d))
         then Some (JS.prefix 160 (default "" (description (fields d))))
         else metaDescription (seo (fields d)).
Proof.
  unfold metaDescriptionBlock.
  destruct (JS.truthy (metaDescription (seo (fields d))));
    destruct (JS.truthy (description (fields d))); reflexivity.
Qed.

Lemma preSave_equations d :
  let c := fields (preSave slugify d) in
  name c = name (fields d)
  /\ description c = description (fields d)
  /\ slug c =
       (if isModified "name" d || isNew d
        then JS.toLowerCase (slugify (name (fields d)))
        else slug (fields d))
  /\ metaTitle (seo c) =
       (if JS.truthy (metaTitle (seo (fields d)))
        then metaTitle (seo (fields d))
        else Some (name (fields d)))
  /\ metaDescription (seo c) =
       (if JS.truthy (metaDescription (seo (fields d)))
        then metaDescription (seo (fields d))
        else if JS.truthy (description (fields d))
             then Some (JS.prefix 160 (default "" (description (fields d))))
             else metaDescription (seo (fields d))).
Proof.
  cbv zeta. unfold preSave.
  pose proof (category_slugBlock_frame name d ltac:(done)) as Hname.
  pose proof (category_slugBlock_frame description d ltac:(done)) as Hdesc.
  pose proof (category_slugBlock_frame seo d ltac:(done)) as Hseo.
  pose proof (category_slugBlock_slug d) as Hslug.
  set (d1 := slugBlock slugify d) in *. clearbody d1.
  pose proof (category_metaTitleBlock_frame name d1 ltac:(done)) as Hname2.
  pose proof (category_metaTitleBlock_frame description d1 ltac:(done)) as Hdesc2.
  pose proof (category_metaTitleBlock_frame slug d1 ltac:(done)) as Hslug2.
  pose proof (category_metaTitleBlock_metaTitle d1) as Hmt.
  pose proof (category_metaTitleBlock_metaDescription d1) as Hmd.
  set (d2 := metaTitleBlock d1) in *. clearbody d2.
  rewrite (category_metaDescriptionBlock_frame name d2), (category_metaDescriptionBlock_frame description d2),
    (category_metaDescriptionBlock_frame slug d2) by done.
  rewrite category_metaDescriptionBlock_metaTitle, category_metaDescriptionBlock_metaDescription.
  rewrite Hname2, Hdesc2, Hslug2, Hmt, Hmd, Hname, Hdesc, Hseo, Hslug.
  done.
Qed.

End Hook.
End CategoryFacts.

(** ** More on the posts router *)
Module PostsMoreFacts.
Import Post Posts.

Lemma set_posts_same (s : Store) : set_posts (posts s) s = s.
Proof. by destruct s. Qed.


(** The lookup of a post after the update of the post [p] found under
    [oid]. *)
Lemma findById_updated (oid other : ObjectId) (g : Post.t -> Post.t) (s : Store) p :
  findById oid s = Some p ->
  _id (g p) = oid ->
  findById other (set_posts (updateFirst (hasId oid) g (posts s)) s) =
    if bool_decide (other = oid) then Some (g p) else findById other s.
Proof.
  intros Hfind Hid. unfold findById in *. cbn.
  by apply (PostsFacts.find_updateFirst oid other g (posts s) p).
Qed.

Lemma set_likes_same (p : Post.t) : set_likes (likes p) p = p.
Proof. by destruct p. Qed.

Lemma set_likes_twice (a b : Z) (p : Post.t) :
  set_likes a (set_likes b p) = set_likes a p.
Proof. done. Qed.

Lemma like_found now id oid s p :
  castObjectId id = Some oid ->
  findById oid s = Some p ->
  like now id s =
    (ok (Some "Post liked successfully") (Likes (likes p + 1)%Z),
     set_posts
       (updateFirst (hasId oid)
          (fun q => set_updatedAt now (set_likes (likes q + 1)%Z q)) (posts s)) s).
Proof.
  intros Hcast Hfind.
  pose proof (PostsFacts.findById_id _ _ _ Hfind) as Hid.
  unfold like, likeLookup, likeFetched, incrementLikes. run_handler.
  rewrite Hcast. cbn. rewrite Hfind. cbn. by rewrite Hid.
Qed.

Lemma like_missing now id oid s :
  castObjectId id = Some oid ->
  findById oid s = None ->
  like now id s = (failure 404 "Post not found", s).
Proof.
  intros Hcast Hfind. unfold like, likeLookup. run_handler.
  rewrite Hcast. cbn. by rewrite Hfind.
Qed.

Lemma like_malformed now id s :
  castObjectId id = None ->
  like now id s = (failure 500 "Server error while liking post", s).
Proof. intros Hcast. unfold like, likeLookup. run_handler. by rewrite Hcast. Qed.

(** The stored post after likes at the given times: the counter moved by
    their number, [updatedAt] at the last of the times. *)
Lemma likes_after (times : list Date) id oid s p :
  castObjectId id = Some oid ->
  findById oid s = Some p ->
  findById oid (foldl (fun s now => snd (like now id s)) s times)
  = Some (match last times with
          | None => p
          | Some now =>
              set_updatedAt now
                (set_likes (likes p + Z.of_nat (length times))%Z p)
          end).
Proof.
  intros Hcast Hfind. induction times as [|now times IH] using rev_ind; [done |].
  rewrite foldl_app, last_snoc, length_app. cbn [foldl length].
  rewrite (like_found now id oid _ _ Hcast IH). cbn [snd].
  rewrite (findById_updated oid oid
             (fun q => set_updatedAt now (set_likes (likes q + 1)%Z q)) _ _ IH).
  - rewrite bool_decide_eq_true_2 by done. f_equal.
    destruct (last times) as [before|] eqn:Hlast.
    + change (set_updatedAt now
                (set_likes (likes p + Z.of_nat (length times) + 1)%Z p)
              = set_updatedAt now
                  (set_likes (likes p + Z.of_nat (length times + 1))%Z p)).
      do 2 f_equal. lia.
    + apply last_None in Hlast. subst times. cbn. done.
  - cbn. destruct (last times);
      by apply (PostsFacts.findById_id oid s p).
Qed.

Section Routes.
Variable slugify : string -> string.





End Routes.
End PostsMoreFacts.

Module UpdateFacts.
Import Post Posts.

Lemma untouched_views : untouched views.
Proof. repeat split. Qed.

Lemma untouched_likes : untouched likes.
Proof. repeat split. Qed.

Lemma untouched_author : untouched author.
Proof. repeat split. Qed.

Section Routes.
Variable slugify : string -> string.




End Routes.
End UpdateFacts.

(** ** More on the comments router *)
Module CommentsMoreFacts.
Import Comments.

Lemma set_comments_same (s : Store) : set_comments (comments s) s = s.
Proof. by destruct s. Qed.

Lemma updateFirst_member {A} (f : A -> bool) (g : A -> A) (l : list A) x :
  List.find f l = Some x -> g x ∈ updateFirst f g l.
Proof.
  induction l as [|y l IH]; [done |]. cbn.
  destruct (f y) eqn:Hy.
  - intros [= ->]. apply list_elem_of_here.
  - intros Hfind. apply list_elem_of_further. by apply IH.
Qed.

Lemma length_deleteFirst {A} (f : A -> bool) (l : list A) x :
  List.find f l = Some x -> S (length (deleteFirst f l)) = length l.
Proof.
  induction l as [|y l IH]; [done |]. cbn.
  destruct (f y); [done |]. intros Hfind. cbn. by rewrite IH.
Qed.

Lemma deleteFirst_subset {A} (f : A -> bool) (l : list A) x :
  x ∈ deleteFirst f l -> x ∈ l.
Proof.
  induction l as [|y l IH]; [done |]. cbn.
  destruct (f y).
  - apply list_elem_of_further.
  - intros [->|Hin]%elem_of_cons;
      [apply list_elem_of_here | apply list_elem_of_further; by apply IH].
Qed.

Lemma find_deleteFirst_other (id other : ObjectId) (l : list Comment.t) :
  other ≠ id ->
  List.find (hasId other) (deleteFirst (hasId id) l) = List.find (hasId other) l.
Proof.
  intros Hne. induction l as [|y l IH]; [done |]. cbn.
  destruct (hasId id y) eqn:Hy.
  - unfold hasId in *. apply bool_decide_eq_true in Hy.
    by rewrite (bool_decide_eq_false_2 (Comment._id y = other)) by congruence.
  - cbn. by rewrite IH.
Qed.

Lemma find_deleteFirst_gone (id : ObjectId) (l : list Comment.t) :
  NoDup (Comment._id <$> l) ->
  List.find (hasId id) (deleteFirst (hasId id) l) = None.
Proof.
  induction l as [|y l IH]; [done |]. cbn.
  intros [Hy Hl]%NoDup_cons.
  destruct (hasId id y) eqn:Hid.
  - unfold hasId in Hid. apply bool_decide_eq_true in Hid.
    destruct (List.find (hasId id) l) as [z|] eqn:Hfind; [|done].
    apply find_some in Hfind as [Hin Hz].
    unfold hasId in Hz. apply bool_decide_eq_true in Hz.
    exfalso. apply Hy. rewrite Hid, <- Hz.
    apply list_elem_of_fmap. exists z. split; [done |]. by apply list_elem_of_In.
  - cbn. rewrite Hid. by apply IH.
Qed.

Lemma approve_missing now id oid s :
  castObjectId id = Some oid ->
  List.find (hasId oid) (comments s) = None ->
  approve now id s = (failure 404 "Comment not found", s).
Proof.
  intros Hcast Hfind. unfold approve, findByIdAndApprove. run_handler.
  rewrite Hcast. cbn.
  rewrite (ListFacts.updateFirst_miss _ _ _ Hfind), Hfind. cbn.
  by rewrite set_comments_same.
Qed.

Lemma approve_malformed now id s :
  castObjectId id = None -> approve now id s = (failure 500 "Server error", s).
Proof. intros Hcast. unfold approve. run_handler. by rewrite Hcast. Qed.

Lemma remove_missing id oid s :
  castObjectId id = Some oid ->
  List.find (hasId oid) (comments s) = None ->
  remove id s = (failure 404 "Comment not found", s).
Proof.
  intros Hcast Hfind. unfold remove, findByIdAndDelete. run_handler.
  rewrite Hcast. cbn. rewrite Hfind. cbn.
  assert (Hsame : deleteFirst (hasId oid) (comments s) = comments s).
  { clear Hcast. induction (comments s) as [|y l IH]; [done |].
    cbn in *. destruct (hasId oid y); [done |]. by rewrite IH. }
  by rewrite Hsame, set_comments_same.
Qed.

Lemma remove_malformed id s :
  castObjectId id = None -> remove id s = (failure 500 "Server error", s).
Proof. intros Hcast. unfold remove. run_handler. by rewrite Hcast. Qed.

Lemma create_incomplete accepts newId now body s field :
  field ∈ ["postId"; "author"; "email"; "content"] ->
  JS.truthy (body !! field) = false ->
  create accepts newId now body s
  = (failure 400 "Please provide all required fields", s).
Proof.
  intros Hfield Hempty. unfold create. run_handler.
  assert (Hcond : negb (JS.truthy (body !! "postId"))
                  || negb (JS.truthy (body !! "author"))
                  || negb (JS.truthy (body !! "email"))
                  || negb (JS.truthy (body !! "content")) = true).
  { repeat (apply elem_of_cons in Hfield as [->|Hfield]);
      [| | | | by apply elem_of_nil in Hfield];
      rewrite Hempty; cbn; by rewrite ?orb_true_r. }
  by rewrite Hcond.
Qed.

End CommentsMoreFacts.

(** ** Validated integers and [parseInt] *)
Module ParseFacts.
Import JS.

Lemma readSign_cases (s : string) :
  readSign s =
    match s with
    | EmptyString => (1%Z, EmptyString)
    | String c r =>
        if bool_decide (c = "-"%char) then ((-1)%Z, r)
        else if bool_decide (c = "+"%char) then (1%Z, r)
        else (1%Z, s)
    end.
Proof.
  destruct s as [|c r]; [done |].
  destruct c as [[] [] [] [] [] [] [] []]; reflexivity.
Qed.

Lemma radix_cases (r : string) :
  match r with
  | String "0" (String "x" d) | String "0" (String "X" d) => (16%Z, d)
  | _ => (10%Z, r)
  end =
  match r with
  | String c (String c2 d) =>
      if bool_decide (c = "0"%char)
         && (bool_decide (c2 = "x"%char) || bool_decide (c2 = "X"%char))
      then (16%Z, d)
      else (10%Z, r)
  | _ => (10%Z, r)
  end.
Proof.
  destruct r as [|c [|c2 d]]; try reflexivity.
  - destruct c as [[] [] [] [] [] [] [] []]; reflexivity.
  - destruct c as [[] [] [] [] [] [] [] []]; try reflexivity.
    destruct c2 as [[] [] [] [] [] [] [] []]; reflexivity.
Qed.

Lemma digit_not_space (c : ascii) : isDigit c = true -> isWhiteSpace c = false.
Proof. destruct c as [[] [] [] [] [] [] [] []]; vm_compute; congruence. Qed.

Lemma trimStart_keeps (c : ascii) (r : string) :
  isWhiteSpace c = false -> trimStart (String c r) = String c r.
Proof. intros Hc. cbn. by rewrite Hc. Qed.

Lemma digit_not_prefix (c : ascii) :
  isDigit c = true ->
  bool_decide (c = "x"%char) || bool_decide (c = "X"%char) = false.
Proof. destruct c as [[] [] [] [] [] [] [] []]; vm_compute; congruence. Qed.

(** Digits carry no prefix [0x]: [parseInt] reads them in base 10. *)
Lemma digits_radix (r : string) :
  allDigits r = true ->
  match r with
  | String c (String c2 d) =>
      if bool_decide (c = "0"%char)
         && (bool_decide (c2 = "x"%char) || bool_decide (c2 = "X"%char))
      then (16%Z, d)
      else (10%Z, r)
  | _ => (10%Z, r)
  end = (10%Z, r).
Proof.
  destruct r as [|c [|c2 d]]; try done. cbn.
  intros [_ [Hc2 _]%andb_true_iff]%andb_true_iff.
  by rewrite (digit_not_prefix c2 Hc2), andb_false_r.
Qed.

Lemma intLiteral_cases (s : string) :
  Validator.intLiteral s =
    if negb (bool_decide (snd (readSign s) = "")) && allDigits (snd (readSign s))
    then (fun n => (fst (readSign s) * n)%Z)
           <$> readDigits 10 None (snd (readSign s))
    else None.
Proof.
  unfold Validator.intLiteral.
  destruct (readSign s) as [sign r]. cbn [fst snd]. by destruct r.
Qed.

Lemma parseInt_cases (s : string) :
  parseInt (Some s) =
    let sign := fst (readSign (trimStart s)) in
    let r := snd (readSign (trimStart s)) in
    let choice :=
      match r with
      | String c (String c2 d) =>
          if bool_decide (c = "0"%char)
             && (bool_decide (c2 = "x"%char) || bool_decide (c2 = "X"%char))
          then (16%Z, d)
          else (10%Z, r)
      | _ => (10%Z, r)
      end in
    (fun n => (sign * n)%Z) <$> readDigits (fst choice) None (snd choice).
Proof.
  unfold parseInt.
  destruct (readSign (trimStart s)) as [sign r]. cbn [fst snd]. cbv zeta.
  rewrite radix_cases.
  by destruct (match r with
               | String c (String c2 d) =>
                   if bool_decide (c = "0"%char)
                      && (bool_decide (c2 = "x"%char) || bool_decide (c2 = "X"%char))
                   then (16%Z, d)
                   else (10%Z, r)
               | _ => (10%Z, r)
               end).
Qed.

(** What the validator accepts, [parseInt] reads alike. *)
Lemma literal_parses (s : string) (n : Z) :
  Validator.intLiteral s = Some n -> parseInt (Some s) = Some n.
Proof.
  rewrite intLiteral_cases, parseInt_cases. cbv zeta.
  destruct (negb (bool_decide (snd (readSign s) = ""))) eqn:Hne; [|done].
  destruct (allDigits (snd (readSign s))) eqn:Hdigits; [|done].
  cbn [andb].
  assert (Htrim : trimStart s = s).
  { destruct s as [|c r]; [done |]. apply trimStart_keeps.
    rewrite readSign_cases in Hdigits.
    destruct (decide (c = "-"%char)) as [->|Hminus]; [done |].
    destruct (decide (c = "+"%char)) as [->|Hplus]; [done |].
    rewrite (bool_decide_eq_false_2 (c = "-"%char)) in Hdigits by done.
    rewrite (bool_decide_eq_false_2 (c = "+"%char)) in Hdigits by done.
    cbn in Hdigits. apply andb_true_iff in Hdigits as [Hc _].
    by apply digit_not_space. }
  by rewrite Htrim, (digits_radix _ Hdigits).
Qed.

End ParseFacts.

(** ** The public list of posts *)
Module ListingFacts.
Import Post Posts.

Lemma isInt_parses (lo : Z) (hi : option Z) (v : string) :
  Validator.isInt lo hi v = true ->
  exists n, JS.parseInt (Some v) = Some n
            /\ (lo <= n)%Z /\ from_option (fun m => (n <= m)%Z) True hi.
Proof.
  unfold Validator.isInt.
  destruct (Validator.intLiteral v) as [n|] eqn:Hlit; [|done].
  intros [Hlo Hhi]%andb_true_iff. exists n.
  split; [by apply ParseFacts.literal_parses |].
  split; [by apply Z.leb_le |].
  destruct hi as [m|]; cbn in *; [by apply Z.leb_le | done].
Qed.

Lemma optional_passes {V} (check : V -> bool) msg (v : option V) :
  Validator.optional check msg v = [] ->
  match v with Some x => check x = true | None => True end.
Proof.
  unfold Validator.optional. destruct v as [x|]; [|done].
  by destruct (check x).
Qed.

(** What the handler reads from parameters its chains accepted. *)
Lemma valid_page (q : gmap string string) :
  Validator.optional (Validator.isInt 1 None)
    "Page must be a positive integer" (q !! "page") = [] ->
  (1 <= JS.parseIntOr (q !! "page") 1)%Z.
Proof.
  intros Hok%optional_passes. unfold JS.parseIntOr.
  destruct (q !! "page") as [v|]; [|done].
  destruct (isInt_parses 1 None v Hok) as (n & -> & Hlo & _).
  destruct (n =? 0)%Z eqn:Hn; [lia | done].
Qed.

Lemma valid_limit (q : gmap string string) :
  Validator.optional (Validator.isInt 1 (Some 50%Z))
    "Limit must be between 1 and 50" (q !! "limit") = [] ->
  (1 <= JS.parseIntOr (q !! "limit") 10 <= 50)%Z.
Proof.
  intros Hok%optional_passes. unfold JS.parseIntOr.
  destruct (q !! "limit") as [v|]; [|cbn; lia].
  destruct (isInt_parses 1 (Some 50%Z) v Hok) as (n & -> & Hlo & Hhi).
  cbn in Hhi. destruct (n =? 0)%Z eqn:Hn; lia.
Qed.

Lemma listErrors_valid (q : gmap string string) :
  listErrors q = [] ->
  (1 <= JS.parseIntOr (q !! "page") 1)%Z
  /\ (1 <= JS.parseIntOr (q !! "limit") 10 <= 50)%Z.
Proof.
  unfold listErrors. intros Herr.
  apply app_eq_nil in Herr as [Hpage Herr].
  apply app_eq_nil in Herr as [Hlimit _].
  split; [by apply valid_page | by apply valid_limit].
Qed.

Lemma page_served {A} (skip lim : Z) (l : list A) :
  (0 <= skip)%Z -> (0 < lim)%Z ->
  page skip lim l = Some (take (Z.to_nat lim) (drop (Z.to_nat skip) l)).
Proof.
  intros Hskip Hlim. unfold page.
  destruct (skip <? 0)%Z eqn:Hs; [apply Z.ltb_lt in Hs; lia |].
  destruct (lim =? 0)%Z eqn:Hl; [apply Z.eqb_eq in Hl; lia |].
  by rewrite Z.abs_eq by lia.
Qed.

Lemma page_members {A} (skip lim : Z) (l served : list A) :
  page skip lim l = Some served -> forall x, x ∈ served -> x ∈ l.
Proof.
  unfold page. destruct (skip <? 0)%Z; [done |].
  intros [= <-] x Hx.
  destruct (lim =? 0)%Z.
  - eapply subseteq_drop, Hx.
  - eapply subseteq_drop, subseteq_take, Hx.
Qed.

(** A page of the posts that match a filter can be sent when every stored
    post that matches has a positive reading time. *)
Lemma page_serialisable (f : Filter) (o : SortQuery) (skip lim : nat) (s : Store) :
  (forall p, p ∈ posts s -> matches f p = true -> (0 < readingTime p)%Z) ->
  forallb serialisable
    (withoutContent <$> take lim (drop skip (sortBy (before o) (find f s)))) = true.
Proof.
  intros Htimes. apply forallb_forall. intros x Hx.
  apply list_elem_of_In, list_elem_of_fmap in Hx as (p & -> & Hp).
  apply subseteq_take, subseteq_drop in Hp.
  rewrite ListFacts.sortBy_perm in Hp. unfold find in Hp.
  apply list_elem_of_In, filter_In in Hp as [Hin Hmatch].
  unfold serialisable. apply Z.ltb_lt.
  change (readingTime (withoutContent p)) with (readingTime p).
  apply Htimes; [by apply list_elem_of_In | done].
Qed.

Section Lists.
Variable regExp : string -> option (string -> bool).

Lemma index_served now q s :
  listErrors q = [] ->
  (forall src, nonEmpty (q !! "search") = Some src -> is_Some (regExp src)) ->
  (forall c, nonEmpty (q !! "category") = Some c -> is_Some (castObjectId c)) ->
  (forall p, p ∈ posts s ->
     matches (publicFilter now q (searchTest regExp q)) p = true ->
     (0 < readingTime p)%Z) ->
  let pageNo := JS.parseIntOr (q !! "page") 1 in
  let lim := JS.parseIntOr (q !! "limit") 10 in
  let sort := default "latest" (q !! "sort") in
  let order :=
    if String.eqb sort "oldest" then PublishedAsc
    else if String.eqb sort "popular" then ViewsLikesDesc
    else if String.eqb sort "trending" then ViewsLikesDesc
    else PublishedDesc in
  let filter := publicFilter now q (searchTest regExp q) in
  index regExp now q s =
    (ok None
       (PostList
          (withoutContent <$>
             take (Z.to_nat lim)
               (drop (Z.to_nat ((pageNo - 1) * lim))
                  (sortBy (before order) (find filter s))))
          (pagination pageNo lim (countDocuments filter s))),
     s).
Proof.
  intros Herr Hsearch Hcategory Htimes. cbv zeta.
  destruct (listErrors_valid q Herr) as [Hpage Hlimit].
  revert Htimes.
  unfold index, findPage, searchTest, json. run_handler. rewrite Herr.
  destruct (nonEmpty (q !! "search")) as [src|] eqn:Hsrc; cbn;
    [destruct (Hsearch src eq_refl) as [test Htest]; rewrite Htest; cbn |];
    intros Htimes;
    (destruct (nonEmpty (q !! "category")) as [c|] eqn:Hc; cbn;
       [destruct (Hcategory c eq_refl) as [cid ->]; cbn |]);
    rewrite page_served by nia; cbn;
    rewrite page_serialisable by done; done.
Qed.

(** A page that holds a post without a positive reading time cannot be
    sent. *)
Lemma index_unserialisable now q s l pg :
  data (fst (index regExp now q s)) = PostList l pg ->
  forall x, x ∈ l -> (0 < readingTime x)%Z.
Proof.
  unfold index, findPage, searchTest, json. run_handler.
  destruct (listErrors q); cbn; [|done].
  destruct (nonEmpty (q !! "search")) as [src|]; cbn;
    [destruct (regExp src) as [test|]; cbn; [|done] |];
    (destruct (nonEmpty (q !! "category")) as [c|]; cbn;
       [destruct (castObjectId c); cbn; [|done] |]);
    (destruct (page _ _ _) as [found|]; cbn; [|done]);
    (destruct (forallb _ _) eqn:Hall; cbn; [|done]);
    intros [= <- _] x Hx;
    rewrite forallb_forall in Hall;
    apply Z.ltb_lt, Hall; by apply list_elem_of_In.
Qed.

End Lists.
End ListingFacts.

(** ** Sorted results *)
Module SortFacts.

Section Sorting.
Context {A : Type} (before : A -> A -> bool).
Hypothesis before_total : forall a b, before a b = false -> before b a = true.

Lemma HdRel_insertSorted x y (l : list A) :
  before x y = false ->
  HdRel (fun a b => before a b = true) y l ->
  HdRel (fun a b => before a b = true) y (insertSorted before x l).
Proof.
  intros Hxy Hhd. destruct l as [|z l]; cbn.
  - constructor. by apply before_total.
  - destruct (before x z).
    + constructor. by apply before_total.
    + constructor. by inversion Hhd.
Qed.

Lemma insertSorted_sorted x (l : list A) :
  Sorted (fun a b => before a b = true) l ->
  Sorted (fun a b => before a b = true) (insertSorted before x l).
Proof.
  induction l as [|y l IH]; cbn; intros Hl.
  - by repeat constructor.
  - apply Sorted_inv in Hl as [Hl Hhd].
    destruct (before x y) eqn:Hxy.
    + constructor; [by constructor | by constructor].
    + constructor; [by apply IH | by apply HdRel_insertSorted].
Qed.

Lemma sortBy_sorted (l : list A) :
  Sorted (fun a b => before a b = true) (sortBy before l).
Proof.
  unfold sortBy. induction l as [|x l IH]; cbn; [constructor |].
  by apply insertSorted_sorted.
Qed.

End Sorting.

Lemma take_sorted {A} (R : A -> A -> Prop) (n : nat) (l : list A) :
  Sorted R l -> Sorted R (take n l).
Proof.
  revert n. induction l as [|x l IH]; intros n Hl; [by destruct n |].
  destruct n as [|n]; [constructor |]. cbn.
  apply Sorted_inv in Hl as [Hl Hhd]. constructor; [by apply IH |].
  destruct l as [|y l]; [by destruct n; constructor |].
  destruct n as [|n]; cbn; constructor. by inversion Hhd.
Qed.

Lemma drop_sorted {A} (R : A -> A -> Prop) (n : nat) (l : list A) :
  Sorted R l -> Sorted R (drop n l).
Proof.
  revert n. induction l as [|x l IH]; intros n Hl; [by destruct n |].
  destruct n as [|n]; [done |]. cbn.
  apply Sorted_inv in Hl as [Hl _]. by apply IH.
Qed.

Lemma fmap_sorted {A B} (R : A -> A -> Prop) (R' : B -> B -> Prop) (f : A -> B)
    (l : list A) :
  (forall a b, R a b -> R' (f a) (f b)) ->
  Sorted R l -> Sorted R' (f <$> l).
Proof.
  intros Hf. induction l as [|x l IH]; intros Hl; [constructor |]. cbn.
  apply Sorted_inv in Hl as [Hl Hhd]. constructor; [by apply IH |].
  destruct l as [|y l]; cbn; constructor. apply Hf. by inversion Hhd.
Qed.

(** Every order of the list routes is total. *)
Lemma orders_total (o : Posts.SortQuery) (a b : Post.t) :
  Posts.before o a b = false -> Posts.before o b a = true.
Proof.
  destruct o; cbn.
  - unfold Posts.dateLe.
    destruct (Post.publishedAt a), (Post.publishedAt b); try done.
    rewrite Z.leb_gt, Z.leb_le. lia.
  - unfold Posts.dateLe.
    destruct (Post.publishedAt a), (Post.publishedAt b); try done.
    rewrite Z.leb_gt, Z.leb_le. lia.
  - rewrite orb_false_iff, andb_false_iff, orb_true_iff, andb_true_iff.
    rewrite !Z.ltb_ge, !Z.ltb_lt, !Z.eqb_neq, !Z.eqb_eq, !Z.leb_gt, !Z.leb_le. lia.
  - rewrite Z.leb_gt, Z.leb_le. lia.
  - rewrite Z.leb_gt, Z.leb_le. lia.
  - intros Hab. destruct (String.leb_total (Post.title a) (Post.title b)); congruence.
  - rewrite Z.leb_gt, Z.leb_le. lia.
Qed.

End SortFacts.

(** ** The rest of the posts router *)
Module PostsRestFacts.
Import Post PostsRest.

Lemma trending_served now q s :
  trending now q s =
    (inr (take (Z.to_nat (Z.abs (JS.parseIntOr (q !! "limit") 5)))
            (sortBy (Posts.before Posts.ViewsLikesDesc)
               (Posts.find (trendingFilter now) s))),
     s).
Proof.
  unfold trending, findTrending, tryCatchData. run_handler.
  pose proof (PaginationFacts.parseIntOr_nonzero (q !! "limit") 5 ltac:(done)) as Hlim.
  unfold page. cbn.
  destruct (JS.parseIntOr (q !! "limit") 5 =? 0)%Z eqn:Hzero;
    [by apply Z.eqb_eq in Hzero |].
  done.
Qed.

Lemma trending_matches now p :
  Posts.matches (trendingFilter now) p = true ->
  status p = published
  /\ exists d, publishedAt p = Some d /\ (now - Posts.weekMs <= d)%Z.
Proof.
  unfold Posts.matches, trendingFilter. cbn.
  rewrite !andb_true_r. intros [Hstatus Hsince]%andb_true_iff.
  split; [by apply bool_decide_eq_true in Hstatus |].
  destruct (publishedAt p) as [d|]; [|done].
  exists d. split; [done |]. by apply Z.leb_le.
Qed.

Lemma estimatedReadingTime_positive (p : Post.t) : (1 <= estimatedReadingTime p)%Z.
Proof.
  unfold estimatedReadingTime.
  destruct (0 <? readingTime p)%Z eqn:Hpos.
  - apply Z.ltb_lt in Hpos. lia.
  - apply HookFacts.ceilDiv_positive; [lia |].
    apply HookFacts.splitCountFrom_positive.
Qed.

Section Show.
Variable knownUser : ObjectId -> bool.




Lemma show_status now viewer slug s :
  snd (show knownUser now viewer slug s) = s
  \/ exists p,
       findPublishedBySlug slug s = Some p
       /\ snd (show knownUser now viewer slug s) =
            set_posts
              (updateFirst (Posts.hasId (_id p))
                 (fun q => set_updatedAt now (set_views (views q + 1)%Z q)) (posts s)) s.
Proof.
  unfold show, incrementViews. run_handler.
  destruct (findPublishedBySlug slug s) as [p|] eqn:Hfind; cbn; [|by left].
  destruct viewer as [user|]; cbn.
  - destruct (knownUser (author p)); cbn; [|by left].
    destruct (negb (bool_decide (user = author p))); cbn; [|by left].
    right. by exists p.
  - right. by exists p.
Qed.

End Show.


Lemma post_remove_rejected answer id s : remove (Reject answer) id s = (answer, s).
Proof. done. Qed.

Lemma post_remove_found user id oid s p :
  castObjectId id = Some oid ->
  Posts.findById oid s = Some p ->
  remove (Pass user) id s =
    (ok (Some "Post deleted successfully") NoData,
     set_posts (deleteFirst (Posts.hasId oid) (posts s)) s).
Proof.
  intros Hcast Hfind. unfold remove, findByIdAndDelete. run_handler.
  rewrite Hcast. cbn. by rewrite Hfind.
Qed.

Lemma post_remove_missing user id oid s :
  castObjectId id = Some oid ->
  Posts.findById oid s = None ->
  remove (Pass user) id s = (failure 404 "Post not found", s).
Proof.
  intros Hcast Hfind. unfold remove. run_handler.
  rewrite Hcast. cbn. by rewrite Hfind.
Qed.

Lemma post_remove_malformed user id s :
  castObjectId id = None ->
  remove (Pass user) id s = (failure 500 "Server error while deleting post", s).
Proof. intros Hcast. unfold remove. run_handler. by rewrite Hcast. Qed.

Lemma post_find_deleteFirst_other (id other : ObjectId) (l : list Post.t) :
  other ≠ id ->
  List.find (Posts.hasId other) (deleteFirst (Posts.hasId id) l)
  = List.find (Posts.hasId other) l.
Proof.
  intros Hne. induction l as [|y l IH]; [done |]. cbn.
  destruct (Posts.hasId id y) eqn:Hy.
  - unfold Posts.hasId in *. apply bool_decide_eq_true in Hy.
    by rewrite (bool_decide_eq_false_2 (_id y = other)) by congruence.
  - cbn. by rewrite IH.
Qed.

Lemma post_find_deleteFirst_gone (id : ObjectId) (l : list Post.t) :
  NoDup (_id <$> l) ->
  List.find (Posts.hasId id) (deleteFirst (Posts.hasId id) l) = None.
Proof.
  induction l as [|y l IH]; [done |]. cbn.
  intros [Hy Hl]%NoDup_cons.
  destruct (Posts.hasId id y) eqn:Hid.
  - unfold Posts.hasId in Hid. apply bool_decide_eq_true in Hid.
    destruct (List.find (Posts.hasId id) l) as [z|] eqn:Hfind; [|done].
    apply find_some in Hfind as [Hin Hz].
    unfold Posts.hasId in Hz. apply bool_decide_eq_true in Hz.
    exfalso. apply Hy. rewrite Hid, <- Hz.
    apply list_elem_of_fmap. exists z. split; [done |]. by apply list_elem_of_In.
  - cbn. rewrite Hid. by apply IH.
Qed.

End PostsRestFacts.

(** * The tag counts *)
Module TagFacts.
Import PostsRest.

Implicit Types (g : list (string * Z)) (t tag : string).











End TagFacts.

(** * The order of the lists *)
Module OrderFacts.
Import Post Posts.

Lemma before_withoutContent o a b :
  before o (withoutContent a) (withoutContent b) = before o a b.
Proof. by destruct o. Qed.

(** A page of a sorted list, sent without the contents, is sorted. *)
Lemma page_sorted o (skip lim : nat) (l : list Post.t) :
  Sorted (fun a b => before o a b = true)
    (withoutContent <$> take lim (drop skip (sortBy (before o) l))).
Proof.
  apply (SortFacts.fmap_sorted (fun a b => before o a b = true)).
  - intros a b. by rewrite before_withoutContent.
  - apply SortFacts.take_sorted, SortFacts.drop_sorted, SortFacts.sortBy_sorted,
      SortFacts.orders_total.
Qed.

Lemma valid_choice (values : list string) msg (v : option string) :
  Validator.optional (Validator.isIn values) msg v = [] ->
  match v with Some x => x ∈ values | None => True end.
Proof.
  intros Hok%ListingFacts.optional_passes. destruct v as [x|]; [|done].
  by apply bool_decide_eq_true in Hok.
Qed.

Lemma adminListErrors_valid (q : gmap string string) :
  adminListErrors q = [] ->
  (1 <= JS.parseIntOr (q !! "page") 1)%Z
  /\ (1 <= JS.parseIntOr (q !! "limit") 10 <= 50)%Z
  /\ match q !! "status" with Some x => x ∈ statuses | None => True end
  /\ match q !! "sort" with Some x => x ∈ adminSorts | None => True end.
Proof.
  unfold adminListErrors. intros Herr.
  apply app_eq_nil in Herr as [Hpage Herr].
  apply app_eq_nil in Herr as [Hlimit Herr].
  apply app_eq_nil in Herr as [Hstatus Hsort].
  split; [by apply ListingFacts.valid_page |].
  split; [by apply ListingFacts.valid_limit |].
  split; eapply valid_choice; eassumption.
Qed.

Lemma adminIndex_rejected answer q s : adminIndex (Reject answer) q s = (answer, s).
Proof. done. Qed.

Lemma adminIndex_served user q s :
  adminListErrors q = [] ->
  (forall p, p ∈ posts s -> matches (adminFilter q) p = true ->
     (0 < readingTime p)%Z) ->
  let pageNo := JS.parseIntOr (q !! "page") 1 in
  let lim := JS.parseIntOr (q !! "limit") 10 in
  let sort := default "latest" (q !! "sort") in
  let order :=
    if String.eqb sort "oldest" then CreatedAsc
    else if String.eqb sort "title" then TitleAsc
    else if String.eqb sort "views" then ViewsDesc
    else CreatedDesc in
  adminIndex (Pass user) q s =
    (ok None
       (PostList
          (withoutContent <$>
             take (Z.to_nat lim)
               (drop (Z.to_nat ((pageNo - 1) * lim))
                  (sortBy (before order) (find (adminFilter q) s))))
          (pagination pageNo lim (countDocuments (adminFilter q) s))),
     s).
Proof.
  intros Herr Htimes. cbv zeta.
  destruct (adminListErrors_valid q Herr) as (Hpage & Hlimit & _).
  unfold adminIndex, findPage, json. run_handler. rewrite Herr. cbn.
  rewrite ListingFacts.page_served by nia. cbn.
  rewrite ListingFacts.page_serialisable by done. done.
Qed.

(** A page of a sorted list is sorted. *)
Lemma page_keeps_sorted {A} (R : A -> A -> Prop) (skip lim : Z) (l found : list A) :
  page skip lim l = Some found -> Sorted R l -> Sorted R found.
Proof.
  unfold page. destruct (skip <? 0)%Z; [done |]. intros [= <-] Hl.
  destruct (lim =? 0)%Z.
  - by apply SortFacts.drop_sorted.
  - by apply SortFacts.take_sorted, SortFacts.drop_sorted.
Qed.

Section Pages.
Variable regExp : string -> option (string -> bool).


End Pages.

Lemma adminIndex_page user q s l pg :
  data (fst (adminIndex (Pass user) q s)) = PostList l pg ->
  let sort := default "latest" (q !! "sort") in
  let order :=
    if String.eqb sort "oldest" then CreatedAsc
    else if String.eqb sort "title" then TitleAsc
    else if String.eqb sort "views" then ViewsDesc
    else CreatedDesc in
  adminListErrors q = []
  /\ exists found,
       page ((JS.parseIntOr (q !! "page") 1 - 1) * JS.parseIntOr (q !! "limit") 10)
         (JS.parseIntOr (q !! "limit") 10)
         (sortBy (before order) (find (adminFilter q) s)) = Some found
       /\ l = withoutContent <$> found
       /\ forallb serialisable l = true.
Proof.
  cbv zeta.
  unfold adminIndex, findPage, json. run_handler.
  destruct (adminListErrors q); cbn; [|done].
  destruct (page _ _ _) as [found|]; cbn; [|done].
  destruct (forallb _ _) eqn:Hall; cbn; [|done].
  intros [= <- _]. split; [done |]. by exists found.
Qed.

Lemma adminIndex_invalid user q s :
  adminListErrors q ≠ [] ->
  adminIndex (Pass user) q s = (validationFailed (adminListErrors q), s).
Proof.
  intros Herr. unfold adminIndex. run_handler.
  by destruct (adminListErrors q).
Qed.

(** The members of a page of the posts that match a filter. *)
Lemma page_matches (f : Filter) (o : SortQuery) (skip lim : Z) (s : Store) found p :
  page skip lim (sortBy (before o) (find f s)) = Some found ->
  p ∈ found -> p ∈ posts s /\ matches f p = true.
Proof.
  intros Hpage Hp. apply (ListingFacts.page_members _ _ _ _ Hpage) in Hp.
  rewrite ListFacts.sortBy_perm in Hp. unfold find in Hp.
  apply list_elem_of_In, filter_In in Hp as [Hin Hmatch].
  split; [by apply list_elem_of_In | done].
Qed.

Lemma page_length {A} (skip lim : Z) (l found : list A) :
  page skip lim l = Some found -> (0 < lim)%Z ->
  (Z.of_nat (length found) <= lim)%Z.
Proof.
  unfold page. destruct (skip <? 0)%Z; [done |]. intros [= <-] Hlim.
  destruct (lim =? 0)%Z eqn:Hzero; [apply Z.eqb_eq in Hzero; lia |].
  rewrite length_take. lia.
Qed.

(** The status a valid admin list asks for is the status of the filter. *)
Lemma adminFilter_status (q : gmap string string) st :
  st ∈ statuses -> q !! "status" = Some st ->
  exists status, statusOfString st = Some status
                 /\ byStatus (adminFilter q) = Some status.
Proof.
  intros Hst Hq. unfold adminFilter. cbn. rewrite Hq.
  unfold statuses in Hst.
  repeat (apply elem_of_cons in Hst as [->|Hst]);
    [| | |by apply elem_of_nil in Hst]; eexists; split; reflexivity.
Qed.

Lemma adminFilter_all (q : gmap string string) s :
  q !! "status" = None -> find (adminFilter q) s = posts s.
Proof.
  intros Hq. unfold find, adminFilter, matches. cbn. rewrite Hq. cbn.
  induction (posts s) as [|p l IH]; cbn; [done | by rewrite IH].
Qed.

End OrderFacts.

(** * The creation of posts *)
Module CreateFacts.
Import Post Posts.

Section Routes.
Variable slugify : string -> string.

Lemma construct_frame {A} (proj : Post.t -> A) newId user body d :
  untouched proj ->
  construct newId user body = Some d ->
  proj (fields d) = proj (set_author user (blank newId)).
Proof.
  intros Hproj. unfold construct.
  set (F := fun (acc : option Post.doc) (arg : string * Value) =>
              let '(field, v) := arg in acc ≫= setField field v).
  set (d0 := assignAuthor user (Doc (blank newId) true ∅)).
  assert (Hstart : proj (fields d0) = proj (set_author user (blank newId))) by done.
  clearbody d0.
  generalize (constructorArgs newId body) as args. intros args. revert d.
  induction args as [|[f v] args IH] using rev_ind; intros d.
  - cbn. by intros [= <-].
  - rewrite foldl_app. cbn.
    destruct (foldl F (Some d0) args) as [d1|] eqn:Hd1; [|done].
    cbn. intros Hset.
    destruct (PostsFacts.setField_frame proj f v d1 d Hproj Hset) as [-> _].
    by apply IH.
Qed.

Lemma create_rejected answer clk newId body s :
  create slugify (Reject answer) clk newId body s = (answer, s).
Proof. done. Qed.

Lemma create_invalid user clk newId body s :
  createErrors body ≠ [] ->
  create slugify (Pass user) clk newId body s
  = (validationFailed (createErrors body), s).
Proof.
  intros Herr. unfold create. run_handler.
  by destruct (createErrors body).
Qed.

Lemma create_unknown_category user clk newId body s cid :
  createErrors body = [] ->
  castObjectId (default "" (body !! "category" ≫= text)) = Some cid ->
  categoryExists cid s = false ->
  create slugify (Pass user) clk newId body s = (failure 400 "Invalid category", s).
Proof.
  intros Herr Hcast Hknown. unfold create. run_handler.
  rewrite Herr. cbn. rewrite Hcast. cbn. by rewrite Hknown.
Qed.

(** The two outcomes of a creation: nothing written and an answer that is
    not a success, or the document of the request written at the end of the
    collection and sent back. *)
Lemma create_outcome user clk newId body s :
  (snd (create slugify (Pass user) clk newId body s) = s
   /\ success (fst (create slugify (Pass user) clk newId body s)) = false)
  \/ exists d,
       construct newId user body = Some d
       /\ validate d = true
       /\ slugTaken (written slugify clk d) s = false
       /\ create slugify (Pass user) clk newId body s
          = (created "Post created successfully" (OnePost (written slugify clk d)),
             set_posts (posts s ++ [written slugify clk d]) s).
Proof.
  unfold create, save. run_handler.
  destruct (createErrors body); cbn; [|by left].
  destruct (castObjectId _) as [cid|]; cbn; [|by left].
  destruct (categoryExists cid s); cbn; [|by left].
  destruct (construct newId user body) as [d|] eqn:Hd; cbn; [|by left].
  pose proof (PostsFacts.construct_isNew _ _ _ _ Hd) as Hnew.
  destruct (validate d) eqn:Hvalid; cbn; [|by left].
  destruct (slugTaken _ s) eqn:Htaken; cbn; [by left |].
  right. exists d. rewrite Hnew. done.
Qed.

Lemma slugTaken_false (p : Post.t) (s : Store) :
  slugTaken p s = false ->
  forall q, q ∈ posts s -> slug q = slug p -> _id q = _id p.
Proof.
  unfold slugTaken. intros Htaken q Hq Hslug.
  destruct (decide (_id q = _id p)) as [|Hother]; [done |].
  assert (existsb (fun q => bool_decide (slug q = slug p) && negb (hasId (_id p) q))
            (posts s) = true) as Hyes; [|congruence].
  apply existsb_exists. exists q. split; [by apply list_elem_of_In |].
  rewrite bool_decide_eq_true_2 by done. cbn. unfold hasId.
  by rewrite bool_decide_eq_false_2.
Qed.

End Routes.
End CreateFacts.

(** * The reading routes of the categories *)
Module CategoriesRestFacts.
Import Category CategoriesRest.

Lemma byOrder_total (a b : Category.t) : byOrder a b = false -> byOrder b a = true.
Proof.
  unfold byOrder. rewrite orb_false_iff, andb_false_iff, orb_true_iff, andb_true_iff.
  rewrite !Z.ltb_ge, !Z.ltb_lt, !Z.eqb_neq, !Z.eqb_eq.
  intros [Hlt [Hne|Hname]]; [left; lia |].
  destruct (decide (sortOrder a = sortOrder b)) as [Heq|Hne]; [|left; lia].
  right. split; [done |].
  destruct (String.leb_total (name a) (name b)); congruence.
Qed.

Lemma byOrder_counted (f : Category.t -> Z) (a b : Category.t) :
  byOrder (set_postCount (f a) a) (set_postCount (f b) b) = byOrder a b.
Proof. done. Qed.

Lemma sorted_byOrder (l : list Category.t) :
  Sorted (fun a b => byOrder a b = true) (sortBy byOrder l).
Proof. apply SortFacts.sortBy_sorted, byOrder_total. Qed.

Lemma category_show_found slug s c :
  Categories.findActiveBySlug slug s = Some c -> show slug s = (inr c, s).
Proof.
  intros Hfind. unfold show, PostsRest.tryCatchData. run_handler. by rewrite Hfind.
Qed.

Lemma category_show_missing slug s :
  Categories.findActiveBySlug slug s = None ->
  show slug s = (inl (failure 404 "Category not found"), s).
Proof.
  intros Hfind. unfold show, PostsRest.tryCatchData. run_handler. by rewrite Hfind.
Qed.

Lemma findActiveBySlug_active given s c :
  Categories.findActiveBySlug given s = Some c ->
  c ∈ categories s /\ slug c = JS.toLowerCase given /\ isActive c = true.
Proof.
  unfold Categories.findActiveBySlug. intros [Hin Hc]%find_some.
  apply andb_true_iff in Hc as [Hslug Hactive].
  split; [by apply list_elem_of_In |].
  split; [by apply bool_decide_eq_true in Hslug | done].
Qed.

(** The posts of a category: what the route serves when the page is one
    the store accepts. *)
Lemma postsOf_served slug q s c :
  Categories.findActiveBySlug slug s = Some c ->
  let pageNo := JS.parseIntOr (q !! "page") 1 in
  let lim := JS.parseIntOr (q !! "limit") 10 in
  (0 <= (pageNo - 1) * lim)%Z ->
  (forall p, p ∈ posts s ->
     Posts.matches (Categories.categoryFilter c) p = true ->
     (0 < Post.readingTime p)%Z) ->
  Categories.postsOf slug q s =
    (ok None
       (CategoryPostList c
          (Posts.withoutContent <$>
             take (Z.to_nat (Z.abs lim))
               (drop (Z.to_nat ((pageNo - 1) * lim))
                  (sortBy (Posts.before Posts.PublishedDesc)
                     (Posts.find (Categories.categoryFilter c) s))))
          (Posts.pagination pageNo lim
             (Posts.countDocuments (Categories.categoryFilter c) s))),
     s).
Proof.
  intros Hfind pageNo lim Hskip Htimes. subst pageNo lim.
  pose proof (PaginationFacts.parseIntOr_nonzero (q !! "limit") 10 ltac:(done)) as Hlim.
  unfold Categories.postsOf, Posts.findPage, Posts.json. run_handler.
  rewrite Hfind. cbn. unfold page.
  rewrite (proj2 (Z.ltb_ge _ _) Hskip).
  apply Z.eqb_neq in Hlim. rewrite Hlim. cbn.
  rewrite ListingFacts.page_serialisable by done. done.
Qed.

(** The posts of an answer of the route: a page of the sorted published
    posts of the category, each without its content and with a positive
    reading time. *)
Lemma postsOf_page slug q s c l pg :
  data (fst (Categories.postsOf slug q s)) = CategoryPostList c l pg ->
  Categories.findActiveBySlug slug s = Some c
  /\ exists found,
       page ((JS.parseIntOr (q !! "page") 1 - 1) * JS.parseIntOr (q !! "limit") 10)
         (JS.parseIntOr (q !! "limit") 10)
         (sortBy (Posts.before Posts.PublishedDesc)
            (Posts.find (Categories.categoryFilter c) s)) = Some found
       /\ l = Posts.withoutContent <$> found
       /\ forallb Posts.serialisable l = true.
Proof.
  unfold Categories.postsOf, Posts.findPage, Posts.json. run_handler.
  destruct (Categories.findActiveBySlug slug s) as [c'|]; cbn; [|done].
  destruct (page _ _ _) as [found|] eqn:Hpage; cbn; [|done].
  destruct (forallb _ _) eqn:Hall; cbn; [|done].
  intros [= <- <- _]. split; [done |]. by exists found.
Qed.

Lemma postsOf_store slug q s : snd (Categories.postsOf slug q s) = s.
Proof.
  unfold Categories.postsOf, Posts.findPage, Posts.json. run_handler.
  destruct (Categories.findActiveBySlug slug s) as [c|]; cbn; [|done].
  destruct (page _ _ _) as [found|]; cbn; [|done].
  by destruct (forallb _ _).
Qed.

Lemma postsOf_refused slug q s c :
  Categories.findActiveBySlug slug s = Some c ->
  ((JS.parseIntOr (q !! "page") 1 - 1) * JS.parseIntOr (q !! "limit") 10 < 0)%Z ->
  Categories.postsOf slug q s
  = (failure 500 "Server error while fetching category posts", s).
Proof.
  intros Hfind Hskip.
  unfold Categories.postsOf, Posts.findPage. run_handler.
  rewrite Hfind. cbn. unfold page.
  by rewrite (proj2 (Z.ltb_lt _ _) Hskip).
Qed.

Lemma postsOf_missing slug q s :
  Categories.findActiveBySlug slug s = None ->
  Categories.postsOf slug q s = (failure 404 "Category not found", s).
Proof.
  intros Hfind. unfold Categories.postsOf. run_handler. by rewrite Hfind.
Qed.

Lemma categoryFilter_matches c p :
  Posts.matches (Categories.categoryFilter c) p = true ->
  Post.status p = Post.published /\ Post.category p = JS.toLowerCase (_id c).
Proof.
  unfold Posts.matches, Categories.categoryFilter. cbn.
  rewrite !andb_true_r. intros [Hstatus Hcategory]%andb_true_iff.
  apply bool_decide_eq_true in Hstatus, Hcategory. done.
Qed.

Lemma category_remove_missing user id oid s :
  castObjectId id = Some oid ->
  Categories.findById oid s = None ->
  Categories.remove (Pass user) id s = (failure 404 "Category not found", s).
Proof.
  intros Hcast Hfind. unfold Categories.remove. run_handler.
  rewrite Hcast. cbn. by rewrite Hfind.
Qed.

Lemma category_remove_malformed user id s :
  castObjectId id = None ->
  Categories.remove (Pass user) id s
  = (failure 500 "Server error while deleting category", s).
Proof.
  intros Hcast. unfold Categories.remove. run_handler. by rewrite Hcast.
Qed.

(** What a removal does to the store. *)
Lemma category_remove_store check id s :
  snd (Categories.remove check id s) = s
  \/ exists oid c,
       castObjectId id = Some oid
       /\ Categories.findById oid s = Some c
       /\ Categories.postCount oid s = 0%Z
       /\ Categories.subcategoryCount oid s = 0%Z
       /\ snd (Categories.remove check id s)
          = set_categories (deleteFirst (Categories.hasId oid) (categories s)) s.
Proof.
  destruct check as [user|answer]; [|by left].
  destruct (castObjectId id) as [oid|] eqn:Hcast;
    [|left; by rewrite category_remove_malformed].
  destruct (Categories.findById oid s) as [c|] eqn:Hfind;
    [|left; by rewrite (category_remove_missing user id oid)].
  rewrite (CategoriesFacts.category_remove_found user id oid s c Hcast Hfind).
  pose proof (ListFacts.count_nonneg
                (fun p => bool_decide (Post.category p = oid)) (posts s)) as Hposts.
  pose proof (ListFacts.count_nonneg
                (fun c => bool_decide (Category.parentCategory c = Some oid))
                (categories s)) as Hsubs.
  fold (Categories.postCount oid s) in Hposts.
  fold (Categories.subcategoryCount oid s) in Hsubs.
  destruct (0 <? Categories.postCount oid s)%Z eqn:Hp; [by left |].
  destruct (0 <? Categories.subcategoryCount oid s)%Z eqn:Hs; [by left |].
  right. exists oid, c. apply Z.ltb_ge in Hp, Hs.
  split; [done |]. split; [done |]. split; [lia |]. split; [lia | done].
Qed.

End CategoriesRestFacts.

(** * More on sorted lists and counts *)
Module MoreListFacts.

Lemma sorted_weaken {A} (R R' : A -> A -> Prop) (l : list A) :
  (forall a b, R a b -> R' a b) -> Sorted R l -> Sorted R' l.
Proof.
  intros Himpl. induction 1 as [|x l Hl IH Hhd]; constructor; [done |].
  destruct Hhd; constructor. by apply Himpl.
Qed.

Lemma insertSorted_fmap {A} (before : A -> A -> bool) (f : A -> A) x (l : list A) :
  (forall a b, before (f a) (f b) = before a b) ->
  insertSorted before (f x) (f <$> l) = f <$> insertSorted before x l.
Proof.
  intros Hf. induction l as [|y l IH]; cbn; [done |].
  rewrite Hf. destruct (before x y); cbn; [done | by rewrite IH].
Qed.

Lemma sortBy_fmap {A} (before : A -> A -> bool) (f : A -> A) (l : list A) :
  (forall a b, before (f a) (f b) = before a b) ->
  sortBy before (f <$> l) = f <$> sortBy before l.
Proof.
  intros Hf. unfold sortBy. induction l as [|x l IH]; cbn; [done |].
  rewrite IH. by apply insertSorted_fmap.
Qed.

Lemma count_zero {A} (f : A -> bool) (l : list A) :
  count f l = 0%Z -> forall x, x ∈ l -> f x = false.
Proof.
  unfold count. intros Hcount x Hx.
  destruct (f x) eqn:Hfx; [|done].
  assert (In x (List.filter f l)) as Hin
    by (apply filter_In; split; [by apply list_elem_of_In | done]).
  destruct (List.filter f l); [done | cbn in Hcount; lia].
Qed.

Lemma validate_required (d : Post.doc) :
  Post.validate d = true ->
  Post.title (fields d) ≠ ""
  /\ (String.length (Post.title (fields d)) <= Post.titleMax)%nat
  /\ Post.content (fields d) ≠ ""
  /\ Post.category (fields d) ≠ "".
Proof.
  unfold Post.validate. cbv zeta. intros Hvalid.
  do 5 (apply andb_true_iff in Hvalid as [Hvalid _]).
  apply andb_true_iff in Hvalid as [Hvalid Hcat].
  apply andb_true_iff in Hvalid as [Hvalid Hcontent].
  apply andb_true_iff in Hvalid as [Htitle Hlength].
  apply negb_true_iff, bool_decide_eq_false in Htitle, Hcontent, Hcat.
  apply bool_decide_eq_true in Hlength. done.
Qed.

End MoreListFacts.

(** * Requests that pass the chains and fail later *)
Module ServeFacts.
Import Post Posts.

Lemma serialisable_all (l : list Post.t) :
  forallb serialisable l = true -> forall p, p ∈ l -> (0 < readingTime p)%Z.
Proof.
  intros Hall p Hp. rewrite forallb_forall in Hall.
  apply Z.ltb_lt. apply (Hall p). by apply list_elem_of_In.
Qed.

Lemma nonEmpty_some (v : option string) c : nonEmpty v = Some c -> v = Some c.
Proof. unfold nonEmpty. by destruct (JS.truthy v). Qed.

Lemma publicFilter_published now q test p :
  matches (publicFilter now q test) p = true -> status p = published.
Proof.
  unfold matches, publicFilter. cbn. intros Hmatch.
  repeat (apply andb_true_iff in Hmatch as [Hmatch _]).
  by apply bool_decide_eq_true in Hmatch.
Qed.

(** What [isMongoId] accepts has 24 characters, so it is not empty. *)
Lemma isMongoId_nonEmpty (c : string) :
  Validator.isMongoId c = true -> nonEmpty (Some c) = Some c.
Proof.
  unfold Validator.isMongoId. intros [_ Hlength]%andb_true_iff.
  apply bool_decide_eq_true in Hlength. by destruct c.
Qed.

Lemma listErrors_category (q : gmap string string) c :
  listErrors q = [] -> q !! "category" = Some c -> Validator.isMongoId c = true.
Proof.
  unfold listErrors. intros Herr Hq.
  do 2 (apply app_eq_nil in Herr as [_ Herr]).
  apply app_eq_nil in Herr as [Hcategory _].
  apply ListingFacts.optional_passes in Hcategory. by rewrite Hq in Hcategory.
Qed.

Section Routes.
Variable slugify : string -> string.
Variable regExp : string -> option (string -> bool).

(** A category the chain accepts and the cast refuses. *)
Lemma index_cast_fails now q s c :
  listErrors q = [] ->
  q !! "category" = Some c ->
  castObjectId c = None ->
  index regExp now q s = (failure 500 "Server error while fetching posts", s).
Proof.
  intros Herr Hq Hcast.
  pose proof (isMongoId_nonEmpty c (listErrors_category q c Herr Hq)) as Hc.
  unfold index, findPage, searchTest, json. run_handler. rewrite Herr. cbn.
  rewrite Hq, Hc.
  destruct (nonEmpty (q !! "search")) as [src|]; cbn;
    [destruct (regExp src) as [test|]; cbn; [|done] |];
    by rewrite Hcast.
Qed.

Lemma create_cast_fails user clk newId body s :
  createErrors body = [] ->
  castObjectId (default "" (body !! "category" ≫= text)) = None ->
  create slugify (Pass user) clk newId body s
  = (failure 500 "Server error while creating post", s).
Proof.
  intros Herr Hcast. unfold create. run_handler.
  rewrite Herr. cbn. by rewrite Hcast.
Qed.

End Routes.

Lemma createErrors_title (body : gmap string Value) :
  body !! "title" = None \/ body !! "title" = Some (VString "") ->
  "Invalid value" ∈ createErrors body.
Proof.
  intros Htitle. unfold createErrors.
  apply elem_of_app. left.
  destruct Htitle as [-> | ->]; cbn; apply list_elem_of_here.
Qed.

Lemma createErrors_content (body : gmap string Value) :
  body !! "content" = None \/ body !! "content" = Some (VString "") ->
  "Content is required" ∈ createErrors body.
Proof.
  intros Hcontent. unfold createErrors.
  apply elem_of_app. right. apply elem_of_app. right. apply elem_of_app. left.
  destruct Hcontent as [-> | ->]; cbn; apply list_elem_of_here.
Qed.

Lemma createErrors_category (body : gmap string Value) :
  body !! "category" = None ->
  "Valid category ID is required" ∈ createErrors body.
Proof.
  intros Hcategory. unfold createErrors.
  do 3 (apply elem_of_app; right). apply elem_of_app. left.
  rewrite Hcategory. cbn. apply list_elem_of_here.
Qed.

End ServeFacts.

(** * The claims *)

(** C1.  The pre-save rule gives a post its publish date, the reading of the
    clock, exactly when the save finds [status] modified, equal to
    [published], and no publish date yet; in every other case the save keeps
    the date as it is.  And once the post with a given id has a publish date,
    no sequence of requests that write posts (creations, likes, and the
    administrator's partial update, which reads the thirteen members of its
    allow-list and no other) changes that date, whatever the requests set
    [status] to. *)
Theorem publishedAt_set_once (slugify : string -> string)
    (requests : list Posts.Request) (s : Store) (id : ObjectId) (t : Date) :
  Posts.publishedOf id s = Some t ->
  (forall clk d,
     Post.publishedAt (Posts.written slugify clk d) =
       if isModified "status" d
          && bool_decide (Post.status (fields d) = Post.published)
          && bool_decide (Post.publishedAt (fields d) = None)
       then Some (atPublish clk)
       else Post.publishedAt (fields d))
  /\ Posts.publishedOf id (Posts.serve slugify requests s) = Some t.
Proof.
  intros Ht. split.
  - intros clk d. apply PostsFacts.written_publishedAt.
  - by apply PostsFacts.serve_keeps_publishedAt.
Qed.

Lemma publishedAt_set_once_witness :
  Posts.publishedOf Sample.helloId Sample.blog = Some 1730000001235%Z
  /\ Posts.publishedOf Sample.helloId
       (Posts.serve Slugify.slugify Sample.toggles Sample.blog)
     = Some 1730000001235%Z.
Proof.
  assert (H : Posts.publishedOf Sample.helloId Sample.blog = Some 1730000001235%Z)
    by (vm_compute; reflexivity).
  split; [exact H |].
  exact (proj2 (publishedAt_set_once Slugify.slugify Sample.toggles Sample.blog
                  Sample.helloId 1730000001235%Z H)).
Defined.

(** C4.  The save stores a slug made from the title: for a new post the
    slugified title, a hyphen, and the last four characters of the decimal
    timestamp read in the slug block; for a post saved again, the slugified
    title alone when the title was modified, and the slug it had otherwise.
    ([slugify] is called with [lower: true]: its result is in lower case.) *)
Theorem slug_follows_title (slugify : string -> string) (clk : Clock)
    (d : Post.doc) :
  JS.toLowerCase (slugify (Post.title (fields d))) = slugify (Post.title (fields d)) ->
  Post.title (Posts.written slugify clk d) = Post.title (fields d)
  /\ Post.slug (Posts.written slugify clk d) =
       if isNew d then
         slugify (Post.title (fields d)) +:+ "-"
         +:+ JS.sliceLast 4 (JS.toString (atSlug clk))
       else if isModified "title" d then slugify (Post.title (fields d))
       else Post.slug (fields d).
Proof.
  intros Hlower. unfold Posts.written. split.
  - unfold Post.preSave.
    by rewrite PostFacts.frame_metaDescriptionBlock, PostFacts.frame_metaTitleBlock,
      PostFacts.frame_publishBlock, PostFacts.frame_readingTimeBlock,
      PostFacts.frame_excerptBlock, PostFacts.frame_slugBlock, PostFacts.frame_stamp.
  - rewrite PostFacts.preSave_slug, PostFacts.isNew_stamp, PostFacts.isModified_stamp.
    rewrite !(PostFacts.frame_stamp Post.title), !(PostFacts.frame_stamp Post.slug)
      by done.
    rewrite Hlower. destruct (isNew d); [|done].
    rewrite !StringFacts.toLowerCase_app, Hlower.
    rewrite StringFacts.toLowerCase_sliceLast
      by apply StringFacts.toLowerCase_toString.
    done.
Qed.

Lemma slug_follows_title_witness :
  Post.slug (Posts.written Slugify.slugify Sample.clock Sample.draftDoc)
  = "hello-world-1234".
Proof.
  refine (eq_trans
            (proj2 (slug_follows_title Slugify.slugify Sample.clock Sample.draftDoc _))
            _);
    vm_compute; reflexivity.
Defined.

(** C8.  The save derives the excerpt (the content with its markup tags
    stripped, truncated to 200 characters, an ellipsis appended when the
    truncation dropped something) exactly when the content was modified and
    the excerpt is empty; an excerpt that is present is never overwritten by
    the derivation, whether the content was modified or not.  The derived
    excerpt has at most 203 characters. *)
Theorem excerpt_derived_when_empty (slugify : string -> string) (clk : Clock)
    (d : Post.doc) :
  Post.excerpt (Posts.written slugify clk d) =
    (if isModified "content" d && negb (JS.truthy (Post.excerpt (fields d)))
     then Some (Spec.derivedExcerpt (Post.content (fields d)))
     else Post.excerpt (fields d))
  /\ (JS.truthy (Post.excerpt (fields d)) = true ->
      Post.excerpt (Posts.written slugify clk d) = Post.excerpt (fields d))
  /\ (String.length (Spec.derivedExcerpt (Post.content (fields d))) <= 203)%nat.
Proof.
  assert (Heq : Post.excerpt (Posts.written slugify clk d) =
                if isModified "content" d
                   && negb (JS.truthy (Post.excerpt (fields d)))
                then Some (Spec.derivedExcerpt (Post.content (fields d)))
                else Post.excerpt (fields d)).
  { unfold Posts.written.
    rewrite PostFacts.preSave_excerpt, PostFacts.isModified_stamp.
    by rewrite !(PostFacts.frame_stamp Post.excerpt),
      !(PostFacts.frame_stamp Post.content). }
  split; [exact Heq |]. split.
  - intros Hpresent. rewrite Heq, Hpresent. by rewrite andb_false_r.
  - unfold Spec.derivedExcerpt.
    destruct (200 <? String.length (JS.stripTags (Post.content (fields d))))%nat
      eqn:Hlen.
    + rewrite StringFacts.length_app, StringFacts.length_prefix.
      change (String.length "...") with 3%nat. lia.
    + apply Nat.ltb_ge in Hlen. lia.
Qed.

Lemma excerpt_derived_when_empty_witness :
  Post.excerpt
    (Posts.written Slugify.slugify Sample.later
       (Post.assignContent "Other text"
          (Doc (Posts.written Slugify.slugify Sample.clock Sample.draftDoc) false ∅)))
  = Some "Some text here".
Proof.
  refine (eq_trans
            (proj1 (proj2 (excerpt_derived_when_empty Slugify.slugify Sample.later
                             (Post.assignContent "Other text"
                                (Doc (Posts.written Slugify.slugify Sample.clock
                                        Sample.draftDoc) false ∅)))) _) _);
    vm_compute; reflexivity.
Defined.

(** C2.  The code departs from the claim.  A post created with a content of
    200 plain characters and no excerpt is stored with a meta description of
    200 characters: the rule copies the derived excerpt whole, above the 160
    characters the schema allows a meta description, where the claim has the
    excerpt truncated to 160. *)
Theorem metaDescription_not_truncated :
  let answer :=
    Posts.create Slugify.slugify (Pass Sample.admin) Sample.clock Sample.longId
      Sample.longBody Sample.empty in
  statusCode (fst answer) = 201%Z
  /\ exists p,
       last (posts (snd answer)) = Some p
       /\ Post.excerpt p = Some (Sample.replicate 200 "a")
       /\ Post.metaDescription (Post.seo p) = Post.excerpt p
       /\ String.length (default "" (Post.metaDescription (Post.seo p))) = 200%nat
       /\ (Post.metaDescriptionMax < 200)%nat.
Proof.
  split; [by vm_compute |].
  eexists. split; [by vm_compute |].
  repeat split; try (by vm_compute).
  unfold Post.metaDescriptionMax. lia.
Qed.

(** C3.  The code departs from the claim.  The comments router mounts no
    authentication or admin check on its approval and removal routes: their
    handlers take no decision of the check and answer any caller.  On the
    store that holds the visitor's unapproved comment, an approval sent
    without credentials succeeds and makes the comment public, and a removal
    sent without credentials succeeds and deletes it; the guarded removal of
    a category, for comparison, turns the same caller away and leaves the
    store alone. *)
Theorem moderation_open_to_any_caller :
  let approval := Comments.approve 1730000200000%Z Sample.commentId Sample.commented in
  let removal := Comments.remove Sample.commentId Sample.commented in
  (Comment.isApproved <$> comments Sample.commented = [false]
   /\ success (fst approval) = true
   /\ statusCode (fst approval) = 200%Z
   /\ Comment.isApproved <$> comments (snd approval) = [true]
   /\ exists c, data (fst (Comments.index Sample.helloId (snd approval)))
                = CommentList [c])
  /\ (success (fst removal) = true
      /\ statusCode (fst removal) = 200%Z
      /\ comments (snd removal) = [])
  /\ Categories.remove (Reject Sample.unauthorized) Sample.newsId Sample.commented
     = (Sample.unauthorized, Sample.commented).
Proof.
  repeat split; try (by vm_compute).
  eexists. by vm_compute.
Qed.

(** C5.  A request to delete an existing category that still has a post
    referring to it, or a subcategory, leaves the whole store as it is, and
    an administrator is answered with an error (status 400, [success] false,
    a message that says why); the store changes only when the caller passed
    the admin check and both counts are zero, and then the category is
    deleted. *)
Theorem category_removal_guarded (check : AdminCheck) (id : string)
    (oid : ObjectId) (s : Store) (c : Category.t) :
  castObjectId id = Some oid ->
  Categories.findById oid s = Some c ->
  let answer := Categories.remove check id s in
  ((0 < Categories.postCount oid s \/ 0 < Categories.subcategoryCount oid s)%Z ->
   snd answer = s
   /\ forall user, check = Pass user ->
        statusCode (fst answer) = 400%Z /\ success (fst answer) = false)
  /\ (snd answer ≠ s ->
      Categories.postCount oid s = 0%Z
      /\ Categories.subcategoryCount oid s = 0%Z
      /\ exists user, check = Pass user)
  /\ (forall user, check = Pass user ->
      Categories.postCount oid s = 0%Z ->
      Categories.subcategoryCount oid s = 0%Z ->
      fst answer = ok (Some "Category deleted successfully") NoData
      /\ snd answer =
           set_categories (deleteFirst (Categories.hasId oid) (categories s)) s).
Proof.
  intros Hcast Hfind answer. subst answer.
  pose proof (ListFacts.count_nonneg
                (fun p => bool_decide (Post.category p = oid)) (posts s)) as Hposts.
  pose proof (ListFacts.count_nonneg
                (fun c => bool_decide (Category.parentCategory c = Some oid))
                (categories s)) as Hsubs.
  fold (Categories.postCount oid s) in Hposts.
  fold (Categories.subcategoryCount oid s) in Hsubs.
  destruct check as [user|rejection].
  - rewrite (CategoriesFacts.category_remove_found user id oid s c Hcast Hfind).
    destruct (0 <? Categories.postCount oid s)%Z eqn:Hp;
      [|destruct (0 <? Categories.subcategoryCount oid s)%Z eqn:Hs];
      rewrite ?Z.ltb_lt, ?Z.ltb_ge in *; simpl.
    + split; [by intros _; split; [|intros ? _] |].
      split; [done |]. intros ? _ ?. lia.
    + split; [by intros _; split; [|intros ? _] |].
      split; [done |]. intros ? _ _ ?. lia.
    + split; [intros [?|?]; lia |].
      split; [intros _; repeat split; [lia | lia | by exists user] |].
      done.
  - rewrite CategoriesFacts.remove_rejected. simpl.
    split; [by intros _; split |]. split; [done |]. done.
Qed.

Lemma category_removal_guarded_witness :
  snd (Categories.remove (Pass Sample.admin) Sample.techId Sample.blog) = Sample.blog
  /\ statusCode (fst (Categories.remove (Pass Sample.admin) Sample.techId Sample.blog))
     = 400%Z.
Proof.
  assert (Hcast : castObjectId Sample.techId = Some Sample.techId)
    by (vm_compute; reflexivity).
  assert (Hfind : Categories.findById Sample.techId Sample.blog = Some Sample.tech)
    by (vm_compute; reflexivity).
  assert (Hcount : (0 < Categories.postCount Sample.techId Sample.blog
                    \/ 0 < Categories.subcategoryCount Sample.techId Sample.blog)%Z)
    by (left; vm_compute; reflexivity).
  destruct (proj1 (category_removal_guarded (Pass Sample.admin) Sample.techId
                     Sample.techId Sample.blog Sample.tech Hcast Hfind) Hcount)
    as [Hstore Hanswer].
  split; [exact Hstore |].
  exact (proj1 (Hanswer Sample.admin eq_refl)).
Defined.

(** C6.  Whenever one of the three list routes (public posts, administrator's
    posts, posts of a category) answers with a page, its pagination object is
    computed from the limit and from the count of all the stored posts that
    match the route's filter, not from the posts on the page: [totalPosts] is
    that count, [totalPages] is the ceiling of the count divided by the
    limit, [hasNextPage] tells whether the page is below [totalPages] and
    [hasPrevPage] whether it is above 1. *)
Theorem pagination_from_total (regExp : string -> option (string -> bool))
    (now : Z) (user : ObjectId) (slug : string) (q : gmap string string)
    (s : Store) :
  (forall l pg,
     data (fst (Posts.index regExp now q s)) = PostList l pg ->
     Spec.paginates pg
       (Posts.countDocuments
          (Posts.publicFilter now q (Posts.searchTest regExp q)) s))
  /\ (forall l pg,
        data (fst (Posts.adminIndex (Pass user) q s)) = PostList l pg ->
        Spec.paginates pg (Posts.countDocuments (Posts.adminFilter q) s))
  /\ (forall c l pg,
        data (fst (Categories.postsOf slug q s)) = CategoryPostList c l pg ->
        Spec.paginates pg
          (Posts.countDocuments (Categories.categoryFilter c) s)).
Proof.
  assert (Hlim : JS.parseIntOr (q !! "limit") 10 ≠ 0%Z)
    by (by apply PaginationFacts.parseIntOr_nonzero).
  split; [|split].
  - intros l pg Hdata.
    rewrite (PaginationFacts.index_pagination regExp now q s l pg Hdata).
    by apply MoreFacts.pagination_paginates.
  - intros l pg Hdata.
    rewrite (PaginationFacts.adminIndex_pagination user q s l pg Hdata).
    by apply MoreFacts.pagination_paginates.
  - intros c l pg Hdata.
    rewrite (PaginationFacts.postsOf_pagination slug q s c l pg Hdata).
    by apply MoreFacts.pagination_paginates.
Qed.

Lemma pagination_from_total_witness :
  Spec.paginates
    {| currentPage := 1; totalPages := 2; totalPosts := 2; hasNextPage := true;
       hasPrevPage := false; limit := 1 |}
    (Posts.countDocuments
       (Posts.publicFilter 1730000100000%Z (<["limit" := "1"]> ∅)
          (Posts.searchTest (fun _ => None) (<["limit" := "1"]> ∅)))
       Sample.busy).
Proof.
  eapply (proj1 (pagination_from_total (fun _ => None) 1730000100000%Z
                   Sample.admin "tech" (<["limit" := "1"]> ∅) Sample.busy)).
  vm_compute. reflexivity.
Defined.

(** C7.  The code departs from the claim on the posts of a category.  The
    route has no validation chain: a limit of 100 is answered with status 200
    and a page drawn with that limit, a page of 0 is served as page 1, a page
    of -1 reaches the store and comes back as a server error (status 500),
    and a sort value is not read at all; none of them is a validation error.
    The public list, for comparison, turns the same limit and the same page
    away with status 400 and the messages of its chains. *)
Theorem category_posts_not_validated :
  let wide := fst (Categories.postsOf "tech" (<["limit" := "100"]> ∅) Sample.busy) in
  let zero := fst (Categories.postsOf "tech" (<["page" := "0"]> ∅) Sample.busy) in
  let negative := fst (Categories.postsOf "tech" (<["page" := "-1"]> ∅) Sample.busy) in
  let sorted := fst (Categories.postsOf "tech" (<["sort" := "alphabetical"]> ∅) Sample.busy) in
  (statusCode wide = 200%Z
   /\ exists c l pg, data wide = CategoryPostList c l pg /\ limit pg = 100%Z)
  /\ (statusCode zero = 200%Z
      /\ exists c l pg, data zero = CategoryPostList c l pg /\ currentPage pg = 1%Z)
  /\ statusCode negative = 500%Z
  /\ statusCode sorted = 200%Z
  /\ statusCode
       (fst (Posts.index (fun _ => None) 1730000100000%Z (<["limit" := "100"]> ∅)
               Sample.busy)) = 400%Z
  /\ statusCode
       (fst (Posts.index (fun _ => None) 1730000100000%Z (<["page" := "0"]> ∅)
               Sample.busy)) = 400%Z.
Proof.
  repeat split; try (by vm_compute).
  - do 3 eexists. split; by vm_compute.
  - do 3 eexists. split; by vm_compute.
Qed.

(** C9.  A comment created through the public route is stored with
    [isApproved] false: the creation leaves the store as it is, or appends
    one comment, not approved, and answers 201.  The public list of a post
    answers with the stored comments of that post that are approved, each
    once, newest first, and with no other.  Hence the comment a creation
    stored is in no public list of the store it left. *)
Theorem comments_hidden_until_approved (accepts : Comment.t -> bool)
    (newId : ObjectId) (now : Date) (body : gmap string string) (s : Store) :
  let answer := Comments.create accepts newId now body s in
  ((snd answer = s /\ statusCode (fst answer) ≠ 201%Z)
   \/ exists c,
        Comment.isApproved c = false
        /\ fst answer = created "Comment submitted for approval" (OneComment c)
        /\ comments (snd answer) = (comments s ++ [c])%list
        /\ forall postId l,
             data (fst (Comments.index postId (snd answer))) = CommentList l ->
             c ∉ l)
  /\ (forall postId pid,
        castObjectId postId = Some pid ->
        exists l,
          Comments.index postId s = (ok None (CommentList l), s)
          /\ l ≡ₚ List.filter
                    (fun c => bool_decide (Comment.postId c = pid)
                              && Comment.isApproved c) (comments s)
          /\ forall c, c ∈ l <->
               c ∈ comments s /\ Comment.postId c = pid
               /\ Comment.isApproved c = true).
Proof.
  assert (Hlist : forall s0 postId pid,
            castObjectId postId = Some pid ->
            exists l,
              Comments.index postId s0 = (ok None (CommentList l), s0)
              /\ l ≡ₚ List.filter
                        (fun c => bool_decide (Comment.postId c = pid)
                                  && Comment.isApproved c) (comments s0)
              /\ forall c, c ∈ l <->
                   c ∈ comments s0 /\ Comment.postId c = pid
                   /\ Comment.isApproved c = true).
  { intros s0 postId pid Hcast. eexists. split; [|split].
    - by apply CommentsFacts.index_valid.
    - apply ListFacts.sortBy_perm.
    - intros c. rewrite ListFacts.sortBy_perm.
      rewrite list_elem_of_In, filter_In, <- list_elem_of_In.
      unfold Comments.ofPost. rewrite andb_true_iff, bool_decide_eq_true.
      tauto. }
  intros answer. split; [|by apply Hlist].
  subst answer.
  destruct (CommentsFacts.comment_create_store accepts newId now body s)
    as [[Hs Hcode]|(c & Happroved & _ & _ & Hcreate)].
  - by left.
  - right. exists c. rewrite Hcreate. cbn. repeat split; try done.
    intros postId l Hdata.
    destruct (castObjectId postId) as [pid|] eqn:Hcast.
    + destruct (Hlist (set_comments (comments s ++ [c])%list s) postId pid Hcast)
        as (l' & Hindex & _ & Hin).
      rewrite Hindex in Hdata. cbn in Hdata. injection Hdata as <-.
      rewrite Hin. intros (_ & _ & Htrue). congruence.
    + rewrite CommentsFacts.index_invalid in Hdata by done. done.
Qed.

Lemma comments_hidden_until_approved_witness :
  exists l,
    Comments.index Sample.helloId Sample.commented
    = (ok None (CommentList l), Sample.commented)
    /\ l ≡ₚ List.filter
              (fun c => bool_decide (Comment.postId c = Sample.helloId)
                        && Comment.isApproved c) (comments Sample.commented)
    /\ forall c, c ∈ l <->
         c ∈ comments Sample.commented /\ Comment.postId c = Sample.helloId
         /\ Comment.isApproved c = true.
Proof.
  apply (proj2 (comments_hidden_until_approved (fun _ => true) Sample.commentId
                  1730000100000%Z Sample.commentBody Sample.commented)
           Sample.helloId Sample.helloId).
  vm_compute. reflexivity.
Defined.

(** C10.  A like of an existing post adds exactly one to the stored counter
    of that post and writes the time of the update to its [updatedAt] (the
    timestamps option adds it to the update), leaves the rest of the post
    and every other post as it is, and answers with the counter of the
    document as the handler fetched it plus one.  The answer is not read
    back from the store: run against a store in which the counter has moved
    since the fetch, the rest of the handler still adds one to the stored
    counter and still answers with the fetched counter plus one. *)
Theorem like_counts_from_fetched (now : Date) (id : string) (oid : ObjectId)
    (s : Store) (p : Post.t) :
  castObjectId id = Some oid ->
  Posts.findById oid s = Some p ->
  fst (Posts.like now id s)
  = ok (Some "Post liked successfully") (Likes (Post.likes p + 1)%Z)
  /\ Posts.findById oid (snd (Posts.like now id s))
     = Some (Post.set_updatedAt now (Post.set_likes (Post.likes p + 1)%Z p))
  /\ (forall other, other ≠ oid ->
        Posts.findById other (snd (Posts.like now id s)) = Posts.findById other s)
  /\ (forall s2 p2,
        Posts.findById oid s2 = Some p2 ->
        fst (Posts.likeFetched now p s2)
        = Value (ok (Some "Post liked successfully") (Likes (Post.likes p + 1)%Z))
        /\ Posts.findById oid (snd (Posts.likeFetched now p s2))
           = Some (Post.set_updatedAt now
                     (Post.set_likes (Post.likes p2 + 1)%Z p2))).
Proof.
  intros Hcast Hfind.
  pose proof (PostsFacts.findById_id _ _ _ Hfind) as Hid.
  assert (Hfetched : forall s2 p2,
            Posts.findById oid s2 = Some p2 ->
            Posts.likeFetched now p s2
            = (Value (ok (Some "Post liked successfully")
                        (Likes (Post.likes p + 1)%Z)),
               set_posts
                 (updateFirst (Posts.hasId oid)
                    (fun q => Post.set_updatedAt now
                                (Post.set_likes (Post.likes q + 1)%Z q))
                    (posts s2)) s2)).
  { intros s2 p2 _. unfold Posts.likeFetched, Posts.incrementLikes. run_handler.
    by rewrite Hid. }
  assert (Hlookup : forall s2 p2 other,
            Posts.findById oid s2 = Some p2 ->
            Posts.findById other
              (set_posts
                 (updateFirst (Posts.hasId oid)
                    (fun q => Post.set_updatedAt now
                                (Post.set_likes (Post.likes q + 1)%Z q))
                    (posts s2)) s2)
            = if bool_decide (other = oid)
              then Some (Post.set_updatedAt now
                           (Post.set_likes (Post.likes p2 + 1)%Z p2))
              else Posts.findById other s2).
  { intros s2 p2 other Hp2. unfold Posts.findById in *. cbn.
    apply (PostsFacts.find_updateFirst oid other
             (fun q => Post.set_updatedAt now
                         (Post.set_likes (Post.likes q + 1)%Z q))
             (posts s2) p2 Hp2).
    cbn. by apply (PostsFacts.findById_id oid s2 p2). }
  assert (Hlike : Posts.like now id s
                  = (ok (Some "Post liked successfully") (Likes (Post.likes p + 1)%Z),
                     set_posts
                       (updateFirst (Posts.hasId oid)
                          (fun q => Post.set_updatedAt now
                                      (Post.set_likes (Post.likes q + 1)%Z q))
                          (posts s)) s)).
  { unfold Posts.like, Posts.likeLookup. run_handler.
    rewrite Hcast. cbn. rewrite Hfind. cbn.
    fold (Posts.likeFetched now p s). by rewrite (Hfetched s p Hfind). }
  rewrite Hlike. cbn [fst snd].
  split; [done |]. split.
  - rewrite (Hlookup s p oid Hfind). by rewrite bool_decide_eq_true_2.
  - split.
    + intros other Hother. rewrite (Hlookup s p other Hfind).
      by rewrite bool_decide_eq_false_2.
    + intros s2 p2 Hp2. rewrite (Hfetched s2 p2 Hp2). cbn [fst snd].
      split; [done |].
      rewrite (Hlookup s2 p2 oid Hp2). by rewrite bool_decide_eq_true_2.
Qed.

Lemma like_counts_from_fetched_witness :
  fst (Posts.like 1730000050000%Z Sample.helloId Sample.blog)
  = ok (Some "Post liked successfully") (Likes 1).
Proof.
  assert (Hcast : castObjectId Sample.helloId = Some Sample.helloId)
    by (vm_compute; reflexivity).
  destruct (Posts.findById Sample.helloId Sample.blog) as [p|] eqn:Hfind;
    [|vm_compute in Hfind; discriminate].
  rewrite (proj1 (like_counts_from_fetched 1730000050000%Z Sample.helloId
                    Sample.helloId Sample.blog p Hcast Hfind)).
  vm_compute in Hfind. injection Hfind as <-. reflexivity.
Defined.

(** * Further properties of the code *)

(** X1.  What a save of a post never writes: the title, the content, the
    status, the category, the tags, the author, the two counters, the comment
    settings and the id it stores are those of the document it was asked to
    save.  The hook derives; it edits nothing the author of the post wrote. *)
Theorem save_keeps_what_was_written (slugify : string -> string) (clk : Clock)
    (d : Post.doc) :
  let p := Posts.written slugify clk d in
  Post._id p = Post._id (fields d)
  /\ Post.title p = Post.title (fields d)
  /\ Post.content p = Post.content (fields d)
  /\ Post.status p = Post.status (fields d)
  /\ Post.category p = Post.category (fields d)
  /\ Post.tags p = Post.tags (fields d)
  /\ Post.author p = Post.author (fields d)
  /\ Post.views p = Post.views (fields d)
  /\ Post.likes p = Post.likes (fields d)
  /\ Post.commentsEnabled p = Post.commentsEnabled (fields d)
  /\ Post.scheduledFor p = Post.scheduledFor (fields d).
Proof.
  cbv zeta. repeat split; by apply HookFacts.written_frame.
Qed.

(** X2.  The reading time is recomputed exactly when the content was
    modified: it is then the number of pieces the content splits into at
    white space, divided by 200 and rounded up, which is at least one minute
    whatever the content; otherwise the stored value is kept. *)
Theorem readingTime_recomputed (slugify : string -> string) (clk : Clock)
    (d : Post.doc) :
  Post.readingTime (Posts.written slugify clk d) =
    (if isModified "content" d
     then JS.ceilDiv (JS.splitCount (Post.content (fields d))) 200
     else Post.readingTime (fields d))
  /\ (isModified "content" d = true ->
      (1 <= Post.readingTime (Posts.written slugify clk d))%Z
      /\ Spec.isCeiling (JS.splitCount (Post.content (fields d))) 200
           (Post.readingTime (Posts.written slugify clk d))).
Proof.
  split; [apply HookFacts.written_readingTime |].
  intros Hmod. rewrite HookFacts.written_readingTime, Hmod. split.
  - apply HookFacts.ceilDiv_positive; [lia |].
    apply HookFacts.splitCountFrom_positive.
  - by apply PaginationFacts.ceilDiv_ceiling.
Qed.

Lemma readingTime_recomputed_witness :
  (1 <= Post.readingTime (Posts.written Slugify.slugify Sample.clock Sample.draftDoc))%Z
  /\ Spec.isCeiling (JS.splitCount (Post.content (fields Sample.draftDoc))) 200
       (Post.readingTime (Posts.written Slugify.slugify Sample.clock Sample.draftDoc)).
Proof.
  apply (proj2 (readingTime_recomputed Slugify.slugify Sample.clock Sample.draftDoc)).
  vm_compute. reflexivity.
Defined.

(** X3.  The meta title of a post is filled once: a save finds it empty and
    stores the first 60 characters of the title (the whole title when it has
    no more), or finds it set and keeps it.  What the hook fills in never
    exceeds the 60 characters the schema allows. *)
Theorem metaTitle_filled_once (slugify : string -> string) (clk : Clock)
    (d : Post.doc) :
  (JS.truthy (Post.metaTitle (Post.seo (fields d))) = true ->
   Post.metaTitle (Post.seo (Posts.written slugify clk d))
   = Post.metaTitle (Post.seo (fields d)))
  /\ (JS.truthy (Post.metaTitle (Post.seo (fields d))) = false ->
      Post.metaTitle (Post.seo (Posts.written slugify clk d))
      = Some (JS.prefix 60 (Post.title (fields d)))
      /\ (String.length (JS.prefix 60 (Post.title (fields d))) <= Post.metaTitleMax)%nat
      /\ ((String.length (Post.title (fields d)) <= 60)%nat ->
          JS.prefix 60 (Post.title (fields d)) = Post.title (fields d))).
Proof.
  split; intros Hset; rewrite HookFacts.written_metaTitle, Hset; [done |].
  split; [done |]. split.
  - rewrite StringFacts.length_prefix. unfold Post.metaTitleMax. lia.
  - apply StringFacts.prefix_short.
Qed.

Lemma metaTitle_filled_once_witness :
  Post.metaTitle (Post.seo (Posts.written Slugify.slugify Sample.clock Sample.draftDoc))
  = Some (JS.prefix 60 (Post.title (fields Sample.draftDoc))).
Proof.
  apply (proj2 (metaTitle_filled_once Slugify.slugify Sample.clock Sample.draftDoc)).
  vm_compute. reflexivity.
Defined.

(** X4.  What a save of a category derives.  The name and the description
    are kept.  The slug is the lower-cased slugified name when the category
    is new or its name was modified, with no timestamp suffix, and the slug
    it had otherwise.  An empty meta title becomes the name.  An empty meta
    description becomes the first 160 characters of the description when
    there is one, and stays empty when there is none; what the hook fills in
    respects the 160 characters of the schema.  SEO fields that are set are
    kept. *)
Theorem category_save_derives (slugify : string -> string) (d : Category.doc) :
  let c := fields (Category.preSave slugify d) in
  Category.name c = Category.name (fields d)
  /\ Category.description c = Category.description (fields d)
  /\ Category.slug c =
       (if isModified "name" d || isNew d
        then JS.toLowerCase (slugify (Category.name (fields d)))
        else Category.slug (fields d))
  /\ Category.metaTitle (Category.seo c) =
       (if JS.truthy (Category.metaTitle (Category.seo (fields d)))
        then Category.metaTitle (Category.seo (fields d))
        else Some (Category.name (fields d)))
  /\ Category.metaDescription (Category.seo c) =
       (if JS.truthy (Category.metaDescription (Category.seo (fields d)))
        then Category.metaDescription (Category.seo (fields d))
        else if JS.truthy (Category.description (fields d))
             then Some (JS.prefix 160 (default "" (Category.description (fields d))))
             else Category.metaDescription (Category.seo (fields d)))
  /\ (JS.truthy (Category.metaDescription (Category.seo (fields d))) = false ->
      (String.length (default "" (Category.metaDescription (Category.seo c))) <= 160)%nat).
Proof.
  cbv zeta.
  destruct (CategoryFacts.preSave_equations slugify d)
    as (Hname & Hdesc & Hslug & Hmt & Hmd).
  repeat (split; [done |]).
  intros Hempty. rewrite Hmd, Hempty.
  destruct (JS.truthy (Category.description (fields d))).
  - cbn. rewrite StringFacts.length_prefix. lia.
  - destruct (Category.metaDescription (Category.seo (fields d))) as [[|c s]|];
      cbn in *; [lia | done | lia].
Qed.

Lemma category_save_derives_witness :
  (String.length
     (default ""
        (Category.metaDescription
           (Category.seo (fields (Category.preSave Slugify.slugify Sample.gadgets)))))
   <= 160)%nat.
Proof.
  apply (proj2 (proj2 (proj2 (proj2 (proj2
           (category_save_derives Slugify.slugify Sample.gadgets)))))).
  vm_compute. reflexivity.
Defined.



(** X6.  Likes add up and are not deduplicated: after likes of an existing
    post at the given times its stored counter is higher by their number,
    its [updatedAt] is the last of the times and the post is otherwise as it
    was, and the next like answers with the counter one higher again. *)
Theorem likes_add_up (times : list Date) (final next : Date) (id : string)
    (oid : ObjectId) (s : Store) (p : Post.t) :
  castObjectId id = Some oid ->
  Posts.findById oid s = Some p ->
  let n := Z.of_nat (length (times ++ [final])) in
  let after := foldl (fun s now => snd (Posts.like now id s)) s (times ++ [final]) in
  Posts.findById oid after
  = Some (Post.set_updatedAt final (Post.set_likes (Post.likes p + n)%Z p))
  /\ fst (Posts.like next id after)
     = ok (Some "Post liked successfully") (Likes (Post.likes p + n + 1)%Z).
Proof.
  intros Hcast Hfind n after. subst n after.
  pose proof (PostsMoreFacts.likes_after (times ++ [final]) id oid s p Hcast Hfind)
    as Hafter.
  rewrite last_snoc in Hafter.
  split; [exact Hafter |].
  by rewrite (PostsMoreFacts.like_found next id oid _ _ Hcast Hafter).
Qed.

Lemma likes_add_up_witness :
  Post.likes <$> Posts.findById Sample.helloId
                   (foldl (fun s now => snd (Posts.like now Sample.helloId s))
                      Sample.blog ([1730000050000%Z] ++ [1730000060000%Z]))
  = Some 2%Z.
Proof.
  assert (Hcast : castObjectId Sample.helloId = Some Sample.helloId)
    by (vm_compute; reflexivity).
  destruct (Posts.findById Sample.helloId Sample.blog) as [p|] eqn:Hfind;
    [|vm_compute in Hfind; discriminate].
  pose proof (proj1 (likes_add_up [1730000050000%Z] 1730000060000%Z 0%Z
                       Sample.helloId Sample.helloId Sample.blog p Hcast Hfind))
    as Hafter.
  vm_compute in Hfind. injection Hfind as <-.
  exact (f_equal (fmap Post.likes) Hafter).
Defined.

(** X7.  A like that finds no post changes nothing: an id that no post has is
    answered 404 and a malformed id 500, and the store is left as it is. *)
Theorem like_of_missing_post (now : Date) (id : string) (s : Store) :
  (castObjectId id = None ->
   Posts.like now id s = (failure 500 "Server error while liking post", s))
  /\ (forall oid,
        castObjectId id = Some oid ->
        Posts.findById oid s = None ->
        Posts.like now id s = (failure 404 "Post not found", s)).
Proof.
  split.
  - apply PostsMoreFacts.like_malformed.
  - intros oid. apply PostsMoreFacts.like_missing.
Qed.

Lemma like_of_missing_post_witness :
  Posts.like 1730000050000%Z "not-an-id" Sample.blog
  = (failure 500 "Server error while liking post", Sample.blog).
Proof.
  apply (proj1 (like_of_missing_post 1730000050000%Z "not-an-id" Sample.blog)).
  vm_compute. reflexivity.
Defined.

(** X8.  A comment needs its post, its author, an e-mail address and a
    content: a creation whose body lacks one of the four, or has it as the
    empty string, is answered 400 with "Please provide all required fields"
    and stores nothing, whatever the other members are. *)
Theorem comment_requires_fields (accepts : Comment.t -> bool) (newId : ObjectId)
    (now : Date) (body : gmap string string) (s : Store) (field : string) :
  field ∈ ["postId"; "author"; "email"; "content"] ->
  JS.truthy (body !! field) = false ->
  Comments.create accepts newId now body s
  = (failure 400 "Please provide all required fields", s).
Proof. apply CommentsMoreFacts.create_incomplete. Qed.

Lemma comment_requires_fields_witness :
  Comments.create (fun _ => true) Sample.commentId 1730000100000%Z
    (<["email" := ""]> Sample.commentBody) Sample.blog
  = (failure 400 "Please provide all required fields", Sample.blog).
Proof.
  apply (comment_requires_fields (fun _ => true) Sample.commentId 1730000100000%Z
           (<["email" := ""]> Sample.commentBody) Sample.blog "email").
  - apply (bool_decide_unpack _). vm_compute. exact I.
  - vm_compute. reflexivity.
Defined.

(** X9.  Approval is what makes a comment public: once the approval of a
    stored comment was answered, the public list of the comment's post holds
    that comment, approved and with the time of the approval as its update
    time. *)
Theorem approval_publishes (now : Date) (id postId : string) (oid : ObjectId)
    (s : Store) (c : Comment.t) :
  castObjectId id = Some oid ->
  List.find (Comments.hasId oid) (comments s) = Some c ->
  castObjectId postId = Some (Comment.postId c) ->
  exists l,
    fst (Comments.index postId (snd (Comments.approve now id s)))
    = ok None (CommentList l)
    /\ Comment.set_updatedAt now (Comment.set_isApproved true c) ∈ l.
Proof.
  intros Hcast Hfind Hpost.
  rewrite (CommentsFacts.approve_found now id oid s c Hcast Hfind). cbn [snd].
  rewrite (CommentsFacts.index_valid postId (Comment.postId c) _ Hpost). cbn [fst].
  eexists. split; [done |].
  rewrite ListFacts.sortBy_perm.
  rewrite list_elem_of_In, filter_In, <- list_elem_of_In. split.
  - cbn.
    by apply (CommentsMoreFacts.updateFirst_member (Comments.hasId oid)
                (fun c => Comment.set_updatedAt now (Comment.set_isApproved true c))
                (comments s) c).
  - unfold Comments.ofPost. cbn. by rewrite bool_decide_eq_true_2.
Qed.

Lemma approval_publishes_witness :
  exists l,
    fst (Comments.index Sample.helloId
           (snd (Comments.approve 1730000200000%Z Sample.commentId Sample.commented)))
    = ok None (CommentList l)
    /\ Comment.set_updatedAt 1730000200000%Z
         (Comment.set_isApproved true
            {| Comment._id := Sample.commentId; Comment.postId := Sample.helloId;
               Comment.author := "Ada"; Comment.email := "ada@example.org";
               Comment.content := "First!"; Comment.parentId := None;
               Comment.isApproved := false;
               Comment.createdAt := 1730000100000%Z;
               Comment.updatedAt := 1730000100000%Z |}) ∈ l.
Proof.
  apply (approval_publishes 1730000200000%Z Sample.commentId Sample.helloId
           Sample.commentId Sample.commented);
    vm_compute; reflexivity.
Defined.

(** X10.  Moderating a comment that is not there changes nothing: the
    approval and the removal of an id that no comment has are answered 404,
    those of a malformed id 500, and the store is left as it is. *)
Theorem moderation_of_missing_comment (now : Date) (id : string) (s : Store) :
  (castObjectId id = None ->
   Comments.approve now id s = (failure 500 "Server error", s)
   /\ Comments.remove id s = (failure 500 "Server error", s))
  /\ (forall oid,
        castObjectId id = Some oid ->
        List.find (Comments.hasId oid) (comments s) = None ->
        Comments.approve now id s = (failure 404 "Comment not found", s)
        /\ Comments.remove id s = (failure 404 "Comment not found", s)).
Proof.
  split.
  - intros Hcast. split.
    + by apply CommentsMoreFacts.approve_malformed.
    + by apply CommentsMoreFacts.remove_malformed.
  - intros oid Hcast Hfind. split.
    + by apply (CommentsMoreFacts.approve_missing now id oid).
    + by apply (CommentsMoreFacts.remove_missing id oid).
Qed.

Lemma moderation_of_missing_comment_witness :
  Comments.approve 1730000200000%Z Sample.helloId Sample.commented
  = (failure 404 "Comment not found", Sample.commented).
Proof.
  apply (proj2 (moderation_of_missing_comment 1730000200000%Z Sample.helloId
                  Sample.commented) Sample.helloId);
    vm_compute; reflexivity.
Defined.

(** X11.  The removal of a stored comment deletes one comment and only
    comments: the posts and the categories are as before, there is one
    comment less, every comment left was there before, and a comment with
    another id is found as before.  When the ids of the stored comments are
    distinct, no comment with the removed id is left. *)
Theorem removal_deletes_one_comment (id : string) (oid : ObjectId) (s : Store)
    (c : Comment.t) :
  castObjectId id = Some oid ->
  List.find (Comments.hasId oid) (comments s) = Some c ->
  let s' := snd (Comments.remove id s) in
  posts s' = posts s
  /\ categories s' = categories s
  /\ S (length (comments s')) = length (comments s)
  /\ (forall x, x ∈ comments s' -> x ∈ comments s)
  /\ (forall other, other ≠ oid ->
        List.find (Comments.hasId other) (comments s')
        = List.find (Comments.hasId other) (comments s))
  /\ (NoDup (Comment._id <$> comments s) ->
      List.find (Comments.hasId oid) (comments s') = None).
Proof.
  intros Hcast Hfind s'. subst s'.
  rewrite (CommentsFacts.comment_remove_found id oid s c Hcast Hfind). cbn.
  split; [done |]. split; [done |]. split.
  - by apply (CommentsMoreFacts.length_deleteFirst _ _ c).
  - split; [intros x; apply CommentsMoreFacts.deleteFirst_subset |].
    split.
    + intros other Hother. by apply CommentsMoreFacts.find_deleteFirst_other.
    + apply CommentsMoreFacts.find_deleteFirst_gone.
Qed.

Lemma removal_deletes_one_comment_witness :
  comments (snd (Comments.remove Sample.commentId Sample.commented)) = [].
Proof.
  assert (Hcast : castObjectId Sample.commentId = Some Sample.commentId)
    by (vm_compute; reflexivity).
  destruct (List.find (Comments.hasId Sample.commentId) (comments Sample.commented))
    as [c|] eqn:Hfind; [|vm_compute in Hfind; discriminate].
  pose proof (proj1 (proj2 (proj2
                (removal_deletes_one_comment Sample.commentId Sample.commentId
                   Sample.commented c Hcast Hfind)))) as Hlength.
  destruct (comments (snd (Comments.remove Sample.commentId Sample.commented)))
    as [|x l]; [reflexivity |].
  vm_compute in Hlength. discriminate.
Defined.

(** X12.  What the public list serves.  Take a request that passes
    validation.  When its search, if any, is a pattern, its category, if any,
    casts to an id, the published posts of the store have a positive reading
    time and the offset of the page is a safe integer, the handler answers
    200 without touching the store, with a page of at least 1 and a limit
    between 1 and 50 in the pagination, with no more posts than the limit,
    and with posts that are stored and published, sent without their
    content.  When its category does not cast to an id (the chain accepts a
    prefix that the cast refuses), the answer is 500. *)
Theorem public_list_serves (regExp : string -> option (string -> bool)) (now : Z)
    (q : gmap string string) (s : Store) :
  Posts.listErrors q = [] ->
  ((forall src, Posts.nonEmpty (q !! "search") = Some src -> is_Some (regExp src)) ->
   (forall c, q !! "category" = Some c -> is_Some (castObjectId c)) ->
   (forall p, p ∈ posts s -> Post.status p = Post.published ->
      (0 < Post.readingTime p)%Z) ->
   (JS.parseIntOr (q !! "page") 1 * JS.parseIntOr (q !! "limit") 10
    <= JS.maxSafeInteger)%Z ->
   exists l pg,
     Posts.index regExp now q s = (ok None (PostList l pg), s)
     /\ (1 <= currentPage pg)%Z
     /\ (1 <= limit pg <= 50)%Z
     /\ (Z.of_nat (length l) <= limit pg)%Z
     /\ forall x, x ∈ l ->
          Post.content x = ""
          /\ Post.status x = Post.published
          /\ exists p, p ∈ posts s /\ x = Posts.withoutContent p)
  /\ (forall c,
        q !! "category" = Some c ->
        castObjectId c = None ->
        Posts.index regExp now q s
        = (failure 500 "Server error while fetching posts", s)).
Proof.
  intros Herr. split; [|intros c; by apply ServeFacts.index_cast_fails].
  intros Hsearch Hcategory Htimes _.
  destruct (ListingFacts.listErrors_valid q Herr) as [Hpage Hlimit].
  eexists _, _. split.
  { apply ListingFacts.index_served; [done | done | |].
    - intros c Hc. by apply Hcategory, ServeFacts.nonEmpty_some.
    - intros p Hp Hmatch. apply Htimes; [done |].
      exact (ServeFacts.publicFilter_published now q _ p Hmatch). }
  unfold Posts.pagination. cbn [currentPage limit].
  split; [done |]. split; [done |]. split.
  - rewrite length_fmap, length_take. lia.
  - intros x (p & -> & Hp)%list_elem_of_fmap.
    apply subseteq_take, subseteq_drop in Hp.
    rewrite ListFacts.sortBy_perm in Hp.
    unfold Posts.find in Hp.
    apply list_elem_of_In, filter_In in Hp as [Hin Hmatch].
    split; [done |]. split.
    + exact (ServeFacts.publicFilter_published now q _ p Hmatch).
    + exists p. split; [by apply list_elem_of_In | done].
Qed.

Lemma public_list_serves_witness :
  exists l pg,
    Posts.index (fun _ => None) 1730000100000%Z (<["limit" := "01"]> ∅) Sample.busy
    = (ok None (PostList l pg), Sample.busy)
    /\ (1 <= currentPage pg)%Z
    /\ (1 <= limit pg <= 50)%Z
    /\ (Z.of_nat (length l) <= limit pg)%Z
    /\ forall x, x ∈ l ->
         Post.content x = ""
         /\ Post.status x = Post.published
         /\ exists p, p ∈ posts Sample.busy /\ x = Posts.withoutContent p.
Proof.
  assert (Herr : Posts.listErrors (<["limit" := "01"]> ∅) = [])
    by (vm_compute; reflexivity).
  apply (proj1 (public_list_serves (fun _ => None) 1730000100000%Z
                  (<["limit" := "01"]> ∅) Sample.busy Herr)).
  - intros src Hsrc. vm_compute in Hsrc. discriminate.
  - intros c Hc. vm_compute in Hc. discriminate.
  - intros p Hp _.
    apply (ServeFacts.serialisable_all (posts Sample.busy));
      [vm_compute; reflexivity | exact Hp].
  - by vm_compute.
Defined.

(** X13.  The public list turns a bad parameter away before anything else: a
    page that is not an integer of at least 1, a limit that is not an integer
    between 1 and 50, or a sort outside latest, oldest, popular and trending
    is answered 400 with the messages of the chains; the store is left as it
    is, and the answer is the same on every store. *)
Theorem public_list_rejects (regExp : string -> option (string -> bool)) (now : Z)
    (q : gmap string string) (s : Store) :
  (exists v, q !! "page" = Some v /\ Validator.isInt 1 None v = false)
  \/ (exists v, q !! "limit" = Some v /\ Validator.isInt 1 (Some 50%Z) v = false)
  \/ (exists v, q !! "sort" = Some v /\ v ∉ Posts.publicSorts) ->
  Posts.listErrors q ≠ []
  /\ Posts.index regExp now q s = (validationFailed (Posts.listErrors q), s)
  /\ forall s2, fst (Posts.index regExp now q s2) = fst (Posts.index regExp now q s).
Proof.
  intros Hbad.
  assert (Herr : Posts.listErrors q ≠ []).
  { destruct Hbad as [(v & Hq & Hv)|[(v & Hq & Hv)|(v & Hq & Hv)]].
    - by apply (PaginationFacts.listErrors_page q v).
    - by apply (PaginationFacts.listErrors_limit q v).
    - by apply (PaginationFacts.listErrors_sort q v). }
  split; [done |]. split.
  - by apply PaginationFacts.index_rejects.
  - intros s2. by rewrite !PaginationFacts.index_rejects.
Qed.

Lemma public_list_rejects_witness :
  Posts.index (fun _ => None) 1730000100000%Z (<["limit" := "51"]> ∅) Sample.busy
  = (validationFailed ["Limit must be between 1 and 50"], Sample.busy).
Proof.
  refine (eq_trans
            (proj1 (proj2 (public_list_rejects (fun _ => None) 1730000100000%Z
                             (<["limit" := "51"]> ∅) Sample.busy _))) _).
  - right. left. exists "51". split; vm_compute; reflexivity.
  - vm_compute. reflexivity.
Defined.

(** X14.  The trending list: the route always answers with a list of posts
    and leaves the store as it is; the posts it sends are stored, published,
    and published within the seven days before the request; they come most
    viewed first and, at equal views, most liked first; and there are no more
    of them than the limit asked for, 5 when none is. *)
Theorem trending_list (now : Z) (q : gmap string string) (s : Store) :
  exists l,
    PostsRest.trending now q s = (inr l, s)
    /\ (Z.of_nat (length l) <= Z.abs (JS.parseIntOr (q !! "limit") 5))%Z
    /\ (q !! "limit" = None -> (length l <= 5)%nat)
    /\ Sorted (fun a b => Posts.before Posts.ViewsLikesDesc a b = true) l
    /\ forall x, x ∈ l ->
         x ∈ posts s
         /\ Post.status x = Post.published
         /\ exists d, Post.publishedAt x = Some d /\ (now - Posts.weekMs <= d)%Z.
Proof.
  eexists. split; [apply PostsRestFacts.trending_served |].
  split; [rewrite length_take; lia |].
  split.
  - intros Hnone. rewrite Hnone, length_take.
    change (Z.to_nat (Z.abs (JS.parseIntOr None 5))) with 5%nat. lia.
  - split.
    + apply SortFacts.take_sorted, SortFacts.sortBy_sorted, SortFacts.orders_total.
    + intros x Hx. apply subseteq_take in Hx.
      rewrite ListFacts.sortBy_perm in Hx. unfold Posts.find in Hx.
      apply list_elem_of_In, filter_In in Hx as [Hin Hmatch].
      split; [by apply list_elem_of_In |].
      by apply PostsRestFacts.trending_matches.
Qed.

(** X15.  The estimated reading time of a post is at least one minute: it is
    the stored reading time when that is positive, and otherwise the number
    of pieces of the content divided by 200 and rounded up. *)
Theorem estimatedReadingTime_at_least_one (p : Post.t) :
  (1 <= PostsRest.estimatedReadingTime p)%Z
  /\ ((0 < Post.readingTime p)%Z ->
      PostsRest.estimatedReadingTime p = Post.readingTime p)
  /\ ((Post.readingTime p <= 0)%Z ->
      Spec.isCeiling (JS.splitCount (Post.content p)) 200
        (PostsRest.estimatedReadingTime p)).
Proof.
  split; [apply PostsRestFacts.estimatedReadingTime_positive |].
  unfold PostsRest.estimatedReadingTime. split; intros Htime.
  - by rewrite (proj2 (Z.ltb_lt _ _) Htime).
  - rewrite (proj2 (Z.ltb_ge _ _) Htime).
    by apply PaginationFacts.ceilDiv_ceiling.
Qed.

Lemma estimatedReadingTime_at_least_one_witness :
  PostsRest.estimatedReadingTime (Post.set_readingTime 4 (Post.blank Sample.helloId))
  = 4%Z.
Proof.
  apply (proj1 (proj2 (estimatedReadingTime_at_least_one
                         (Post.set_readingTime 4 (Post.blank Sample.helloId))))).
  vm_compute. reflexivity.
Defined.



(** X17.  The removal of a post by an administrator deletes that post and
    nothing else: the comments (those of the removed post too) and the
    categories are as before, there is one post less, a post with another id
    is found as before, and when the ids of the stored posts are distinct the
    removed id is found no more.  An id that no post has is answered 404, a
    malformed one 500, and a caller the admin check turned away gets the
    answer of the check; the three leave the store as it is. *)
Theorem post_removal (check : AdminCheck) (id : string) (s : Store) :
  (forall answer, check = Reject answer ->
     PostsRest.remove check id s = (answer, s))
  /\ (forall user, check = Pass user ->
        (castObjectId id = None ->
         PostsRest.remove check id s
         = (failure 500 "Server error while deleting post", s))
        /\ forall oid, castObjectId id = Some oid ->
             (Posts.findById oid s = None ->
              PostsRest.remove check id s = (failure 404 "Post not found", s))
             /\ forall p, Posts.findById oid s = Some p ->
                  let s' := snd (PostsRest.remove check id s) in
                  fst (PostsRest.remove check id s)
                  = ok (Some "Post deleted successfully") NoData
                  /\ comments s' = comments s
                  /\ categories s' = categories s
                  /\ S (length (posts s')) = length (posts s)
                  /\ (forall other, other ≠ oid ->
                        Posts.findById other s' = Posts.findById other s)
                  /\ (NoDup (Post._id <$> posts s) -> Posts.findById oid s' = None)).
Proof.
  split.
  - intros answer ->. apply PostsRestFacts.post_remove_rejected.
  - intros user ->. split.
    + apply PostsRestFacts.post_remove_malformed.
    + intros oid Hcast. split.
      * by apply PostsRestFacts.post_remove_missing.
      * intros p Hfind. cbv zeta.
        rewrite (PostsRestFacts.post_remove_found user id oid s p Hcast Hfind).
        cbn [fst snd]. split; [done |]. split; [done |]. split; [done |].
        split; [by apply (CommentsMoreFacts.length_deleteFirst _ _ p) |].
        split.
        -- intros other Hother. unfold Posts.findById. cbn.
           by apply PostsRestFacts.post_find_deleteFirst_other.
        -- intros Hdistinct. unfold Posts.findById. cbn.
           by apply PostsRestFacts.post_find_deleteFirst_gone.
Qed.

Lemma post_removal_witness :
  posts (snd (PostsRest.remove (Pass Sample.admin) Sample.helloId Sample.blog)) = [].
Proof.
  assert (Hcast : castObjectId Sample.helloId = Some Sample.helloId)
    by (vm_compute; reflexivity).
  destruct (Posts.findById Sample.helloId Sample.blog) as [p|] eqn:Hfind;
    [|vm_compute in Hfind; discriminate].
  destruct (proj2 (proj2 (post_removal (Pass Sample.admin) Sample.helloId Sample.blog)
                     Sample.admin eq_refl) Sample.helloId Hcast) as [_ Hfound].
  destruct (Hfound p Hfind) as (_ & _ & _ & Hlength & _).
  destruct (posts (snd (PostsRest.remove (Pass Sample.admin) Sample.helloId Sample.blog)))
    as [|x l]; [reflexivity |].
  vm_compute in Hlength. discriminate.
Defined.

Lemma trending_list_witness :
  exists l,
    PostsRest.trending 1730000100000%Z ∅ Sample.busy = (inr l, Sample.busy)
    /\ (length l <= 5)%nat.
Proof.
  destruct (trending_list 1730000100000%Z ∅ Sample.busy)
    as (l & Hserved & _ & Hdefault & _).
  exists l. split; [exact Hserved | apply Hdefault; reflexivity].
Defined.



(** X19.  The admin list of posts.  A caller the admin check turned away
    gets the answer of the check, and a bad parameter is answered 400 with
    the messages of the chains; the store is never touched.  Whenever the
    route answers an administrator with a page, the page is drawn from the
    posts of every status: without a status in the request the total is the
    number of stored posts, and with one every post of the page has it.  The
    posts are sent without their content and have a positive reading time,
    they are no more than the limit, which is at most 50, and they come by
    title when the sort is title and newest creation first when there is
    none.  On a valid request, when the stored posts have a positive reading
    time and the offset is a safe integer, the route does answer with a
    page. *)
Theorem admin_list (check : AdminCheck) (q : gmap string string) (s : Store) :
  (forall answer, check = Reject answer -> Posts.adminIndex check q s = (answer, s))
  /\ (forall user, check = Pass user ->
        snd (Posts.adminIndex check q s) = s
        /\ (Posts.adminListErrors q ≠ [] ->
            Posts.adminIndex check q s
            = (validationFailed (Posts.adminListErrors q), s))
        /\ (forall l pg,
              data (fst (Posts.adminIndex check q s)) = PostList l pg ->
              (Z.of_nat (length l) <= limit pg <= 50)%Z
              /\ (q !! "status" = None ->
                  totalPosts pg = Z.of_nat (length (posts s)))
              /\ (forall st, q !! "status" = Some st ->
                    exists status,
                      Post.statusOfString st = Some status
                      /\ forall x, x ∈ l -> Post.status x = status)
              /\ (forall x, x ∈ l ->
                    Post.content x = ""
                    /\ (0 < Post.readingTime x)%Z
                    /\ exists p, p ∈ posts s /\ x = Posts.withoutContent p)
              /\ (q !! "sort" = Some "title" ->
                  Sorted (fun a b =>
                            String.leb (Post.title a) (Post.title b) = true) l)
              /\ (q !! "sort" = None ->
                  Sorted (fun a b => (Post.createdAt b <= Post.createdAt a)%Z) l))
        /\ (Posts.adminListErrors q = [] ->
            (forall p, p ∈ posts s -> (0 < Post.readingTime p)%Z) ->
            (JS.parseIntOr (q !! "page") 1 * JS.parseIntOr (q !! "limit") 10
             <= JS.maxSafeInteger)%Z ->
            exists l pg,
              Posts.adminIndex check q s = (ok None (PostList l pg), s))).
Proof.
  split; [by intros answer -> |].
  intros user ->. split; [|split; [|split]].
  - destruct (decide (Posts.adminListErrors q = [])) as [Herr|Herr].
    + unfold Posts.adminIndex, Posts.findPage, Posts.json. run_handler.
      rewrite Herr. cbn.
      destruct (page _ _ _) as [found|]; cbn; [|done].
      by destruct (forallb _ _).
    + by rewrite OrderFacts.adminIndex_invalid.
  - apply OrderFacts.adminIndex_invalid.
  - intros l pg Hdata.
    pose proof (PaginationFacts.adminIndex_pagination user q s l pg Hdata) as Hpg.
    destruct (OrderFacts.adminIndex_page user q s l pg Hdata)
      as (Herr & found & Hpage & -> & Hall).
    cbv zeta in Hpage.
    destruct (OrderFacts.adminListErrors_valid q Herr)
      as (_ & Hlimit & Hstatus & _).
    subst pg. unfold Posts.pagination. cbn [limit totalPosts].
    split.
    { rewrite length_fmap.
      pose proof (OrderFacts.page_length _ _ _ _ Hpage). lia. }
    split.
    { intros Hnone. unfold Posts.countDocuments, count.
      fold (Posts.find (Posts.adminFilter q) s).
      by rewrite OrderFacts.adminFilter_all. }
    split.
    { intros st Hst. rewrite Hst in Hstatus.
      destruct (OrderFacts.adminFilter_status q st Hstatus Hst)
        as (status & Hof & Hfilter).
      exists status. split; [done |].
      intros x (p & -> & Hp)%list_elem_of_fmap.
      destruct (OrderFacts.page_matches _ _ _ _ _ _ p Hpage Hp) as [_ Hmatch].
      unfold Posts.matches in Hmatch. rewrite Hfilter in Hmatch. cbn in Hmatch.
      repeat (apply andb_true_iff in Hmatch as [Hmatch _]).
      by apply bool_decide_eq_true in Hmatch. }
    split.
    { intros x Hx. split; [|split].
      - apply list_elem_of_fmap in Hx as (p & -> & _). done.
      - by apply (ServeFacts.serialisable_all _ Hall).
      - apply list_elem_of_fmap in Hx as (p & -> & Hp).
        destruct (OrderFacts.page_matches _ _ _ _ _ _ p Hpage Hp) as [Hin _].
        by exists p. }
    assert (Hsorted : forall o,
              page ((JS.parseIntOr (q !! "page") 1 - 1)
                    * JS.parseIntOr (q !! "limit") 10)
                (JS.parseIntOr (q !! "limit") 10)
                (sortBy (Posts.before o) (Posts.find (Posts.adminFilter q) s))
              = Some found ->
              Sorted (fun a b => Posts.before o a b = true)
                (Posts.withoutContent <$> found)).
    { intros o Ho.
      apply (SortFacts.fmap_sorted (fun a b => Posts.before o a b = true)).
      - intros a b. by rewrite OrderFacts.before_withoutContent.
      - apply (OrderFacts.page_keeps_sorted _ _ _ _ _ Ho).
        apply SortFacts.sortBy_sorted, SortFacts.orders_total. }
    split.
    { intros Hsort. rewrite Hsort in Hpage. cbn in Hpage.
      by apply (Hsorted Posts.TitleAsc). }
    { intros Hsort. rewrite Hsort in Hpage. cbn in Hpage.
      apply (MoreListFacts.sorted_weaken
               (fun a b => Posts.before Posts.CreatedDesc a b = true)).
      - intros a b. cbn. by rewrite Z.leb_le.
      - by apply (Hsorted Posts.CreatedDesc). }
  - intros Herr Htimes _. eexists _, _.
    apply OrderFacts.adminIndex_served; [done |].
    intros p Hp _. by apply Htimes.
Qed.

Lemma admin_list_witness :
  exists l pg,
    Posts.adminIndex (Pass Sample.admin) (<["page" := "01"]> ∅) Sample.busy
    = (ok None (PostList l pg), Sample.busy).
Proof.
  destruct (proj2 (admin_list (Pass Sample.admin) (<["page" := "01"]> ∅)
                     Sample.busy) Sample.admin eq_refl)
    as (_ & _ & _ & Hserved).
  apply Hserved.
  - vm_compute. reflexivity.
  - intros p Hp.
    apply (ServeFacts.serialisable_all (posts Sample.busy));
      [vm_compute; reflexivity | exact Hp].
  - by vm_compute.
Defined.



(** X21.  The creation of a post.  A caller the admin check turned away
    gets the answer of the check.  For an administrator: a body without a
    title, or with the empty title, is answered 400 with the message
    "Invalid value" among the errors (the chain names its message for the
    length only); one without a content with "Content is required", and one
    without a category with "Valid category ID is required"; a category the
    chains accept and the cast refuses is answered 500, and one that is not
    stored 400; none of them writes.  Whatever the body, either nothing is
    written and the answer is not a success, or one post is added at the end
    of the collection and sent back with status 201: it has the generated
    id, the caller as its author, no views and no likes whatever the body
    says, a title and a content that are not empty, and a slug that no other
    stored post has. *)
Theorem post_creation (slugify : string -> string) (check : AdminCheck) (clk : Clock)
    (newId : ObjectId) (body : gmap string Posts.Value) (s : Store) :
  (forall answer, check = Reject answer ->
     Posts.create slugify check clk newId body s = (answer, s))
  /\ (forall user, check = Pass user ->
        (forall field msg,
           (field = "title" /\ msg = "Invalid value"
            \/ field = "content" /\ msg = "Content is required") ->
           body !! field = None \/ body !! field = Some (Posts.VString "") ->
           snd (Posts.create slugify check clk newId body s) = s
           /\ statusCode (fst (Posts.create slugify check clk newId body s)) = 400%Z
           /\ msg ∈ errors (fst (Posts.create slugify check clk newId body s)))
        /\ (body !! "category" = None ->
            snd (Posts.create slugify check clk newId body s) = s
            /\ statusCode (fst (Posts.create slugify check clk newId body s)) = 400%Z
            /\ "Valid category ID is required"
               ∈ errors (fst (Posts.create slugify check clk newId body s)))
        /\ (Posts.createErrors body = [] ->
            castObjectId (default "" (body !! "category" ≫= Posts.text)) = None ->
            Posts.create slugify check clk newId body s
            = (failure 500 "Server error while creating post", s))
        /\ (forall cid,
              Posts.createErrors body = [] ->
              castObjectId (default "" (body !! "category" ≫= Posts.text)) = Some cid ->
              Posts.categoryExists cid s = false ->
              Posts.create slugify check clk newId body s
              = (failure 400 "Invalid category", s))
        /\ ((snd (Posts.create slugify check clk newId body s) = s
             /\ success (fst (Posts.create slugify check clk newId body s)) = false)
            \/ exists p,
                 Posts.create slugify check clk newId body s
                 = (created "Post created successfully" (OnePost p),
                    set_posts (posts s ++ [p]) s)
                 /\ Post._id p = newId
                 /\ Post.author p = user
                 /\ Post.views p = 0%Z
                 /\ Post.likes p = 0%Z
                 /\ Post.title p ≠ ""
                 /\ Post.content p ≠ ""
                 /\ forall other, other ∈ posts s ->
                      Post.slug other = Post.slug p -> Post._id other = newId)).
Proof.
  split; [by intros answer -> |].
  intros user ->.
  assert (Hinvalid : forall msg,
            msg ∈ Posts.createErrors body ->
            snd (Posts.create slugify (Pass user) clk newId body s) = s
            /\ statusCode (fst (Posts.create slugify (Pass user) clk newId body s))
               = 400%Z
            /\ msg ∈ errors (fst (Posts.create slugify (Pass user) clk newId body s))).
  { intros msg Hmsg.
    rewrite CreateFacts.create_invalid; [done |].
    intros Hnone. rewrite Hnone in Hmsg. by apply elem_of_nil in Hmsg. }
  split.
  { intros field msg [[-> ->] | [-> ->]] Hmissing; apply Hinvalid.
    - by apply ServeFacts.createErrors_title.
    - by apply ServeFacts.createErrors_content. }
  split; [intros Hmissing; by apply Hinvalid, ServeFacts.createErrors_category |].
  split; [by apply ServeFacts.create_cast_fails |].
  split; [intros cid; by apply CreateFacts.create_unknown_category |].
  destruct (CreateFacts.create_outcome slugify user clk newId body s)
    as [Hnothing | (d & Hd & Hvalid & Htaken & Hcreated)]; [by left |].
  right. exists (Posts.written slugify clk d). split; [done |].
  destruct (MoreListFacts.validate_required d Hvalid)
    as (Htitle & _ & Hcontent & _).
  assert (Hid : Post._id (Posts.written slugify clk d) = newId).
  { rewrite PostsFacts.written_id.
    by rewrite (CreateFacts.construct_frame Post._id newId user body d
                  PostsFacts.untouched_id Hd). }
  split; [done |].
  split.
  { rewrite HookFacts.written_frame by done.
    by rewrite (CreateFacts.construct_frame Post.author newId user body d
                  UpdateFacts.untouched_author Hd). }
  split.
  { rewrite HookFacts.written_frame by done.
    by rewrite (CreateFacts.construct_frame Post.views newId user body d
                  UpdateFacts.untouched_views Hd). }
  split.
  { rewrite HookFacts.written_frame by done.
    by rewrite (CreateFacts.construct_frame Post.likes newId user body d
                  UpdateFacts.untouched_likes Hd). }
  split; [by rewrite HookFacts.written_frame by done |].
  split; [by rewrite HookFacts.written_frame by done |].
  intros other Hother Hslug. rewrite <- Hid.
  by apply (CreateFacts.slugTaken_false _ s Htaken).
Qed.

Lemma post_creation_witness :
  Posts.create Slugify.slugify (Pass Sample.admin) Sample.clock Sample.longId
    (<["category" := Posts.VString "0x5f000000000000000000a1"]> Sample.longBody)
    Sample.empty
  = (failure 500 "Server error while creating post", Sample.empty).
Proof.
  destruct (proj2 (post_creation Slugify.slugify (Pass Sample.admin) Sample.clock
                     Sample.longId
                     (<["category" := Posts.VString "0x5f000000000000000000a1"]>
                        Sample.longBody)
                     Sample.empty)
              Sample.admin eq_refl) as (_ & _ & Hcast & _).
  apply Hcast; vm_compute; reflexivity.
Defined.

(** X22.  The posts of a category.  The route never writes.  A slug that no
    active category has is answered 404.  For an active category, a page and
    a limit whose offset is negative are answered 500.  Whenever the route
    answers with a page, the category of the answer is the active one with
    the slug, and the posts are published, of that category, without their
    content, with a positive reading time and newest publication first.
    When the offset is a safe integer, the limit positive, and the published
    posts of the category have a positive reading time, the route does
    answer with a page. *)
Theorem category_posts (slug : string) (q : gmap string string) (s : Store) :
  snd (Categories.postsOf slug q s) = s
  /\ (Categories.findActiveBySlug slug s = None ->
      fst (Categories.postsOf slug q s) = failure 404 "Category not found")
  /\ (forall c l pg,
        data (fst (Categories.postsOf slug q s)) = CategoryPostList c l pg ->
        Categories.findActiveBySlug slug s = Some c
        /\ Category.isActive c = true
        /\ Sorted (fun a b =>
                     Posts.dateLe (Post.publishedAt b) (Post.publishedAt a) = true) l
        /\ forall x, x ∈ l ->
             Post.status x = Post.published
             /\ Post.category x = JS.toLowerCase (Category._id c)
             /\ Post.content x = ""
             /\ (0 < Post.readingTime x)%Z)
  /\ forall c,
       Categories.findActiveBySlug slug s = Some c ->
       let offset :=
         ((JS.parseIntOr (q !! "page") 1 - 1) * JS.parseIntOr (q !! "limit") 10)%Z in
       ((offset < 0)%Z ->
        fst (Categories.postsOf slug q s)
        = failure 500 "Server error while fetching category posts")
       /\ ((0 <= offset <= JS.maxSafeInteger)%Z ->
           (0 < JS.parseIntOr (q !! "limit") 10 <= JS.maxSafeInteger)%Z ->
           (forall p, p ∈ posts s ->
              Post.status p = Post.published ->
              Post.category p = JS.toLowerCase (Category._id c) ->
              (0 < Post.readingTime p)%Z) ->
           exists l pg,
             fst (Categories.postsOf slug q s) = ok None (CategoryPostList c l pg)).
Proof.
  split; [apply CategoriesRestFacts.postsOf_store |].
  split; [intros Hfind; by rewrite CategoriesRestFacts.postsOf_missing |].
  split.
  - intros c l pg Hdata.
    destruct (CategoriesRestFacts.postsOf_page slug q s c l pg Hdata)
      as (Hfind & found & Hpage & -> & Hall).
    split; [done |].
    split; [by apply (CategoriesRestFacts.findActiveBySlug_active slug s) |].
    split.
    + apply (SortFacts.fmap_sorted
               (fun a b => Posts.before Posts.PublishedDesc a b = true)).
      * intros a b Hab. exact Hab.
      * apply (OrderFacts.page_keeps_sorted _ _ _ _ _ Hpage).
        apply SortFacts.sortBy_sorted, SortFacts.orders_total.
    + intros x Hx.
      assert (Htime : (0 < Post.readingTime x)%Z).
      { by apply (ServeFacts.serialisable_all _ Hall). }
      apply list_elem_of_fmap in Hx as (p & -> & Hp).
      destruct (OrderFacts.page_matches _ _ _ _ _ _ p Hpage Hp) as [_ Hmatch].
      destruct (CategoriesRestFacts.categoryFilter_matches c p Hmatch). done.
  - intros c Hfind. cbv zeta. split.
    + intros Hneg. by rewrite (CategoriesRestFacts.postsOf_refused slug q s c).
    + intros [Hpos _] _ Htimes. eexists _, _.
      rewrite (CategoriesRestFacts.postsOf_served slug q s c Hfind Hpos);
        [reflexivity |].
      intros p Hp Hmatch.
      destruct (CategoriesRestFacts.categoryFilter_matches c p Hmatch).
      by apply Htimes.
Qed.

Lemma category_posts_witness :
  exists l pg,
    fst (Categories.postsOf "tech" (<["limit" := "100"]> ∅) Sample.busy)
    = ok None (CategoryPostList Sample.tech l pg).
Proof.
  destruct (proj2 (proj2 (proj2 (category_posts "tech" (<["limit" := "100"]> ∅)
                                   Sample.busy))) Sample.tech) as [_ Hserved].
  - vm_compute. reflexivity.
  - apply Hserved.
    + by vm_compute.
    + by vm_compute.
    + intros p Hp _ _.
      apply (ServeFacts.serialisable_all (posts Sample.busy));
        [vm_compute; reflexivity | exact Hp].
Defined.

(** X23.  What the removal of a category leaves behind.  Posts and comments
    are as before, and so is every category but at most one.  An id that no
    category has is answered 404 and a malformed one 500, without a write.
    When the store does change, no post and no category of the new store
    refers to the removed id: the removal leaves no dangling reference. *)
Theorem category_removal_frame (check : AdminCheck) (id : string) (s : Store) :
  let s' := snd (Categories.remove check id s) in
  posts s' = posts s
  /\ comments s' = comments s
  /\ (forall c, c ∈ categories s' -> c ∈ categories s)
  /\ (length (categories s) <= S (length (categories s')))%nat
  /\ (forall user, check = Pass user ->
        (castObjectId id = None ->
         Categories.remove check id s
         = (failure 500 "Server error while deleting category", s))
        /\ forall oid, castObjectId id = Some oid ->
             (Categories.findById oid s = None ->
              Categories.remove check id s = (failure 404 "Category not found", s))
             /\ (s' ≠ s ->
                 (forall p, p ∈ posts s' -> Post.category p ≠ oid)
                 /\ forall c, c ∈ categories s' ->
                      Category.parentCategory c ≠ Some oid)).
Proof.
  cbv zeta. split; [|split; [|split; [|split]]].
  - destruct (CategoriesRestFacts.category_remove_store check id s)
      as [-> | (oid & c & _ & _ & _ & _ & ->)]; done.
  - destruct (CategoriesRestFacts.category_remove_store check id s)
      as [-> | (oid & c & _ & _ & _ & _ & ->)]; done.
  - destruct (CategoriesRestFacts.category_remove_store check id s)
      as [-> | (oid & c & _ & _ & _ & _ & ->)]; [done |].
    cbn. intros x. apply CommentsMoreFacts.deleteFirst_subset.
  - destruct (CategoriesRestFacts.category_remove_store check id s)
      as [-> | (oid & c & _ & Hfind & _ & _ & ->)]; [lia |].
    cbn. unfold Categories.findById in Hfind.
    rewrite <- (CommentsMoreFacts.length_deleteFirst _ _ c Hfind). lia.
  - intros user ->. split; [apply CategoriesRestFacts.category_remove_malformed |].
    intros oid Hcast. split; [by apply CategoriesRestFacts.category_remove_missing |].
    intros Hchanged.
    destruct (CategoriesRestFacts.category_remove_store (Pass user) id s)
      as [Hsame | (oid' & c & Hcast' & Hfind & Hposts & Hsubs & Hstore)]; [done |].
    rewrite Hcast in Hcast'. injection Hcast' as <-.
    rewrite Hstore. cbn. split.
    + intros p Hp Hcat.
      pose proof (MoreListFacts.count_zero _ _ Hposts p Hp) as Hno.
      by apply bool_decide_eq_false in Hno.
    + intros c' Hc' Hparent.
      apply CommentsMoreFacts.deleteFirst_subset in Hc'.
      pose proof (MoreListFacts.count_zero _ _ Hsubs c' Hc') as Hno.
      by apply bool_decide_eq_false in Hno.
Qed.

Lemma category_removal_frame_witness :
  Categories.remove (Pass Sample.admin) Sample.helloId Sample.busy
  = (failure 404 "Category not found", Sample.busy).
Proof.
  destruct (category_removal_frame (Pass Sample.admin) Sample.helloId Sample.busy)
    as (_ & _ & _ & _ & Herrors).
  destruct (Herrors Sample.admin eq_refl) as [_ Hcast].
  apply (Hcast Sample.helloId); vm_compute; reflexivity.
Defined.

(** X24.  The lists of categories.  The public list holds the active
    categories, none dropped and none repeated, by sort order and then by
    name, and the route leaves the store as it is.  The list with counts is that list with the
    post count of each category replaced by the number of stored posts that
    refer to it, whatever their status.  The admin list holds every stored
    category, inactive ones too, in the same order, and a caller the admin
    check turned away gets the answer of the check. *)
Theorem category_lists (s : Store) :
  let inOrder (a b : Category.t) :=
    (Category.sortOrder a < Category.sortOrder b)%Z
    \/ (Category.sortOrder a = Category.sortOrder b
        /\ String.leb (Category.name a) (Category.name b) = true) in
  exists active,
    CategoriesRest.index s = (inr active, s)
    /\ active ≡ₚ List.filter Category.isActive (categories s)
    /\ Sorted inOrder active
    /\ CategoriesRest.withCounts s
       = (inr ((fun c =>
                  Category.set_postCount (Categories.postCount (Category._id c) s) c)
                 <$> active), s)
    /\ forall check,
         match check with
         | Reject answer => CategoriesRest.adminIndex check s = (inl answer, s)
         | Pass _ =>
             exists all,
               CategoriesRest.adminIndex check s = (inr all, s)
               /\ all ≡ₚ categories s
               /\ Sorted inOrder all
         end.
Proof.
  cbv zeta.
  assert (Horder : forall l,
            Sorted (fun a b =>
                      (Category.sortOrder a < Category.sortOrder b)%Z
                      \/ (Category.sortOrder a = Category.sortOrder b
                          /\ String.leb (Category.name a) (Category.name b) = true))
              (sortBy CategoriesRest.byOrder l)).
  { intros l.
    apply (MoreListFacts.sorted_weaken
             (fun a b => CategoriesRest.byOrder a b = true)).
    - intros a b. unfold CategoriesRest.byOrder.
      rewrite orb_true_iff, andb_true_iff, Z.ltb_lt, Z.eqb_eq. tauto.
    - apply CategoriesRestFacts.sorted_byOrder. }
  exists (CategoriesRest.findActive s). split; [done |].
  split; [apply ListFacts.sortBy_perm |]. split; [apply Horder |]. split.
  - unfold CategoriesRest.withCounts, CategoriesRest.findWithPostCount,
      CategoriesRest.findActive, PostsRest.tryCatchData. cbn.
    by rewrite (MoreListFacts.sortBy_fmap CategoriesRest.byOrder
                  (fun c => Category.set_postCount
                              (Categories.postCount (Category._id c) s) c)).
  - intros [user|answer]; [|done].
    exists (sortBy CategoriesRest.byOrder (categories s)).
    split; [done |]. split; [apply ListFacts.sortBy_perm | apply Horder].
Qed.

(** X25.  A category read by its slug.  The route leaves the store as it is
    and answers with a stored category that is active and has the slug of
    the request in lower case; when every stored category with that slug is
    inactive the answer is 404, as for a slug that no category has. *)
Theorem category_by_slug (slug : string) (s : Store) :
  snd (CategoriesRest.show slug s) = s
  /\ (forall c, fst (CategoriesRest.show slug s) = inr c ->
        c ∈ categories s
        /\ Category.isActive c = true
        /\ Category.slug c = JS.toLowerCase slug)
  /\ ((forall c, c ∈ categories s ->
         Category.slug c = JS.toLowerCase slug -> Category.isActive c = false) ->
      fst (CategoriesRest.show slug s) = inl (failure 404 "Category not found")).
Proof.
  destruct (Categories.findActiveBySlug slug s) as [c|] eqn:Hfind.
  - rewrite (CategoriesRestFacts.category_show_found slug s c Hfind).
    destruct (CategoriesRestFacts.findActiveBySlug_active slug s c Hfind)
      as (Hin & Hslug & Hactive).
    split; [done |]. split.
    + intros c' [= <-]. done.
    + intros Hhidden. rewrite (Hhidden c Hin Hslug) in Hactive. done.
  - rewrite (CategoriesRestFacts.category_show_missing slug s Hfind).
    split; [done |]. split; [intros c' [=] | done].
Qed.

Lemma category_by_slug_witness :
  Sample.tech ∈ categories Sample.busy
  /\ Category.isActive Sample.tech = true
  /\ Category.slug Sample.tech = JS.toLowerCase "Tech".
Proof.
  apply (proj1 (proj2 (category_by_slug "Tech" Sample.busy)) Sample.tech).
  vm_compute. reflexivity.
Defined.
